(** * File sorter: a shallow embedding of [file_sorter/config.py],
    [file_sorter/core.py] and the caller in [file_sorter/cli.py], and the
    properties of its sorting engine.

    Strings are ASCII strings; paths are strings and the filesystem is keyed
    by the path string as the program spells it (no normalisation of [.],
    [..] or symbolic links). *)

From stdpp Require Import base gmap sets list strings pretty.
From Stdlib Require Import ZArith Ascii.

Open Scope Z_scope.

Abbreviation path := string.

(* ------------------------------------------------------------------ *)
(** ** [posixpath] helpers used by the program *)

Module PyPath.

(** [s.rfind(c)]: index of the last occurrence of [c], or [-1]. *)
Fixpoint rfind_go (c : ascii) (s : string) (i acc : Z) : Z :=
  match s with
  | EmptyString => acc
  | String a s' => rfind_go c s' (i + 1) (if Ascii.eqb a c then i else acc)
  end.

Definition rfind (c : ascii) (s : string) : Z := rfind_go c s 0 (-1).

(** [s[i:]] and [s[:i]] for [0 <= i]. *)
Definition slice_from (s : string) (i : Z) : string :=
  String.substring (Z.to_nat i) (String.length s - Z.to_nat i) s.

Definition slice_to (s : string) (i : Z) : string :=
  String.substring 0 (Z.to_nat i) s.

(** [s[i:i+1] != c] *)
Definition char_differs (s : string) (i : Z) (c : ascii) : bool :=
  match String.get (Z.to_nat i) s with
  | Some a => negb (Ascii.eqb a c)
  | None => true
  end.

(** [posixpath.splitext] (via [genericpath._splitext]): the extension
    starts at the last dot of the last component, unless everything before
    that dot in the component is a dot. *)
Definition splitext (p : string) : string * string :=
  let sepIndex := rfind "/"%char p in
  let dotIndex := rfind "."%char p in
  if sepIndex <? dotIndex then
    let filenameIndex := sepIndex + 1 in
    if existsb (fun i => char_differs p i "."%char)
         (map Z.of_nat (seq (Z.to_nat filenameIndex)
                            (Z.to_nat (dotIndex - filenameIndex))))
    then (slice_to p dotIndex, slice_from p dotIndex)
    else (p, ""%string)
  else (p, ""%string).

(** [posixpath.basename] *)
Definition basename (p : string) : string :=
  slice_from p (rfind "/"%char p + 1).

Fixpoint drop_slashes (l : list ascii) : list ascii :=
  match l with
  | a :: l' => if Ascii.eqb a "/"%char then drop_slashes l' else l
  | [] => []
  end.

(** [head.rstrip('/')] *)
Definition rstrip_slash (s : string) : string :=
  String.string_of_list_ascii
    (rev (drop_slashes (rev (String.list_ascii_of_string s)))).

Definition all_slashes (s : string) : bool :=
  forallb (fun a => Ascii.eqb a "/"%char) (String.list_ascii_of_string s).

(** [posixpath.dirname] *)
Definition dirname (p : string) : string :=
  let head := slice_to p (rfind "/"%char p + 1) in
  if negb (String.eqb head "") && negb (all_slashes head)
  then rstrip_slash head else head.

Definition ends_with_slash (s : string) : bool :=
  match String.get (String.length s - 1)%nat s with
  | Some a => Ascii.eqb a "/"%char
  | None => false
  end.

(** [posixpath.join(a, b)] for two arguments. *)
Definition join (a b : string) : string :=
  if String.prefix "/" b then b
  else if String.eqb a "" || ends_with_slash a then a +:+ b
  else a +:+ "/" +:+ b.

(** [str.lower] on ASCII characters. *)
Definition lower_char (c : ascii) : ascii :=
  let n := nat_of_ascii c in
  if (65 <=? n)%nat && (n <=? 90)%nat then ascii_of_nat (n + 32) else c.

Fixpoint lower (s : string) : string :=
  match s with
  | EmptyString => EmptyString
  | String c s' => String (lower_char c) (lower s')
  end.

(** [str(n)] for a natural number: its decimal digits. *)
Definition str_nat (n : nat) : string := pretty n.

End PyPath.

Import PyPath.

(* ------------------------------------------------------------------ *)
(** ** [config.py]: the category map *)

Module Config.

(** [self.categories]: an insertion-ordered dict from category name to the
    list of its extensions. *)
Abbreviation categories := (list (string * list string)).

Definition DEFAULT_CATEGORIES : categories := [
  ("Videos", [".mp4"; ".mkv"; ".avi"; ".mov"; ".wmv"; ".flv"; ".webm"]);
  ("Pictures", [".jpg"; ".jpeg"; ".png"; ".gif"; ".bmp"; ".svg"; ".ico"; ".tiff"; ".webp"]);
  ("Music", [".mp3"; ".wav"; ".flac"; ".aac"; ".ogg"; ".m4a"; ".wma"]);
  ("Documents", [".pdf"; ".docx"; ".txt"; ".pptx"; ".xlsx"; ".doc"; ".xls"; ".ppt"; ".odt"; ".rtf"]);
  ("Archives", [".zip"; ".rar"; ".7z"; ".tar"; ".gz"; ".bz2"; ".xz"]);
  ("Code", [".py"; ".js"; ".java"; ".cpp"; ".c"; ".h"; ".cs"; ".php"; ".rb"; ".go"; ".rs"; ".html"; ".css"]);
  ("Executables", [".exe"; ".msi"; ".app"; ".deb"; ".rpm"; ".dmg"]);
  ("Spreadsheets", [".csv"; ".xlsx"; ".xls"; ".ods"])]%string.

(** [extension in extensions] *)
Definition str_in (x : string) (l : list string) : bool :=
  existsb (String.eqb x) l.

(** The [for category, extensions in self.categories.items()] loop. *)
Fixpoint find_category (extension : string) (cats : categories) : option string :=
  match cats with
  | [] => None
  | (category, extensions) :: cats' =>
      if str_in extension extensions then Some category
      else find_category extension cats'
  end.

(** [Config.get_category_for_extension]: lower the argument, then return
    the first category whose list contains it. *)
Definition get_category_for_extension (cats : categories) (extension : string)
    : option string :=
  let extension := lower extension in
  find_category extension cats.

(** [Config.get_categories().keys()] *)
Definition category_names (cats : categories) : list string := map fst cats.

(** Python's [dict] on string keys, as an association list in insertion
    order with unique keys. *)

(** [k in d] *)
Definition dict_has {V} (d : list (string * V)) (k : string) : bool :=
  existsb (fun kv => String.eqb k kv.1) d.

(** [d.get(k)], [None] for a missing key. *)
Fixpoint dict_get {V} (d : list (string * V)) (k : string) : option V :=
  match d with
  | [] => None
  | (k', v) :: d' => if String.eqb k k' then Some v else dict_get d' k
  end.

(** [d[k] = v]: an existing key keeps its position, a new key goes last. *)
Fixpoint dict_set {V} (d : list (string * V)) (k : string) (v : V) : list (string * V) :=
  match d with
  | [] => [(k, v)]
  | (k', v') :: d' =>
      if String.eqb k k' then (k', v) :: d' else (k', v') :: dict_set d' k v
  end.

(** [del d[k]] for a present key. *)
Fixpoint dict_del {V} (d : list (string * V)) (k : string) : list (string * V) :=
  match d with
  | [] => []
  | (k', v') :: d' => if String.eqb k k' then d' else (k', v') :: dict_del d' k
  end.

(** [d.update(other)]: [d[k] = v] for every item of [other], in order. *)
Definition dict_update {V} (d other : list (string * V)) : list (string * V) :=
  fold_left (fun acc kv => dict_set acc kv.1 kv.2) other d.

(** [Config.add_category] *)
Definition add_category (cats : categories) (category_name : string)
    (extensions : list string) : categories :=
  dict_set cats category_name extensions.

(** [Config.remove_category]: a missing name is ignored. *)
Definition remove_category (cats : categories) (category_name : string) : categories :=
  if dict_has cats category_name then dict_del cats category_name else cats.


End Config.

(* ------------------------------------------------------------------ *)
(** ** The filesystem, the sorter object and its effects *)

(** An entry of [self.history] (the Operation Log). *)
Record op_record := mk_op {
  op_timestamp : string;
  op_source : path;
  op_destination : path;
  op_filename : string;
  op_category : string
}.

(** The mutable state a [FileSorter] call sees: the regular files (path to
    content), the directories, and the in-memory [self.history]. *)
Record state := mk_state {
  st_files : gmap path string;
  st_dirs : gset path;
  st_history : list op_record
}.

(** What the program observes of the outside world but does not control:
    the listing [os.listdir] returns, modification months, which system
    calls fail, the clock, the MD5 digest and the JSON encoder. *)
Record env := mk_env {
  env_listdir : path -> option (list string);   (* None: OSError *)
  env_month : path -> string;   (* strftime("%Y-%m") of the local mtime *)
  env_rename_fails : path -> path -> bool;
  env_remove_fails : path -> bool;
  env_mkdir_fails : path -> bool;
  env_read_fails : path -> bool;
  env_write_fails : path -> bool;
  env_now : string;   (* datetime.now().isoformat(): a single reading *)
  env_md5 : string -> string;   (* hashlib.md5(content).hexdigest() *)
  env_json : list op_record -> string   (* json.dump(history, indent=2) *)
}.

(** The constructor arguments of a [FileSorter]. *)
Record sorter := mk_sorter {
  source_dir : path;   (* already [abspath(expanduser(..))] *)
  config : Config.categories;
  create_subdirs : bool;
  history_file : path
}.

(** Sort statistics [{"moved", "skipped", "errors"}]. *)
Record stats := mk_stats { moved : nat; skipped : nat; errors : nat }.

Definition zero_stats : stats := mk_stats 0 0 0.

(** A state and error monad: [None] is an exception propagating out of the
    call: an [OSError] (or a subclass such as [IOError] or [shutil.Error]),
    and in the configuration loading also the [TypeError], [ValueError] or
    [UnicodeDecodeError] that [Config.load_config] does not catch.  The
    state reached when it was raised is kept, as Python keeps it. *)
Definition M (A : Type) : Type := state -> state * option A.

Definition ret {A} (x : A) : M A := fun s => (s, Some x).
Definition raise {A} : M A := fun s => (s, None).
Definition bind {A B} (m : M A) (f : A -> M B) : M B :=
  fun s => match m s with
           | (s', Some x) => f x s'
           | (s', None) => (s', None)
           end.
(** [try: m except OSError: h] *)
Definition catch {A} (m : M A) (h : M A) : M A :=
  fun s => match m s with
           | (s', None) => h s'
           | r => r
           end.
Definition gets {A} (f : state -> A) : M A := fun s => (s, Some (f s)).
Definition modify (f : state -> state) : M unit := fun s => (f s, Some tt).

Notation "x <-- m ;; k" := (bind m (fun x => k))
  (at level 100, m at next level, right associativity).
Notation "m ;;; k" := (bind m (fun _ => k))
  (at level 100, right associativity).

Definition set_files (f : gmap path string) (s : state) : state :=
  mk_state f (st_dirs s) (st_history s).
Definition set_dirs (d : gset path) (s : state) : state :=
  mk_state (st_files s) d (st_history s).
Definition set_history (h : list op_record) (s : state) : state :=
  mk_state (st_files s) (st_dirs s) h.

Definition is_file (s : state) (p : path) : bool := bool_decide (is_Some (st_files s !! p)).
Definition is_dir (s : state) (p : path) : bool := bool_decide (p ∈ st_dirs s).
(** [os.path.exists] *)
Definition path_exists (s : state) (p : path) : bool := is_file s p || is_dir s p.

Section FileSorter.

Context (E : env) (srt : sorter).

(** [os.remove(p)]: fails on a directory or a missing path. *)
Definition os_remove (p : path) : M unit := fun s =>
  match st_files s !! p with
  | Some _ =>
      if env_remove_fails E p then (s, None)
      else (set_files (delete p (st_files s)) s, Some tt)
  | None => (s, None)
  end.

(** The ancestors [dirname(p), dirname(dirname(p)), ...] of a path. *)
Fixpoint parents_go (n : nat) (p : path) : list path :=
  match n with
  | O => []
  | S n' =>
      let q := dirname p in
      if String.eqb q "" || String.eqb q p then [] else q :: parents_go n' q
  end.

Definition parents (p : path) : list path := parents_go (String.length p) p.

(** [os.makedirs(name, exist_ok)]: creates [name] and its missing
    ancestors; fails when [name] exists (and is not an accepted directory)
    or when one of them is a regular file. *)
Definition os_makedirs (name : path) (exist_ok : bool) : M unit := fun s =>
  if is_dir s name then (if exist_ok then (s, Some tt) else (s, None))
  else if is_file s name then (s, None)
  else if existsb (is_file s) (parents name) || env_mkdir_fails E name
  then (s, None)
  else (set_dirs (list_to_set (name :: parents name) ∪ st_dirs s) s, Some tt).

(** Where a path under a renamed directory ends up. *)
Definition rekey (src real k : path) : path :=
  if String.eqb k src then real
  else if String.prefix (src +:+ "/") k
  then real +:+ "/" +:+
       String.substring (S (String.length src))
                        (String.length k - S (String.length src)) k
  else k.

(** [os.rename(src, real)] (with [shutil.move]'s copy fallback folded into
    the failure oracle): a regular file replaces a regular file at [real];
    a directory is renamed with its whole subtree. *)
Definition os_rename (src real : path) : M unit := fun s =>
  if env_rename_fails E src real then (s, None) else
  match st_files s !! src with
  | Some c =>
      if is_dir s real then (s, None)
      else (set_files (<[real := c]> (delete src (st_files s))) s, Some tt)
  | None =>
      if is_dir s src then
        if String.eqb src real then (s, Some tt)
        else if path_exists s real then (s, None)
        else (mk_state
                (list_to_map (map (fun kv => (rekey src real kv.1, kv.2))
                                  (map_to_list (st_files s))))
                (set_map (rekey src real) (st_dirs s))
                (st_history s), Some tt)
      else (s, None)
  end.

(** [shutil.move(src, dst)]: into [dst] when [dst] is a directory. *)
Definition shutil_move (src dst : path) : M unit := fun s =>
  if is_dir s dst then
    if String.eqb src dst then os_rename src dst s
    else
      let real_dst := join dst (basename (rstrip_slash src)) in
      if path_exists s real_dst then (s, None)   (* shutil.Error *)
      else os_rename src real_dst s
  else os_rename src dst s.

(** [datetime.fromtimestamp(os.path.getmtime(p)).strftime("%Y-%m")] *)
Definition getmtime_month (p : path) : M string := fun s =>
  if path_exists s p then (s, Some (env_month E p)) else (s, None).

(** [FileSorter.save_history]: an [IOError] is caught and only warned. *)
Definition save_history : M unit := fun s =>
  let h := history_file srt in
  if env_write_fails E h || is_dir s h then (s, Some tt)
  else (set_files (<[h := env_json E (st_history s)]> (st_files s)) s, Some tt).

(** [FileSorter._get_file_hash]: the empty string on a read failure. *)
Definition get_file_hash (filepath : path) : M string := fun s =>
  match st_files s !! filepath with
  | Some c => if env_read_fails E filepath then (s, Some ""%string)
              else (s, Some (env_md5 E c))
  | None => (s, Some ""%string)
  end.

(** [FileSorter._ensure_directories_exist] *)
Fixpoint ensure_go (cats : list string) : M unit :=
  match cats with
  | [] => ret tt
  | category :: cats' =>
      let folder_path := join (source_dir srt) category in
      e <-- gets (fun s => path_exists s folder_path) ;;
      (if e then ret tt else os_makedirs folder_path false) ;;;
      ensure_go cats'
  end.

Definition ensure_directories_exist : M unit :=
  if create_subdirs srt then ensure_go (Config.category_names (config srt))
  else ret tt.

(** [f"{base}_{counter}{ext}"] *)
Definition cand (base ext : string) (counter : nat) : path :=
  base +:+ "_" +:+ str_nat counter +:+ ext.

(** The [while os.path.exists(destination)] loop of the rename policy.
    The resolver does not change the filesystem, so the loop runs against
    one state; [probe_fuel] bounds it (the bound is never reached, see
    [rename_loop_found]). *)
Fixpoint rename_loop (fuel : nat) (s : state) (base ext : string)
    (counter : nat) (destination : path) : path :=
  if path_exists s destination then
    match fuel with
    | O => destination
    | S fuel' => rename_loop fuel' s base ext (S counter) (cand base ext counter)
    end
  else destination.

Definition probe_fuel (s : state) : nat := S (size (st_files s) + size (st_dirs s)).

(** [FileSorter._handle_duplicate] *)
Definition handle_duplicate (source destination : path)
    (duplicate_strategy : string) : M (option path) :=
  e <-- gets (fun s => path_exists s destination) ;;
  if negb e then ret (Some destination)
  else if String.eqb duplicate_strategy "skip" then ret None
  else if String.eqb duplicate_strategy "replace" then
    os_remove destination ;;; ret (Some destination)
  else if String.eqb duplicate_strategy "rename" then
    let '(base, ext) := splitext destination in
    gets (fun s => Some (rename_loop (probe_fuel s) s base ext 1 destination))
  else ret (Some destination).

Definition incr_moved (st : stats) : stats := mk_stats (S (moved st)) (skipped st) (errors st).
Definition incr_skipped (st : stats) : stats := mk_stats (moved st) (S (skipped st)) (errors st).
Definition incr_errors (st : stats) : stats := mk_stats (moved st) (skipped st) (S (errors st)).

(** One iteration of the [for filename in items] loop of [sort_files]. *)
Definition sort_entry (dry_run : bool) (duplicate_strategy : string)
    (organize_by_date : bool) (acc : stats * list op_record) (filename : string)
    : M (stats * list op_record) :=
  let '(st, operations) := acc in
  let source_path := join (source_dir srt) filename in
  d <-- gets (fun s => is_dir s source_path) ;;
  if d || String.eqb filename (basename (history_file srt)) then ret acc else
  let ext := lower (splitext filename).2 in
  match Config.get_category_for_extension (config srt) ext with
  | None => ret (incr_skipped st, operations)
  | Some category =>
    (* [if not category]: the empty name is falsy *)
    if String.eqb category "" then ret (incr_skipped st, operations) else
    dest_dir <-- (if organize_by_date then
                    date_folder <-- getmtime_month source_path ;;
                    ret (join (join (source_dir srt) category) date_folder)
                  else ret (join (source_dir srt) category)) ;;
    let dest_path := join dest_dir filename in
    final <-- handle_duplicate source_path dest_path duplicate_strategy ;;
    match final with
    | None => ret (incr_skipped st, operations)
    | Some final_dest =>
        if dry_run then ret (incr_moved st, operations)
        else catch (os_makedirs (dirname final_dest) true ;;;
                    shutil_move source_path final_dest ;;;
                    ret (incr_moved st,
                         operations ++ [mk_op (env_now E) source_path final_dest
                                              filename category]))
                   (ret (incr_errors st, operations))
    end
  end.

Fixpoint sort_loop (dry_run : bool) (duplicate_strategy : string)
    (organize_by_date : bool) (items : list string)
    (acc : stats * list op_record) : M (stats * list op_record) :=
  match items with
  | [] => ret acc
  | filename :: items' =>
      acc' <-- sort_entry dry_run duplicate_strategy organize_by_date acc filename ;;
      sort_loop dry_run duplicate_strategy organize_by_date items' acc'
  end.

(** [FileSorter.sort_files] *)
Definition sort_files (dry_run : bool) (duplicate_strategy : string)
    (organize_by_date : bool) : M stats :=
  ensure_directories_exist ;;;
  match env_listdir E (source_dir srt) with
  | None => ret zero_stats
  | Some items =>
      r <-- sort_loop dry_run duplicate_strategy organize_by_date items (zero_stats, []) ;;
      (if negb (bool_decide (r.2 = [])) && negb dry_run
       then modify (fun s => set_history (st_history s ++ r.2) s) ;;; save_history
       else ret tt) ;;;
      ret r.1
  end.

(** The body of the undo loop for one popped record: [try: if
    os.path.exists(dest): shutil.move(dest, source); restored += 1 except
    (OSError, shutil.Error): pass]. *)
Definition restore_one (operation : op_record) (restored : nat) : M nat :=
  catch (e <-- gets (fun s => path_exists s (op_destination operation)) ;;
         if e then
           shutil_move (op_destination operation) (op_source operation) ;;;
           ret (S restored)
         else ret restored)
        (ret restored).

(** The loop of [FileSorter.undo_last_operation]: [history.pop()] first,
    then the restore. *)
Fixpoint undo_loop (n : nat) (restored : nat) : M nat :=
  match n with
  | O => ret restored
  | S n' =>
      h <-- gets st_history ;;
      match last h with
      | None => ret restored
      | Some operation =>
          modify (set_history (removelast h)) ;;;
          r <-- restore_one operation restored ;;
          undo_loop n' r
      end
  end.

(** [FileSorter.undo_last_operation(count)]: [range(min(count, len))]. *)
Definition undo_last_operation (count : Z) : M nat :=
  h <-- gets st_history ;;
  restored <-- undo_loop (Z.to_nat (Z.min count (Z.of_nat (length h)))) 0 ;;
  save_history ;;;
  ret restored.

(** The restores of a list of popped records, in the order given. *)
Fixpoint restore_all (ops : list op_record) (restored : nat) : M nat :=
  match ops with
  | [] => ret restored
  | operation :: ops' =>
      r <-- restore_one operation restored ;;
      restore_all ops' r
  end.

(** Every popped record's destination exists when its turn comes, and
    its move back succeeds. *)
Fixpoint restores_ok (ops : list op_record) (s : state) : Prop :=
  match ops with
  | [] => True
  | operation :: ops' =>
      path_exists s (op_destination operation) = true /\
      exists s', shutil_move (op_destination operation) (op_source operation) s = (s', Some tt) /\
                 restores_ok ops' s'
  end.

(** [hash_map[file_hash].append(filepath)] on an insertion-ordered dict. *)
Fixpoint dict_append (hm : list (string * list path)) (k : string) (v : path)
    : list (string * list path) :=
  match hm with
  | [] => [(k, [v])]
  | (k', vs) :: hm' =>
      if String.eqb k k' then (k', vs ++ [v]) :: hm'
      else (k', vs) :: dict_append hm' k v
  end.

Fixpoint hash_loop (items : list string) (hm : list (string * list path))
    : M (list (string * list path)) :=
  match items with
  | [] => ret hm
  | filename :: items' =>
      let filepath := join (source_dir srt) filename in
      d <-- gets (fun s => is_dir s filepath) ;;
      if d then hash_loop items' hm else
      file_hash <-- get_file_hash filepath ;;
      hash_loop items' (if String.eqb file_hash "" then hm
                        else dict_append hm file_hash filepath)
  end.

(** [FileSorter.find_duplicates] *)
Definition find_duplicates : M (list (string * list path)) :=
  match env_listdir E (source_dir srt) with
  | None => ret []
  | Some items =>
      hm <-- hash_loop items [] ;;
      ret (List.filter (fun kv => (1 <? length kv.2)%nat) hm)
  end.

End FileSorter.

(* ------------------------------------------------------------------ *)
(** ** Concrete sorters, environments and directory states *)

(** An environment in which [os.listdir] returns [listing], [os.remove]
    fails on the paths [remove_fails] selects and every other call
    succeeds. *)
Definition test_env (listing : list string) (remove_fails : path -> bool) : env :=
  mk_env (fun _ => Some listing) (fun _ => "2024-05") (fun _ _ => false) remove_fails
         (fun _ => false) (fun _ => false) (fun _ => false) "2024-05-01T00:00:00"
         (fun c => "md5:" +:+ c) (fun _ => "[json]").

(** [FileSorter("/d", Config(), True, hist)] with the default categories. *)
Definition test_sorter (hist : path) : sorter :=
  mk_sorter "/d" Config.DEFAULT_CATEGORIES true hist.

Definition test_state (files : list (path * string)) (dirs : list path)
    (h : list op_record) : state :=
  mk_state (list_to_map files) (list_to_set dirs) h.

(** An environment in which [os.listdir] of every directory fails. *)
Definition unlistable_env : env :=
  mk_env (fun _ => None) (fun _ => "2024-05") (fun _ _ => false) (fun _ => false)
         (fun _ => false) (fun _ => false) (fun _ => false) "2024-05-01T00:00:00"
         (fun c => "md5:" +:+ c) (fun _ => "[json]").

(** [/d] holds [a.mp4], [b.mp4] (same content) and [c.txt]; [/d/Videos]
    already holds [a.mp4] and [a_1.mp4]. *)
Definition sample_state : state :=
  test_state [("/d/a.mp4", "A"); ("/d/b.mp4", "A"); ("/d/c.txt", "C");
              ("/d/Videos/a.mp4", "old"); ("/d/Videos/a_1.mp4", "old1")]
             ["/d"; "/d/Videos"] [].

(** Whether the loop body of a dry run counts [filename] as moved when it
    runs in state [s]: the entry is not a directory nor the history file's
    name, its extension has a (non-empty) category, and the resolver does
    not skip it.  Read off [sort_entry] and [_handle_duplicate] for the
    strategies other than [replace]; with [organize_by_date] the date
    folder is the source's modification month. *)
Definition would_move (E : env) (srt : sorter) (duplicate_strategy : string)
    (organize_by_date : bool) (s : state) (filename : string) : bool :=
  let source_path := join (source_dir srt) filename in
  negb (is_dir s source_path) &&
  negb (String.eqb filename (basename (history_file srt))) &&
  match Config.get_category_for_extension (config srt) (lower (splitext filename).2) with
  | None => false
  | Some category =>
      negb (String.eqb category "") &&
      let dest_dir := if organize_by_date
                      then join (join (source_dir srt) category) (env_month E source_path)
                      else join (source_dir srt) category in
      negb (String.eqb duplicate_strategy "skip" &&
            path_exists s (join dest_dir filename))
  end.

(** [/d] holds [b.jpg], [a.jpg] and [c.pdf]; [/d/Pictures/a.jpg] exists and
    cannot be removed. *)
Definition replace_env : env :=
  test_env ["b.jpg"; "a.jpg"; "c.pdf"] (fun p => String.eqb p "/d/Pictures/a.jpg").

Definition replace_state : state :=
  test_state [("/d/b.jpg", "B"); ("/d/a.jpg", "A"); ("/d/c.pdf", "C");
              ("/d/Pictures/a.jpg", "old")] ["/d"; "/d/Pictures"] [].

(** A name [os.listdir] can return: non-empty, without a slash. *)
Definition no_slash (fn : string) : Prop :=
  fn <> ""%string /\ ~ In "/"%char (String.list_ascii_of_string fn).

(* ------------------------------------------------------------------ *)
(** ** Auxiliary notions used in the statements *)

(** Directory creation touches neither the files nor the log, and only
    adds directories. *)
Definition dirs_only (s s' : state) : Prop :=
  st_files s' = st_files s /\ st_history s' = st_history s /\ st_dirs s ⊆ st_dirs s'.

(** Every existing path is among the keys of the files or the
    directories, a list of [size files + size dirs] elements. *)
Definition existing_paths (s : state) : list path :=
  map fst (map_to_list (st_files s)) ++ elements (st_dirs s).

(** [_get_file_hash] as a function of the state. *)
Definition hash_of (E : env) (s : state) (p : path) : string :=
  match st_files s !! p with
  | Some c => if env_read_fails E p then ""%string else env_md5 E c
  | None => ""%string
  end.

(** The listed non-directory paths whose digest is [h], in listing order. *)
Definition dup_group (E : env) (srt : sorter) (s : state) (items : list string)
    (h : string) : list path :=
  List.filter (fun p => negb (is_dir s p) && String.eqb (hash_of E s p) h)
              (map (join (source_dir srt)) items).

(** Dictionary lookup on an association list. *)
Fixpoint assoc (k : string) (l : list (string * list path)) : option (list path) :=
  match l with
  | [] => None
  | (k', v) :: l' => if String.eqb k k' then Some v else assoc k l'
  end.

Definition merge (o : option (list path)) (g : list path) : option (list path) :=
  match o with
  | Some l => Some (l ++ g)
  | None => match g with [] => None | _ => Some g end
  end.

(** The conditions under which undoing the records [U] (in the order
    given, last-recorded first) is a chain of independent moves back: a
    record undone later neither reads nor writes a path that an earlier
    undo writes. *)
Fixpoint undo_chain (U : list op_record) : Prop :=
  match U with
  | [] => True
  | u :: U' =>
      (forall u', In u' U' -> op_destination u' <> op_destination u /\
                              op_destination u' <> op_source u /\
                              op_source u' <> op_source u) /\
      undo_chain U'
  end.

(** What a record [o] made by the current pass satisfies once the pass has
    reached state [T] with the names [R] still to process: it names a
    listed entry and its path, not the history file's name; outside the
    [rename] policy its destination ends in that name; its destination
    holds the content its source had before the pass; and no remaining
    entry sits at its destination. *)
Definition op_ok (srt : sorter) (strat : string) (items : list string) (s T : state)
    (R : list string) (o : op_record) : Prop :=
  In (op_filename o) items /\
  op_source o = join (source_dir srt) (op_filename o) /\
  op_filename o <> basename (history_file srt) /\
  (strat <> "rename"%string -> basename (op_destination o) = op_filename o) /\
  (exists c, st_files s !! op_source o = Some c /\ st_files T !! op_destination o = Some c) /\
  (forall fn, In fn R -> op_destination o <> join (source_dir srt) fn).

(** The loop invariant of a real pass started in state [s]: [T] is the
    current state, [O] the records made so far, [R] the names left. *)
Definition pass_inv (srt : sorter) (strat : string) (items : list string) (s T : state)
    (O : list op_record) (R : list string) : Prop :=
  st_history T = st_history s /\
  st_dirs s ⊆ st_dirs T /\
  (forall fn, In fn R -> In fn items /\
     st_files T !! join (source_dir srt) fn = st_files s !! join (source_dir srt) fn) /\
  List.NoDup (map op_filename O ++ R) /\
  undo_chain (rev O) /\
  (forall o, In o O -> op_ok srt strat items s T R o).

(** The records a call appended to the log, going from [s] to [s1]. *)
Definition pass_ops (s s1 : state) : list op_record :=
  drop (length (st_history s)) (st_history s1).

(** [/d] holds [r.txt]; [/d/Documents/r.txt] exists; the history file is
    [/d/Documents/r_1.txt], where the rename policy puts [r.txt]. *)
Definition clash_env : env := test_env ["r.txt"] (fun _ => false).

Definition clash_sorter : sorter :=
  mk_sorter "/d" Config.DEFAULT_CATEGORIES true "/d/Documents/r_1.txt".

Definition clash_state : state :=
  test_state [("/d/r.txt", "R"); ("/d/Documents/r.txt", "old")] ["/d"; "/d/Documents"] [].

(** A configuration with a category named like a file of [/d]: [x.pdf]
    goes to [Docs], [a.txt] to the new folder [/d/x.pdf]. *)
Definition folder_env : env := test_env ["x.pdf"; "a.txt"] (fun _ => false).

Definition folder_sorter : sorter :=
  mk_sorter "/d" [("x.pdf", [".txt"]); ("Docs", [".pdf"])] false "/h/hist.json".

Definition folder_state : state :=
  test_state [("/d/x.pdf", "X"); ("/d/a.txt", "A")] ["/d"] [].

(** The listing of [sample_state]'s source folder. *)
Definition round_env : env := test_env ["a.mp4"; "c.txt"; "b.mp4"] (fun _ => false).

Definition round_sorter : sorter := test_sorter "/h/file_sorter_history.json".

(** The listing of the same folder once [_ensure_directories_exist] has
    created the default category folders. *)
Definition fresh_env : env :=
  test_env ["a.mp4"; "c.txt"; "b.mp4"; "Videos"; "Pictures"; "Music"; "Documents";
            "Archives"; "Code"; "Executables"; "Spreadsheets"] (fun _ => false).

(* ------------------------------------------------------------------ *)
(** ** Loading and saving, statistics, and the callers of the sorter *)

(** What the body of [load_config]'s [try] makes of a configuration file
    ([json.load] on the text-mode file, then [if 'categories' in ..:
    self.categories.update(..['categories'])]).
    - [DocInvalid]: [json.load] raises [json.JSONDecodeError] (caught).
    - [DocObject None]: the [in] test is false: a JSON object without a
      ["categories"] key, or an array or string not containing
      ["categories"].
    - [DocObject (Some custom)]: a ["categories"] member that [update]
      reads as the name-to-extension-list pairs [custom] (an object, or a
      list of pairs).
    - [DocRaises]: an exception the [except] clause does not name: the
      bytes are not valid UTF-8 ([UnicodeDecodeError] while reading);
      the JSON is [null], a boolean or a number ([TypeError] from [in]);
      an array or string containing ["categories"] ([TypeError] from the
      indexing); a ["categories"] member [update] cannot read as pairs
      ([TypeError] or [ValueError]).
    A ["categories"] member whose values are not lists of strings is
    stored as it is by [update]; such values are outside this model. *)
Inductive config_doc :=
| DocInvalid
| DocObject (categories : option Config.categories)
| DocRaises.

(** What [json.load] makes of a history file: a [json.JSONDecodeError]
    (caught), a [UnicodeDecodeError] for bytes that are not valid UTF-8 (a
    [ValueError] the [except] clause does not name), or a list of records.
    JSON that decodes to something else than a list of records is outside
    this model. *)
Inductive history_doc :=
| HistInvalid
| HistUndecodable
| HistList (records : list op_record).

(** The library functions the loading code relies on and the program does
    not define. *)
Record codec := mk_codec {
  abspath_expanduser : string -> path;   (* os.path.abspath(os.path.expanduser(..)) *)
  json_load_history : string -> history_doc;
  json_load_config : string -> config_doc;
  json_dump_config : Config.categories -> string   (* json.dump({'categories': ..}) *)
}.

Section Loading.

Context (E : env) (C : codec).

(** [Config.load_config]: [open] fails (an [IOError]) on a missing path, a
    directory or an unreadable file; that error and a [JSONDecodeError]
    are only warned about, any other exception propagates. *)
Definition load_config (cats : Config.categories) (config_path : path)
    : M Config.categories := fun s =>
  match st_files s !! config_path with
  | Some text =>
      if env_read_fails E config_path then (s, Some cats)
      else match json_load_config C text with
           | DocObject (Some custom) => (s, Some (Config.dict_update cats custom))
           | DocRaises => (s, None)
           | _ => (s, Some cats)
           end
  | None => (s, Some cats)
  end.

(** [Config(config_path)]: the defaults, updated from the file when
    [config_path] is given, non-empty and exists. *)
Definition config_init (config_path : option path) : M Config.categories :=
  let categories := Config.DEFAULT_CATEGORIES in
  match config_path with
  | Some p =>
      if negb (String.eqb p "") then
        e <-- gets (fun s => path_exists s p) ;;
        if e then load_config categories p else ret categories
      else ret categories
  | None => ret categories
  end.

(** [Config.save_config]: an [IOError] is caught and only reported. *)
Definition save_config (cats : Config.categories) (config_path : path) : M unit := fun s =>
  if env_write_fails E config_path || is_dir s config_path then (s, Some tt)
  else (set_files (<[config_path := json_dump_config C cats]> (st_files s)) s, Some tt).

(** [FileSorter.load_history]: a [JSONDecodeError] or an [IOError] (an
    unreadable file or a directory) leaves an empty log.  The inner [None]
    is the [UnicodeDecodeError] of a history file that is not valid UTF-8:
    a [ValueError], kept apart from the [OSError]s of the outer [None]
    because [CLI.run] catches it. *)
Definition load_history (srt : sorter) : M (option unit) := fun s =>
  let h := history_file srt in
  if path_exists s h then
    match st_files s !! h with
    | Some text =>
        if env_read_fails E h then (set_history [] s, Some (Some tt))
        else match json_load_history C text with
             | HistList l => (set_history l s, Some (Some tt))
             | HistInvalid => (set_history [] s, Some (Some tt))
             | HistUndecodable => (s, Some None)
             end
    | None => (set_history [] s, Some (Some tt))
    end
  else (s, Some (Some tt)).

(** [FileSorter(source_dir, config, create_subdirs, history_file)]: the
    inner [None] is a [ValueError] out of the constructor: the
    [UnicodeDecodeError] of [load_history], or the one raised for a
    missing source directory (after the history has been loaded).
    [config or Config()] takes the defaults when no configuration is
    given. *)
Definition file_sorter_init (src : string) (cfg : option Config.categories)
    (subdirs : bool) (hist : path) : M (option sorter) :=
  let srt := mk_sorter (abspath_expanduser C src)
               (match cfg with Some c => c | None => Config.DEFAULT_CATEGORIES end)
               subdirs hist in
  modify (set_history []) ;;;
  loaded <-- load_history srt ;;
  match loaded with
  | None => ret None
  | Some _ =>
      e <-- gets (fun s => path_exists s (source_dir srt)) ;;
      if e then ret (Some srt) else ret None
  end.

End Loading.

Section Statistics.

Context (E : env) (srt : sorter).

(** The loop of [FileSorter.get_statistics].  A category that is [None]
    or empty (falsy) counts as ["Uncategorized"]; [stats["Uncategorized"]
    += 1] would raise a [KeyError] on a missing key, which cannot happen
    since the key is there from the start and never deleted. *)
Fixpoint stats_loop (items : list string) (stats : list (string * nat))
    : M (list (string * nat)) :=
  match items with
  | [] => ret stats
  | filename :: items' =>
      let filepath := join (source_dir srt) filename in
      d <-- gets (fun s => is_dir s filepath) ;;
      if d then stats_loop items' stats else
      let ext := lower (splitext filename).2 in
      let category := match Config.get_category_for_extension (config srt) ext with
                      | Some c => if String.eqb c "" then None else Some c
                      | None => None
                      end in
      match category with
      | Some c =>
          let n := match Config.dict_get stats c with Some n => n | None => 0%nat end in
          stats_loop items' (Config.dict_set stats c (S n))
      | None =>
          match Config.dict_get stats "Uncategorized" with
          | Some n => stats_loop items' (Config.dict_set stats "Uncategorized" (S n))
          | None => raise
          end
      end
  end.

(** [FileSorter.get_statistics] *)
Definition get_statistics : M (list (string * nat)) :=
  match env_listdir E (source_dir srt) with
  | None => ret [("Uncategorized", 0%nat)]
  | Some items => stats_loop items [("Uncategorized", 0%nat)]
  end.

End Statistics.

(** The parsed command line of [CLI.run]. *)
Record cli_args := mk_args {
  arg_source : string;
  arg_config : option string;
  arg_dry_run : bool;
  arg_organize_by_date : bool;
  arg_duplicate_strategy : string;
  arg_watch : bool;
  arg_undo : option Z;
  arg_stats : bool;
  arg_find_duplicates : bool;
  arg_quiet : bool
}.

Section Cli.

Context (E : env) (C : codec).

(** [WATCH_AVAILABLE], and [WatchMode(sorter, verbose).start()], which
    serves file-creation events until the user presses Ctrl+C. *)
Context (watch_available : bool) (watch_start : sorter -> M unit).

(** [Config(parsed_args.config) if parsed_args.config else Config()],
    outside the [try] of [CLI.run]. *)
Definition cli_load_config (args : cli_args) : M Config.categories :=
  match arg_config args with
  | Some p => if negb (String.eqb p "") then config_init E C (Some p)
              else config_init E C None
  | None => config_init E C None
  end.

(** [CLI.run] after argument parsing; the printing is left out.  Only the
    [ValueError] of the constructor is caught (the inner [None] of
    [file_sorter_init]); every other exception propagates. *)
Definition cli_run (args : cli_args) : M Z :=
  config <-- cli_load_config args ;;
  o <-- file_sorter_init E C (arg_source args) (Some config) true "file_sorter_history.json" ;;
  match o with
  | None => ret 1
  | Some sorter =>
      let undo := match arg_undo args with Some n => negb (Z.eqb n 0) | None => false end in
      if undo then
        _ <-- undo_last_operation E sorter
                (match arg_undo args with Some n => n | None => 0 end) ;;
        ret 0
      else if arg_stats args then _ <-- get_statistics E sorter ;; ret 0
      else if arg_find_duplicates args then _ <-- find_duplicates E sorter ;; ret 0
      else if arg_watch args then
        if negb watch_available then ret 1
        else watch_start sorter ;;; ret 0
      else
        _ <-- sort_files E sorter (arg_dry_run args) (arg_duplicate_strategy args)
                (arg_organize_by_date args) ;;
        ret 0
  end.

End Cli.

(* ------------------------------------------------------------------ *)
(** ** Derived notions for the properties below *)

(** What one step of a dry run can do to the state: keep the log and the
    directories, and only delete regular files. *)
Definition shrinks (T T' : state) : Prop :=
  st_history T' = st_history T /\ st_dirs T' = st_dirs T /\
  (forall q c, st_files T' !! q = Some c -> st_files T !! q = Some c).

(** The log [FileSorter.__init__] ends up with: the decoded history file,
    or [[]] when it is missing, a directory, unreadable, invalid JSON or
    not valid UTF-8. *)
Definition history_of_file (E : env) (C : codec) (s : state) (hist : path) : list op_record :=
  match st_files s !! hist with
  | Some text =>
      if env_read_fails E hist then []
      else match json_load_history C text with HistList l => l | _ => [] end
  | None => []
  end.

(** Whether [load_history] raises its [UnicodeDecodeError]: the history
    file is a readable regular file whose bytes are not valid UTF-8. *)
Definition history_raises (E : env) (C : codec) (s : state) (hist : path) : bool :=
  match st_files s !! hist with
  | Some text =>
      negb (env_read_fails E hist) &&
      match json_load_history C text with HistUndecodable => true | _ => false end
  | None => false
  end.

(** The key [get_statistics] counts a file under: its category, or
    ["Uncategorized"] when the category is [None] or empty. *)
Definition stat_key (cats : Config.categories) (filename : string) : string :=
  match Config.get_category_for_extension cats (lower (splitext filename).2) with
  | Some c => if String.eqb c "" then "Uncategorized"%string else c
  | None => "Uncategorized"%string
  end.

(** [stats.get(k, 0)] *)
Definition get_or0 (d : list (string * nat)) (k : string) : nat :=
  match Config.dict_get d k with Some n => n | None => 0%nat end.

(** The listed names [get_statistics] does not skip as directories. *)
Definition listed_files (s : state) (sd : path) (items : list string) : list string :=
  List.filter (fun fn => negb (is_dir s (join sd fn))) items.

(** Sample inputs for the loading code and the command line. *)
Definition notes_categories : Config.categories :=
  [("Videos", [".mkv"]); ("Notes", [".md"])].

(** A codec whose history files all decode to [h], except [latin1] which
    is not valid UTF-8; its configuration files are [{notes}], [null]
    (which makes [load_config] raise) or invalid JSON. *)
Definition test_codec (h : list op_record) : codec :=
  mk_codec (fun p => p)
    (fun t => if String.eqb t "latin1" then HistUndecodable else HistList h)
    (fun t => if String.eqb t "{notes}" then DocObject (Some notes_categories)
              else if String.eqb t "null" then DocRaises else DocInvalid)
    (fun _ => "{notes}").

Definition config_state : state :=
  test_state [("/c/cfg.json", "{notes}"); ("/c/bad.json", "oops"); ("/c/null.json", "null")]
    ["/d"; "/c"] [].

Definition base_args (src : string) : cli_args :=
  mk_args src None false false "rename" false None false false false.

Definition quiet_env : env := test_env [] (fun _ => false).

(* ------------------------------------------------------------------ *)
(** ** Properties *)

(** *** The path functions on sample inputs *)

Example splitext_ex1 : splitext "/d/Videos/a.mp4" = ("/d/Videos/a", ".mp4").
Proof. vm_compute. reflexivity. Qed.
Example splitext_ex2 : splitext "/d/.bashrc" = ("/d/.bashrc", "").
Proof. vm_compute. reflexivity. Qed.
Example splitext_ex3 : splitext "a.tar.gz" = ("a.tar", ".gz").
Proof. vm_compute. reflexivity. Qed.
Example basename_ex : basename "/d/Videos/a.mp4" = "a.mp4".
Proof. vm_compute. reflexivity. Qed.
Example dirname_ex : dirname "/d/Videos/a.mp4" = "/d/Videos".
Proof. vm_compute. reflexivity. Qed.
Example dirname_root : dirname "/a" = "/".
Proof. vm_compute. reflexivity. Qed.
Example join_ex : join (join "/d" "Videos") "a.mp4" = "/d/Videos/a.mp4".
Proof. vm_compute. reflexivity. Qed.
Example join_root : join "/" "a" = "/a".
Proof. vm_compute. reflexivity. Qed.
Example lower_ex : lower ".MP4" = ".mp4".
Proof. vm_compute. reflexivity. Qed.
Example str_nat_ex : str_nat 12 = "12".
Proof. vm_compute. reflexivity. Qed.


Lemma lower_char_idem (c : ascii) : lower_char (lower_char c) = lower_char c.
Proof. destruct c as [[] [] [] [] [] [] [] []]; vm_compute; reflexivity. Qed.

Lemma lower_idem (s : string) : lower (lower s) = lower s.
Proof. induction s as [|c s IH]; simpl; [done|]. by rewrite lower_char_idem, IH. Qed.

Lemma str_in_In (x : string) (l : list string) : Config.str_in x l = true <-> In x l.
Proof.
  unfold Config.str_in. rewrite existsb_exists. split.
  - intros (y & Hy & Heq). apply String.eqb_eq in Heq. by subst.
  - intros H. exists x. split; [done|]. apply String.eqb_refl.
Qed.

Lemma find_category_sound (x c : string) (cats : Config.categories) :
  Config.find_category x cats = Some c ->
  exists exts, In (c, exts) cats /\ In x exts.
Proof.
  induction cats as [|[c' exts] cats IH]; simpl; [done|].
  destruct (Config.str_in x exts) eqn:Hin.
  - intros [= <-]. exists exts. split; [by left|]. by apply str_in_In.
  - intros H. destruct (IH H) as (e & He & Hx). exists e. split; [by right|done].
Qed.

Lemma find_category_complete (x c : string) (exts : list string) (cats : Config.categories) :
  In (c, exts) cats -> In x exts -> exists c', Config.find_category x cats = Some c'.
Proof.
  induction cats as [|[c' exts'] cats IH]; simpl; [done|].
  intros [Heq | Hin] Hx.
  - injection Heq as -> ->. apply str_in_In in Hx. rewrite Hx. eauto.
  - destruct (Config.str_in x exts'); eauto.
Qed.

(** Claim C5, refuted: a configured extension written in upper case is
    never matched, not even by an input spelled the same way, and a
    configured empty extension is matched by the empty input. *)
Lemma category_for_extension_counterexample :
  Config.get_category_for_extension [("Videos", [".MP4"])]%string ".MP4" = None /\
  Config.get_category_for_extension [("Other", [""])]%string "" = Some "Other"%string.
Proof. split; vm_compute; reflexivity. Qed.

(** Claim C5 (amended): [get_category_for_extension] lowers only its
    input. Inputs that lower to the same string get the same answer; a
    match always goes through a configured extension equal to the lowered
    input (so it is written in lower case), and every such configured
    extension does match; the empty extension matches exactly when some
    category lists the empty string, which no default category does. *)
Theorem category_for_extension_case (cats : Config.categories) (e1 e2 : string) :
  (lower e1 = lower e2 ->
   Config.get_category_for_extension cats e1 = Config.get_category_for_extension cats e2) /\
  (forall c, Config.get_category_for_extension cats e1 = Some c ->
   exists exts, In (c, exts) cats /\ In (lower e1) exts /\ lower (lower e1) = lower e1) /\
  (forall c exts, In (c, exts) cats -> In (lower e1) exts ->
   exists c', Config.get_category_for_extension cats e1 = Some c') /\
  (Config.get_category_for_extension cats "" <> None <->
   exists c exts, In (c, exts) cats /\ In ""%string exts) /\
  Config.get_category_for_extension Config.DEFAULT_CATEGORIES "" = None.
Proof.
  unfold Config.get_category_for_extension. split; [|split; [|split; [|split]]].
  - by intros ->.
  - intros c H. destruct (find_category_sound _ _ _ H) as (exts & Hc & Hx).
    exists exts. split; [done|]. split; [done|]. apply lower_idem.
  - intros c exts Hc Hx. by eapply find_category_complete.
  - simpl. split.
    + destruct (Config.find_category "" cats) as [c|] eqn:H; [|done]. intros _.
      destruct (find_category_sound _ _ _ H) as (exts & ? & ?). eauto.
    + intros (c & exts & Hc & Hx).
      destruct (find_category_complete _ _ _ _ Hc Hx) as [c' ->]. done.
  - vm_compute. reflexivity.
Qed.

Lemma sort_entry_history_name E srt dry strat bd acc s :
  sort_entry E srt dry strat bd acc (basename (history_file srt)) s = (s, Some acc).
Proof.
  destruct acc as [st ops]. unfold sort_entry, bind, gets. simpl.
  rewrite String.eqb_refl, orb_true_r. reflexivity.
Qed.

(** Claim C9: an entry named like the basename of the history-file path,
    wherever that file lives, is a no-op of the loop: the pass over the
    listing is the pass over the listing without such entries (same files,
    same statistics, same log). *)
Theorem sort_skips_history_name E srt dry strat bd :
  (forall acc s,
     sort_entry E srt dry strat bd acc (basename (history_file srt)) s = (s, Some acc)) /\
  (forall items acc s,
     sort_loop E srt dry strat bd items acc s =
     sort_loop E srt dry strat bd
       (List.filter (fun fn => negb (String.eqb fn (basename (history_file srt)))) items)
       acc s).
Proof.
  split; [apply sort_entry_history_name|].
  induction items as [|fn items IH]; intros acc s; simpl; [done|].
  destruct (String.eqb fn (basename (history_file srt))) eqn:Hfn; simpl.
  - apply String.eqb_eq in Hfn. subst fn. unfold bind at 1.
    rewrite sort_entry_history_name. apply IH.
  - unfold bind. destruct (sort_entry E srt dry strat bd acc fn s) as [s' [acc'|]]; [|done].
    apply IH.
Qed.

(** Claim C10: with a strategy other than [skip], [rename] and [replace],
    an occupied candidate destination is returned unchanged and the state
    is left alone; a real pass then moves the entry onto that occupied
    path, replacing the regular file there. *)
Theorem handle_duplicate_other_strategy E srt strat :
  strat <> "skip"%string -> strat <> "replace"%string -> strat <> "rename"%string ->
  (forall s src dest, path_exists s dest = true ->
     handle_duplicate E src dest strat s = (s, Some (Some dest))) /\
  (forall s fn category x st ops,
     let src := join (source_dir srt) fn in
     let dest := join (join (source_dir srt) category) fn in
     is_dir s src = false -> fn <> basename (history_file srt) ->
     Config.get_category_for_extension (config srt) (lower (splitext fn).2) = Some category ->
     category <> ""%string ->
     st_files s !! src = Some x -> is_file s dest = true -> is_dir s dest = false ->
     is_dir s (dirname dest) = true -> env_rename_fails E src dest = false ->
     sort_entry E srt false strat false (st, ops) fn s =
     (set_files (<[dest := x]> (delete src (st_files s))) s,
      Some (incr_moved st, ops ++ [mk_op (env_now E) src dest fn category]))).
Proof.
  intros Hskip Hrepl Hren.
  apply String.eqb_neq in Hskip, Hrepl, Hren.
  assert (Hhd : forall s src dest, path_exists s dest = true ->
     handle_duplicate E src dest strat s = (s, Some (Some dest))).
  { intros s src dest He. unfold handle_duplicate, bind, gets, ret.
    rewrite He. simpl. by rewrite Hskip, Hrepl, Hren. }
  split; [exact Hhd|].
  intros s fn category x st ops src dest Hsd Hfn Hcat Hne Hx Hf Hd Hdd Hmv.
  apply String.eqb_neq in Hfn, Hne.
  unfold sort_entry, bind at 1, gets. fold src. rewrite Hsd, Hfn. simpl.
  rewrite Hcat, Hne. unfold bind at 1, ret at 1. fold dest.
  assert (He : path_exists s dest = true) by (unfold path_exists; by rewrite Hf).
  unfold bind at 1. rewrite (Hhd s src dest He).
  unfold catch, bind, os_makedirs. rewrite Hdd.
  unfold shutil_move. rewrite Hd. unfold os_rename. rewrite Hmv, Hx, Hd.
  reflexivity.
Qed.

Lemma dirs_only_refl s : dirs_only s s.
Proof. repeat split; set_solver. Qed.

Lemma dirs_only_trans s1 s2 s3 : dirs_only s1 s2 -> dirs_only s2 s3 -> dirs_only s1 s3.
Proof. intros (? & ? & ?) (? & ? & ?). repeat split; congruence || set_solver. Qed.

Lemma os_makedirs_dirs_only E p b s s' r :
  os_makedirs E p b s = (s', r) -> dirs_only s s'.
Proof.
  unfold os_makedirs.
  repeat match goal with
         | |- context [if ?c then _ else _] => destruct c
         end; intros [= <- _]; try apply dirs_only_refl.
  repeat split; simpl; set_solver.
Qed.

Lemma ensure_go_dirs_only E srt cats s s' r :
  ensure_go E srt cats s = (s', r) -> dirs_only s s'.
Proof.
  revert s. induction cats as [|c cats IH]; intros s; simpl.
  - intros [= <- _]. apply dirs_only_refl.
  - unfold bind, gets, ret.
    destruct (path_exists s (join (source_dir srt) c)).
    + apply IH.
    + destruct (os_makedirs E (join (source_dir srt) c) false s) as [s1 [[]|]] eqn:Hm.
      * intros H. eapply dirs_only_trans; [eapply os_makedirs_dirs_only, Hm | eapply IH, H].
      * intros [= <- _]. eapply os_makedirs_dirs_only, Hm.
Qed.

Lemma ensure_dirs_only E srt s s' r :
  ensure_directories_exist E srt s = (s', r) -> dirs_only s s'.
Proof.
  unfold ensure_directories_exist. destruct (create_subdirs srt).
  - apply ensure_go_dirs_only.
  - intros [= <- _]. apply dirs_only_refl.
Qed.

(** Claim C6: when [os.listdir] of the source directory fails, a pass that
    reaches the listing (the category folders were ensured) returns the
    zero statistics; in every case no file is moved and the log is
    unchanged. *)
Theorem sort_files_listdir_fails E srt dry strat bd s :
  env_listdir E (source_dir srt) = None ->
  let r := sort_files E srt dry strat bd s in
  st_files r.1 = st_files s /\ st_history r.1 = st_history s /\
  ((ensure_directories_exist E srt s).2 = Some tt -> r.2 = Some zero_stats).
Proof.
  intros Hls. unfold sort_files, bind.
  destruct (ensure_directories_exist E srt s) as [s1 [[]|]] eqn:He;
    destruct (ensure_dirs_only _ _ _ _ _ He) as (Hf & Hh & _).
  - rewrite Hls. simpl. auto.
  - simpl. repeat split; [done|done|]. discriminate.
Qed.

(** *** The rename probe *)

Lemma list_ascii_of_string_app (a b : string) :
  String.list_ascii_of_string (a +:+ b) =
  String.list_ascii_of_string a ++ String.list_ascii_of_string b.
Proof. induction a as [|c a IH]; simpl; [done|]. by rewrite IH. Qed.

Lemma string_app_inv_r (a b e : string) : a +:+ e = b +:+ e -> a = b.
Proof.
  intros H. apply (f_equal String.list_ascii_of_string) in H.
  rewrite !list_ascii_of_string_app in H. apply app_inv_tail in H.
  rewrite <- (String.string_of_list_ascii_of_string a),
          <- (String.string_of_list_ascii_of_string b), H. done.
Qed.

Lemma cand_inj (base ext : string) (k1 k2 : nat) :
  cand base ext k1 = cand base ext k2 -> k1 = k2.
Proof.
  unfold cand. intros H.
  apply (inj (String.app base)) in H. apply (inj (String.app "_")) in H.
  apply string_app_inv_r in H. unfold str_nat in H. by apply (inj pretty) in H.
Qed.

Lemma existing_paths_length s :
  length (existing_paths s) = (size (st_files s) + size (st_dirs s))%nat.
Proof.
  unfold existing_paths. rewrite length_app, length_map.
  rewrite length_map_to_list. done.
Qed.

Lemma path_exists_in s p : path_exists s p = true -> In p (existing_paths s).
Proof.
  unfold path_exists, is_file, is_dir, existing_paths. intros H.
  apply in_or_app. apply orb_true_iff in H as [H | H]; apply bool_decide_eq_true in H.
  - left. destruct H as [c Hc]. apply in_map_iff. exists (p, c). split; [done|].
    apply list_elem_of_In. by apply elem_of_map_to_list.
  - right. apply list_elem_of_In. by apply elem_of_elements.
Qed.

(** Pigeonhole: the candidates [base_1.ext .. base_m.ext] cannot all exist
    when [m] exceeds the number of existing paths. *)
Lemma candidates_bounded s base ext (m : nat) :
  (forall j, (1 <= j < S m)%nat -> path_exists s (cand base ext j) = true) ->
  (m <= size (st_files s) + size (st_dirs s))%nat.
Proof.
  intros Hall. rewrite <- existing_paths_length.
  replace m with (length (map (cand base ext) (seq 1 m))) by by rewrite length_map, length_seq.
  apply NoDup_incl_length.
  - apply NoDup_map_NoDup_ForallPairs; [|apply seq_NoDup]. intros x y _ _. apply cand_inj.
  - intros p Hp. apply in_map_iff in Hp as (j & <- & Hj). apply in_seq in Hj.
    apply path_exists_in, Hall. lia.
Qed.

Lemma rename_loop_free fuel s base ext counter d :
  path_exists s d = false -> rename_loop fuel s base ext counter d = d.
Proof. intros H. destruct fuel; simpl; by rewrite H. Qed.

(** The probe loop stops at the first free candidate, before its fuel runs
    out. *)
Lemma rename_loop_found s base ext fuel counter d :
  (1 <= counter)%nat ->
  (forall j, (1 <= j < counter)%nat -> path_exists s (cand base ext j) = true) ->
  (size (st_files s) + size (st_dirs s) + 1 < fuel + counter)%nat ->
  path_exists s d = true ->
  exists k, (counter <= k)%nat /\
    rename_loop fuel s base ext counter d = cand base ext k /\
    path_exists s (cand base ext k) = false /\
    (forall j, (1 <= j < k)%nat -> path_exists s (cand base ext j) = true).
Proof.
  revert counter d. induction fuel as [|fuel IH]; intros counter d H1 Hall Hf Hd.
  - exfalso.
    assert (Hb : (counter - 1 <= size (st_files s) + size (st_dirs s))%nat).
    { apply (candidates_bounded s base ext). intros j Hj. apply Hall. lia. }
    lia.
  - simpl. rewrite Hd.
    destruct (path_exists s (cand base ext counter)) eqn:Hc.
    + destruct (IH (S counter) (cand base ext counter)) as (k & Hk & Heq & Hfree & Hbefore);
        [lia | | lia | done |].
      { intros j Hj. destruct (decide (j = counter)) as [->|]; [done|]. apply Hall. lia. }
      exists k. repeat split; [lia|done|done|done].
    + exists counter. rewrite rename_loop_free by done.
      repeat split; [lia|done|done].
Qed.

(** Claim C4: under [rename], an occupied [base.ext] is resolved to the
    first of [base_1.ext], [base_2.ext], ... that does not exist; the
    resolver changes nothing, so the returned path did not exist before
    the call and no existing file is overwritten. *)
Theorem handle_duplicate_rename E s src dest base ext :
  path_exists s dest = true -> splitext dest = (base, ext) ->
  exists k, (1 <= k)%nat /\
    handle_duplicate E src dest "rename" s = (s, Some (Some (cand base ext k))) /\
    path_exists s (cand base ext k) = false /\
    (forall j, (1 <= j < k)%nat -> path_exists s (cand base ext j) = true).
Proof.
  intros Hd Hsplit.
  destruct (rename_loop_found s base ext (probe_fuel s) 1 dest) as (k & Hk & Heq & Hfree & Hbefore);
    [lia | lia | unfold probe_fuel; lia | done |].
  exists k. split; [lia|]. split; [|done].
  unfold handle_duplicate, bind, gets, ret. rewrite Hd. cbn -[rename_loop probe_fuel splitext]. rewrite Hsplit, Heq. done.
Qed.

(** *** Duplicate detection *)

Lemma merge_app o g1 g2 : merge (merge o g1) g2 = merge o (g1 ++ g2).
Proof. destruct o as [l|], g1, g2; simpl; rewrite ?app_nil_r, <- ?app_assoc; done. Qed.

Lemma merge_nil o : merge o [] = o.
Proof. destruct o; simpl; rewrite ?app_nil_r; done. Qed.

Lemma assoc_dict_append hm k v h :
  assoc h (dict_append hm k v) =
  if String.eqb h k then merge (assoc h hm) [v] else assoc h hm.
Proof.
  induction hm as [|[k' vs] hm IH]; simpl.
  - destruct (String.eqb h k); done.
  - destruct (String.eqb k k') eqn:Hkk'; simpl.
    + apply String.eqb_eq in Hkk'. subst k'.
      destruct (String.eqb h k); done.
    + rewrite IH. destruct (String.eqb h k') eqn:Hhk'; [|done].
      apply String.eqb_eq in Hhk'. subst k'.
      destruct (String.eqb h k) eqn:Hhk; [|done].
      apply String.eqb_eq in Hhk. subst. by rewrite String.eqb_refl in Hkk'.
Qed.

Lemma dict_append_keys_in hm k v x :
  In x (map fst (dict_append hm k v)) -> In x (map fst hm) \/ x = k.
Proof.
  induction hm as [|[k' vs] hm IH]; simpl.
  - intros [<- | []]. by right.
  - destruct (String.eqb k k'); simpl.
    + intros [<- | Hin]; [left; by left | left; by right].
    + intros [<- | Hin]; [left; by left|].
      destruct (IH Hin) as [H | H]; [left; by right | by right].
Qed.

Lemma dict_append_keys hm k v :
  List.NoDup (map fst hm) -> List.NoDup (map fst (dict_append hm k v)).
Proof.
  induction hm as [|[k' vs] hm IH]; simpl; intros Hnd.
  - constructor; [intros [] | constructor].
  - inversion Hnd as [|? ? Hnot Hnd']; subst.
    destruct (String.eqb k k') eqn:Hkk'; simpl.
    + by constructor.
    + constructor; [|by apply IH].
      intros Hin. destruct (dict_append_keys_in hm k v k' Hin) as [H | ->]; [done|].
      by rewrite String.eqb_refl in Hkk'.
Qed.

Lemma hash_loop_spec E srt s items hm :
  List.NoDup (map fst hm) ->
  exists R, hash_loop E srt items hm s = (s, Some R) /\ List.NoDup (map fst R) /\
    forall h, assoc h R =
      merge (assoc h hm) (if String.eqb h "" then [] else dup_group E srt s items h).
Proof.
  revert hm. induction items as [|fn items IH]; intros hm Hnd; simpl.
  - exists hm. repeat split; [done|]. intros h. unfold dup_group. simpl.
    destruct (String.eqb h ""); by rewrite merge_nil.
  - unfold bind, gets, ret.
    destruct (is_dir s (join (source_dir srt) fn)) eqn:Hd.
    + destruct (IH hm Hnd) as (R & HR & HndR & Hspec). exists R.
      repeat split; [done|done|]. intros h. rewrite Hspec. unfold dup_group. simpl.
      by rewrite Hd.
    + unfold get_file_hash.
      set (p := join (source_dir srt) fn) in *.
      assert (Hhash : (match st_files s !! p with
                | Some c => if env_read_fails E p then (s, Some ""%string) else (s, Some (env_md5 E c))
                | None => (s, Some ""%string) end) = (s, Some (hash_of E s p))).
      { unfold hash_of. destruct (st_files s !! p); [|done].
        destruct (env_read_fails E p); done. }
      rewrite Hhash.
      destruct (String.eqb (hash_of E s p) "") eqn:He.
      * destruct (IH hm Hnd) as (R & HR & HndR & Hspec). exists R.
        repeat split; [done|done|]. intros h. rewrite Hspec. unfold dup_group. simpl.
        fold p. rewrite Hd. simpl.
        destruct (String.eqb h "") eqn:Hh; [done|].
        destruct (String.eqb (hash_of E s p) h) eqn:Hph; [|done].
        apply String.eqb_eq in He, Hph. subst h. rewrite He in Hh.
        by rewrite String.eqb_refl in Hh.
      * destruct (IH (dict_append hm (hash_of E s p) p)) as (R & HR & HndR & Hspec);
          [by apply dict_append_keys|].
        exists R. repeat split; [done|done|]. intros h. rewrite Hspec.
        rewrite assoc_dict_append. unfold dup_group. simpl. fold p. rewrite Hd. simpl.
        destruct (String.eqb h (hash_of E s p)) eqn:Hh.
        -- apply String.eqb_eq in Hh. subst h. rewrite He, String.eqb_refl.
           simpl. apply merge_app.
        -- rewrite String.eqb_sym in Hh. rewrite Hh.
           destruct (String.eqb h ""); done.
Qed.

Lemma assoc_not_in h R : ~ In h (map fst R) -> assoc h R = None.
Proof.
  induction R as [|[k v] R IH]; simpl; [done|]. intros Hn.
  destruct (String.eqb h k) eqn:Hhk.
  - apply String.eqb_eq in Hhk. subst. exfalso. by apply Hn; left.
  - apply IH. auto.
Qed.

Lemma assoc_filter_dups h R :
  List.NoDup (map fst R) ->
  assoc h (List.filter (fun kv => (1 <? length kv.2)%nat) R) =
  match assoc h R with
  | Some g => if (1 <? length g)%nat then Some g else None
  | None => None
  end.
Proof.
  induction R as [|[k v] R IH]; simpl; intros Hnd; [done|].
  inversion Hnd as [|? ? Hnot Hnd']; subst.
  destruct (String.eqb h k) eqn:Hhk.
  - apply String.eqb_eq in Hhk. subst k.
    destruct (1 <? length v)%nat; simpl.
    + by rewrite String.eqb_refl.
    + rewrite IH by done. by rewrite assoc_not_in.
  - destruct (1 <? length v)%nat; simpl; [rewrite Hhk|]; auto.
Qed.

Lemma assoc_In h g R : List.NoDup (map fst R) -> In (h, g) R -> assoc h R = Some g.
Proof.
  induction R as [|[k v] R IH]; simpl; intros Hnd Hin; [done|].
  inversion Hnd as [|? ? Hnot Hnd']; subst.
  destruct Hin as [Heq | Hin].
  - injection Heq as -> ->. by rewrite String.eqb_refl.
  - destruct (String.eqb h k) eqn:Hhk; [|auto].
    apply String.eqb_eq in Hhk. subst. exfalso. apply Hnot.
    apply in_map_iff. by exists (k, g).
Qed.

(** Claim C8: [find_duplicates] changes nothing and returns, for every
    non-empty digest shared by more than one listed non-directory entry,
    the group of those entries in listing order, and nothing else; so
    unreadable files (digest [""]) are in no group, and [N >= 2] readable
    files with one content (and no other file with their digest) form one
    group of size [N]. *)
Theorem find_duplicates_groups E srt s items :
  env_listdir E (source_dir srt) = Some items ->
  exists D, find_duplicates E srt s = (s, Some D) /\ List.NoDup (map fst D) /\
    (forall h, assoc h D =
       if String.eqb h "" then None
       else let g := dup_group E srt s items h in
            if (1 <? length g)%nat then Some g else None) /\
    (forall h g, In (h, g) D ->
       h <> ""%string /\ g = dup_group E srt s items h /\ (1 < length g)%nat) /\
    (forall c, env_md5 E c <> ""%string ->
       (forall p, In p (map (join (source_dir srt)) items) -> is_dir s p = false ->
          hash_of E s p = env_md5 E c ->
          st_files s !! p = Some c /\ env_read_fails E p = false) ->
       let F := List.filter (fun p => negb (is_dir s p) &&
                                      bool_decide (st_files s !! p = Some c) &&
                                      negb (env_read_fails E p))
                            (map (join (source_dir srt)) items) in
       (2 <= length F)%nat -> assoc (env_md5 E c) D = Some F).
Proof.
  intros Hls. unfold find_duplicates. rewrite Hls.
  destruct (hash_loop_spec E srt s items [] (List.NoDup_nil _)) as (R & HR & HndR & Hspec).
  set (D := List.filter (fun kv => (1 <? length kv.2)%nat) R).
  assert (HndD : List.NoDup (map fst D)).
  { unfold D. clear -HndR. induction R as [|[k v] R IH]; simpl; [constructor|].
    inversion HndR as [|? ? Hnot Hnd']; subst.
    destruct (1 <? length v)%nat; simpl; [|auto].
    constructor; [|auto]. intros Hin. apply Hnot.
    apply in_map_iff in Hin as ([k' v'] & <- & Hin). apply filter_In in Hin as [Hin _].
    apply in_map_iff. by exists (k', v'). }
  assert (Hchar : forall h, assoc h D =
       if String.eqb h "" then None
       else let g := dup_group E srt s items h in
            if (1 <? length g)%nat then Some g else None).
  { intros h. unfold D. rewrite assoc_filter_dups by done. rewrite Hspec. simpl.
    destruct (String.eqb h ""); [done|]. by destruct (dup_group E srt s items h). }
  exists D. unfold bind, ret. rewrite HR. split; [done|]. split; [done|]. split; [done|].
  split.
  - intros h g Hin. pose proof (assoc_In h g D HndD Hin) as Ha. rewrite Hchar in Ha.
    destruct (String.eqb h "") eqn:Hh; [done|]. simpl in Ha.
    destruct (1 <? length (dup_group E srt s items h))%nat eqn:Hl; [|done].
    injection Ha as <-. apply String.eqb_neq in Hh. apply Nat.ltb_lt in Hl. done.
  - intros c Hmd5 Hcoll. set (F := List.filter _ (map (join (source_dir srt)) items)). intros HF. rewrite Hchar.
    apply String.eqb_neq in Hmd5. rewrite Hmd5. simpl.
    assert (Hg : dup_group E srt s items (env_md5 E c) = F).
    { unfold dup_group, F. apply filter_ext_in. intros p Hp.
      destruct (is_dir s p) eqn:Hd; simpl; [done|].
      destruct (String.eqb (hash_of E s p) (env_md5 E c)) eqn:Hh.
      - apply String.eqb_eq in Hh. destruct (Hcoll p Hp Hd Hh) as [Hc Hr].
        rewrite Hr. rewrite bool_decide_eq_true_2 by done. done.
      - destruct (decide (st_files s !! p = Some c)) as [Hc|Hc].
        + rewrite bool_decide_eq_true_2 by done.
          destruct (env_read_fails E p) eqn:Hr; [done|].
          exfalso. unfold hash_of in Hh. rewrite Hc, Hr, String.eqb_refl in Hh. done.
        + by rewrite bool_decide_eq_false_2. }
    rewrite Hg. destruct (1 <? length F)%nat eqn:Hl; [done|].
    apply Nat.ltb_ge in Hl. lia.
Qed.

(** *** Undo *)

Lemma os_rename_history E src real h s :
  os_rename E src real (set_history h s) =
  (set_history h (os_rename E src real s).1, (os_rename E src real s).2).
Proof.
  unfold os_rename.
  change (st_files (set_history h s)) with (st_files s).
  replace (is_dir (set_history h s)) with (is_dir s) by reflexivity.
  replace (path_exists (set_history h s)) with (path_exists s) by reflexivity.
  repeat case_match; destruct s; reflexivity.
Qed.

Lemma os_rename_keeps_history E src real s :
  st_history (os_rename E src real s).1 = st_history s.
Proof.
  destruct s as [f d hs]. unfold os_rename. simpl. repeat case_match; reflexivity.
Qed.

Lemma shutil_move_history E src dst h s :
  shutil_move E src dst (set_history h s) =
  (set_history h (shutil_move E src dst s).1, (shutil_move E src dst s).2).
Proof.
  unfold shutil_move.
  replace (is_dir (set_history h s) dst) with (is_dir s dst) by reflexivity.
  replace (path_exists (set_history h s)) with (path_exists s) by reflexivity.
  repeat case_match; try apply os_rename_history; destruct s; reflexivity.
Qed.

Lemma shutil_move_keeps_history E src dst s :
  st_history (shutil_move E src dst s).1 = st_history s.
Proof.
  unfold shutil_move. repeat case_match; try apply os_rename_keeps_history; reflexivity.
Qed.

Lemma restore_one_history E op r h s :
  restore_one E op r (set_history h s) =
  (set_history h (restore_one E op r s).1, (restore_one E op r s).2).
Proof.
  unfold restore_one, catch, bind, gets, ret.
  replace (path_exists (set_history h s)) with (path_exists s) by reflexivity.
  destruct (path_exists s (op_destination op)); [|reflexivity].
  rewrite shutil_move_history.
  destruct (shutil_move E (op_destination op) (op_source op) s) as [s1 [[]|]]; reflexivity.
Qed.

Lemma restore_one_some E op r s :
  exists s' r', restore_one E op r s = (s', Some r') /\ st_history s' = st_history s /\
    (r' = r \/ r' = S r) /\
    (path_exists s (op_destination op) = true ->
     forall s1, shutil_move E (op_destination op) (op_source op) s = (s1, Some tt) ->
     s' = s1 /\ r' = S r).
Proof.
  unfold restore_one, catch, bind, gets, ret.
  destruct (path_exists s (op_destination op)) eqn:He.
  - pose proof (shutil_move_keeps_history E (op_destination op) (op_source op) s) as Hh.
    destruct (shutil_move E (op_destination op) (op_source op) s) as [s1 [[]|]] eqn:Hm;
      eexists _, _; (split; [reflexivity|]); simpl in Hh; (split; [done|]);
      (split; [auto|]); intros _ s2 [= <-]; auto.
  - eexists _, _. split; [reflexivity|]. split; [done|]. split; [auto|]. done.
Qed.

Lemma restore_all_history E ops r h s :
  restore_all E ops r (set_history h s) =
  (set_history h (restore_all E ops r s).1, (restore_all E ops r s).2).
Proof.
  revert r s. induction ops as [|op ops IH]; intros r s; simpl; [reflexivity|].
  unfold bind. rewrite restore_one_history.
  destruct (restore_one E op r s) as [s1 [r1|]]; simpl; [apply IH | reflexivity].
Qed.

Lemma restore_all_result E ops r s :
  exists s' r', restore_all E ops r s = (s', Some r') /\ st_history s' = st_history s /\
    (r <= r' <= r + length ops)%nat /\
    (restores_ok E ops s -> r' = (r + length ops)%nat).
Proof.
  revert r s. induction ops as [|op ops IH]; intros r s; simpl.
  - eexists _, _. split; [reflexivity|]. split; [done|]. split; [lia|]. lia.
  - unfold bind.
    destruct (restore_one_some E op r s) as (s1 & r1 & Hr1 & Hh1 & Hinc & Hok1).
    rewrite Hr1. destruct (IH r1 s1) as (s2 & r2 & Hr2 & Hh2 & Hb & Hok2).
    eexists _, _. split; [exact Hr2|]. split; [congruence|]. split; [lia|].
    intros (He & s1' & Hm & Hok). destruct (Hok1 He s1' Hm) as [-> ->].
    rewrite Hok2 by done. lia.
Qed.

Lemma undo_loop_spec E n r s :
  (n <= length (st_history s))%nat ->
  undo_loop E n r s =
  restore_all E (rev (drop (length (st_history s) - n) (st_history s))) r
              (set_history (take (length (st_history s) - n) (st_history s)) s).
Proof.
  revert r s. induction n as [|n IH]; intros r s Hn.
  - simpl. rewrite Nat.sub_0_r, drop_all, take_ge by lia. simpl.
    destruct s; reflexivity.
  - destruct (st_history s) as [|x h0] eqn:Hh using rev_ind; [simpl in Hn; lia|].
    clear IHh0. rename x into op, h0 into h'.
    rewrite length_app in Hn; simpl in Hn.
    assert (L : undo_loop E (S n) r s =
                (r1 <-- restore_one E op r ;; undo_loop E n r1) (set_history h' s)).
    { cbn [undo_loop]. unfold bind at 1, gets. rewrite Hh, last_snoc.
      unfold bind at 1, modify. rewrite removelast_last. reflexivity. }
    rewrite L. rewrite length_app. simpl.
    replace (length h' + 1 - S n)%nat with (length h' - n)%nat by lia.
    rewrite drop_app_le, rev_app_distr by lia. simpl.
    rewrite take_app_le by lia.
    unfold bind. rewrite !restore_one_history.
    destruct (restore_one E op r s) as [s1 [r1|]] eqn:Hr1; simpl.
    + rewrite IH by (simpl; lia). simpl.
      rewrite !restore_all_history. reflexivity.
    + destruct (restore_one_some E op r s) as (? & ? & Hx & _). congruence.
Qed.

Lemma save_history_keeps_history E srt s :
  st_history (save_history E srt s).1 = st_history s.
Proof. unfold save_history. by case_match. Qed.

(** Claim C7: [undo_last_operation(count)] pops [n = min(count, len(history))]
    records (none for a negative count) from the tail of the Operation Log,
    processes them last-recorded first, each by [restore_one] (if the
    destination exists, [shutil.move] it back to the source), then saves the
    shortened log.  The number restored is at most [n], equals [n] when every
    destination exists and every move back succeeds, and [n] is the former
    log length when [count] exceeds it. *)
Theorem undo_pops_tail E srt count s :
  let h := st_history s in
  let n := Z.to_nat (Z.min count (Z.of_nat (length h))) in
  let kept := take (length h - n) h in
  let popped := rev (drop (length h - n) h) in
  undo_last_operation E srt count s =
    (r <-- restore_all E popped 0 ;; save_history E srt ;;; ret r) (set_history kept s) /\
  Z.of_nat n = Z.max 0 (Z.min count (Z.of_nat (length h))) /\
  kept ++ rev popped = h /\ length popped = n /\
  exists s' restored,
    undo_last_operation E srt count s = (s', Some restored) /\
    st_history s' = kept /\ (restored <= n)%nat /\
    (restores_ok E popped (set_history kept s) -> restored = n) /\
    (Z.of_nat (length h) <= count -> n = length h).
Proof.
  intros h n kept popped.
  assert (Hn : (n <= length h)%nat) by (subst n; lia).
  assert (Heq : undo_last_operation E srt count s =
    (r <-- restore_all E popped 0 ;; save_history E srt ;;; ret r) (set_history kept s)).
  { unfold undo_last_operation. unfold bind at 1, gets.
    cbv beta iota. fold h n. unfold bind. rewrite undo_loop_spec by done. reflexivity. }
  split; [exact Heq|]. split; [subst n; lia|].
  split; [subst kept popped; rewrite rev_involutive; apply take_drop|].
  split; [subst popped; rewrite length_rev, length_drop; lia|].
  destruct (restore_all_result E popped 0 (set_history kept s))
    as (s1 & r1 & Hr & Hh1 & Hb & Hok).
  rewrite Heq. unfold bind at 1. rewrite Hr.
  assert (Hlen : length popped = n) by (subst popped; rewrite length_rev, length_drop; lia).
  pose proof (save_history_keeps_history E srt s1) as Hs.
  unfold bind. destruct (save_history E srt s1) as [s2 [[]|]] eqn:Hsv;
    [|unfold save_history in Hsv; case_match; discriminate].
  eexists _, _. split; [reflexivity|]. simpl in Hs. split; [rewrite Hs, Hh1; reflexivity|].
  split; [lia|]. split; [intros Hk; rewrite Hok by done; lia|].
  intros Hc. subst n. lia.
Qed.

(** *** A failing deletion under [replace] *)

(** Claim C3: under [replace], [_handle_duplicate] is called outside the [try]
    block of the loop body, so an [OSError] from [os.remove] is not counted
    as a per-file error: it propagates out of [sort_files].  In the run
    below, [b.jpg] has been moved, the deletion of [/d/Pictures/a.jpg]
    fails while [a.jpg] is processed, the call raises, [c.pdf] is never
    processed, and the move already done is not recorded in the Operation
    Log nor in the history file. *)
Theorem replace_remove_failure_aborts :
  let r := sort_files replace_env (test_sorter "/h/file_sorter_history.json")
             false "replace" false replace_state in
  r.2 = None /\
  st_files r.1 !! "/d/Pictures/b.jpg" = Some "B" /\
  st_files r.1 !! "/d/b.jpg" = None /\
  st_files r.1 !! "/d/a.jpg" = Some "A" /\
  st_files r.1 !! "/d/Pictures/a.jpg" = Some "old" /\
  st_files r.1 !! "/d/c.pdf" = Some "C" /\
  st_files r.1 !! "/d/Documents/c.pdf" = None /\
  st_history r.1 = [] /\
  st_files r.1 !! "/h/file_sorter_history.json" = None.
Proof. vm_compute. repeat split. Qed.

(* ------------------------------------------------------------------ *)
(** ** The theorems above at concrete inputs *)

Lemma handle_duplicate_other_strategy_witness :
  handle_duplicate (test_env [] (fun _ => false)) "/d/b.mp4" "/d/Videos/a.mp4" "keep"
    sample_state = (sample_state, Some (Some "/d/Videos/a.mp4")) /\
  sort_entry (test_env [] (fun _ => false)) (test_sorter "/h/file_sorter_history.json")
    false "keep" false (zero_stats, []) "a.mp4" sample_state =
  (set_files (<["/d/Videos/a.mp4" := "A"]> (delete "/d/a.mp4" (st_files sample_state)))
     sample_state,
   Some (incr_moved zero_stats,
         [mk_op "2024-05-01T00:00:00" "/d/a.mp4" "/d/Videos/a.mp4" "a.mp4" "Videos"])).
Proof.
  destruct (handle_duplicate_other_strategy (test_env [] (fun _ => false))
              (test_sorter "/h/file_sorter_history.json") "keep"
              ltac:(discriminate) ltac:(discriminate) ltac:(discriminate)) as [H1 H2].
  split.
  - apply H1. vm_compute. reflexivity.
  - apply (H2 sample_state "a.mp4" "Videos" "A" zero_stats []);
      try (vm_compute; reflexivity); discriminate.
Defined.

Lemma sort_files_listdir_fails_witness :
  st_files (sort_files unlistable_env (test_sorter "/h/file_sorter_history.json")
              false "rename" false sample_state).1 = st_files sample_state /\
  st_history (sort_files unlistable_env (test_sorter "/h/file_sorter_history.json")
                false "rename" false sample_state).1 = st_history sample_state /\
  ((ensure_directories_exist unlistable_env (test_sorter "/h/file_sorter_history.json")
      sample_state).2 = Some tt ->
   (sort_files unlistable_env (test_sorter "/h/file_sorter_history.json")
      false "rename" false sample_state).2 = Some zero_stats).
Proof.
  apply (sort_files_listdir_fails unlistable_env (test_sorter "/h/file_sorter_history.json")
           false "rename" false sample_state).
  reflexivity.
Defined.

Lemma handle_duplicate_rename_witness :
  exists k, (1 <= k)%nat /\
    handle_duplicate (test_env [] (fun _ => false)) "/d/a.mp4" "/d/Videos/a.mp4" "rename"
      sample_state = (sample_state, Some (Some (cand "/d/Videos/a" ".mp4" k))) /\
    path_exists sample_state (cand "/d/Videos/a" ".mp4" k) = false /\
    (forall j, (1 <= j < k)%nat -> path_exists sample_state (cand "/d/Videos/a" ".mp4" j) = true).
Proof.
  apply (handle_duplicate_rename (test_env [] (fun _ => false)) sample_state
           "/d/a.mp4" "/d/Videos/a.mp4" "/d/Videos/a" ".mp4");
    vm_compute; reflexivity.
Defined.

Lemma find_duplicates_groups_witness :
  exists D, find_duplicates (test_env ["a.mp4"; "b.mp4"; "c.txt"; "Videos"] (fun _ => false))
              (test_sorter "/h/file_sorter_history.json") sample_state = (sample_state, Some D) /\
            List.NoDup (map fst D) /\
            assoc "md5:A" D = Some ["/d/a.mp4"; "/d/b.mp4"].
Proof.
  destruct (find_duplicates_groups (test_env ["a.mp4"; "b.mp4"; "c.txt"; "Videos"] (fun _ => false))
              (test_sorter "/h/file_sorter_history.json") sample_state
              ["a.mp4"; "b.mp4"; "c.txt"; "Videos"] eq_refl)
    as (D & HD & Hnd & Hchar & _).
  exists D. split; [exact HD|]. split; [exact Hnd|].
  rewrite Hchar. vm_compute. reflexivity.
Defined.

Lemma dry_entry E srt strat bd st ops fn s :
  strat <> "replace"%string ->
  exists o, sort_entry E srt true strat bd (st, ops) fn s = (s, o) /\
    forall st' ops', o = Some (st', ops') ->
      ops' = ops /\ errors st' = errors st /\
      moved st' = (if would_move E srt strat bd s fn then S (moved st) else moved st) /\
      (moved st' + skipped st' <= S (moved st + skipped st))%nat.
Proof.
  intros Hr. apply String.eqb_neq in Hr.
  unfold sort_entry, would_move, getmtime_month, handle_duplicate, bind, gets, ret.
  repeat case_match; simplify_eq/=; eexists; (split; [reflexivity|]);
    intros ?? [= <- <-]; simpl; (split; [done|]); (split; [done|]);
    (split; [|lia]); try reflexivity; exfalso;
    repeat progress (rewrite ?andb_true_iff, ?orb_true_iff, ?negb_true_iff,
      ?andb_false_iff, ?orb_false_iff, ?negb_false_iff in * );
    naive_solver congruence.
Qed.

Lemma real_entry_vs_dry E srt strat bd st ops fn s :
  strat <> "replace"%string ->
  (would_move E srt strat bd s fn = false ->
   sort_entry E srt false strat bd (st, ops) fn s = sort_entry E srt true strat bd (st, ops) fn s) /\
  (would_move E srt strat bd s fn = true -> forall s' st' ops',
   sort_entry E srt false strat bd (st, ops) fn s = (s', Some (st', ops')) ->
   st' = incr_moved st \/ st' = incr_errors st).
Proof.
  intros Hr. apply String.eqb_neq in Hr.
  unfold sort_entry, would_move, getmtime_month, handle_duplicate, catch, bind, gets, ret.
  split; intros Hw; [|intros s' st' ops'];
    repeat case_match; simplify_eq/=; try reflexivity; try (intros; simplify_eq; auto; fail);
    exfalso;
    repeat progress (rewrite ?andb_true_iff, ?orb_true_iff, ?negb_true_iff,
      ?andb_false_iff, ?orb_false_iff, ?negb_false_iff in * );
    naive_solver congruence.
Qed.

Lemma dry_loop E srt strat bd items st ops s :
  strat <> "replace"%string ->
  exists o, sort_loop E srt true strat bd items (st, ops) s = (s, o) /\
    forall st' ops', o = Some (st', ops') ->
      ops' = ops /\ errors st' = errors st /\
      moved st' = (moved st + length (List.filter (would_move E srt strat bd s) items))%nat /\
      (moved st' + skipped st' <= moved st + skipped st + length items)%nat.
Proof.
  intros Hr. revert st. induction items as [|fn items IH]; intros st; cbn [sort_loop].
  - eexists. split; [reflexivity|]. intros ?? [= <- <-]. split_and!; simpl; done || lia.
  - unfold bind at 1.
    destruct (dry_entry E srt strat bd st ops fn s Hr) as (o & Ho & Hp). rewrite Ho.
    destruct o as [[st1 ops1]|].
    + destruct (Hp st1 ops1 eq_refl) as (-> & He & Hm & Hb).
      destruct (IH st1) as (o' & Ho' & Hp'). eexists. split; [exact Ho'|].
      intros st' ops' Hs. destruct (Hp' st' ops' Hs) as (-> & He' & Hm' & Hb').
      split; [done|]. split; [congruence|].
      split; [|simpl; lia]. rewrite Hm', Hm. cbn [List.filter]. destruct (would_move E srt strat bd s fn); simpl; lia.
    + eexists. split; [reflexivity|]. done.
Qed.

Lemma dry_sort_files E srt strat bd s :
  strat <> "replace"%string ->
  exists o, sort_files E srt true strat bd s = ((ensure_directories_exist E srt s).1, o) /\
    forall st, o = Some st -> errors st = 0%nat /\
     moved st = match env_listdir E (source_dir srt) with
                | None => 0%nat
                | Some items => length (List.filter (would_move E srt strat bd
                                   (ensure_directories_exist E srt s).1) items)
                end.
Proof.
  intros Hr. unfold sort_files, bind at 1.
  destruct (ensure_directories_exist E srt s) as [s1 [[]|]]; simpl;
    [|eexists; split; [reflexivity|intros ? [=]]].
  destruct (env_listdir E (source_dir srt)) as [items|]; simpl.
  - unfold bind at 1.
    destruct (dry_loop E srt strat bd items zero_stats [] s1 Hr) as (o & Ho & Hp).
    rewrite Ho. destruct o as [[st' ops']|]; simpl;
      [|eexists; split; [reflexivity|intros ? [=]]].
    destruct (Hp st' ops' eq_refl) as (_ & He & Hm & _).
    unfold bind. rewrite andb_false_r. simpl.
    eexists. split; [reflexivity|]. intros st [= <-]. simpl in He, Hm. split; [done|]. lia.
  - eexists. split; [reflexivity|]. intros st [= <-]. done.
Qed.

(** Claim C2, refuted: a dry run, which the docstring of [sort_files]
    describes as a preview, changes the filesystem.  With the default
    categories it creates the missing category folders (here [/d/Videos]),
    because [_ensure_directories_exist] runs before [dry_run] is looked
    at.  Under [replace] it deletes the file occupying a destination (here
    [/d/Videos/a.mp4]), because the resolver runs before the [dry_run]
    test. *)
Lemma dry_run_counterexample :
  let e := test_env ["a.mp4"] (fun _ => false) in
  let srt := test_sorter "/h/file_sorter_history.json" in
  let s := test_state [("/d/a.mp4", "A")] ["/d"] [] in
  let r := sort_files e srt true "rename" false s in
  let r' := sort_files e srt true "replace" false sample_state in
  r.2 = Some (mk_stats 1 0 0) /\
  is_dir s "/d/Videos" = false /\ is_dir r.1 "/d/Videos" = true /\
  r'.2 = Some (mk_stats 1 0 0) /\
  st_files sample_state !! "/d/Videos/a.mp4" = Some "old" /\
  st_files r'.1 !! "/d/Videos/a.mp4" = None.
Proof. vm_compute. repeat split. Qed.

(** For every strategy other than [replace], a dry run moves, deletes and
    writes no regular file and leaves the Operation Log alone; its only
    effect is the directory creation of [_ensure_directories_exist] (none
    when [create_subdirs] is false).  It
    reports no error, and its moved count is the number of listed entries
    [would_move] accepts in the state reached after that directory
    creation.  Entry by entry, from any state, the loop body of a real pass
    does exactly what the dry one does on the entries [would_move] rejects,
    and on the accepted ones it either moves the file or counts an error. *)
Theorem dry_run_effect E srt strat bd s :
  strat <> "replace"%string ->
  let r := sort_files E srt true strat bd s in
  let s0 := (ensure_directories_exist E srt s).1 in
  r.1 = s0 /\ st_files s0 = st_files s /\ st_history s0 = st_history s /\
  st_dirs s ⊆ st_dirs s0 /\
  (create_subdirs srt = false -> s0 = s) /\
  (forall st, r.2 = Some st ->
     errors st = 0%nat /\
     moved st = match env_listdir E (source_dir srt) with
                | None => 0%nat
                | Some items => length (List.filter (would_move E srt strat bd s0) items)
                end) /\
  (forall s' st ops fn,
     (would_move E srt strat bd s' fn = false ->
      sort_entry E srt false strat bd (st, ops) fn s' =
      sort_entry E srt true strat bd (st, ops) fn s') /\
     (would_move E srt strat bd s' fn = true -> forall s'' st' ops',
      sort_entry E srt false strat bd (st, ops) fn s' = (s'', Some (st', ops')) ->
      st' = incr_moved st \/ st' = incr_errors st)).
Proof.
  intros Hr r s0.
  destruct (dry_sort_files E srt strat bd s Hr) as (o & Ho & Hst).
  assert (Hr1 : r.1 = s0) by (subst r s0; rewrite Ho; reflexivity).
  assert (Hst' : forall st, r.2 = Some st -> errors st = 0%nat /\
     moved st = match env_listdir E (source_dir srt) with
                | None => 0%nat
                | Some items => length (List.filter (would_move E srt strat bd s0) items)
                end) by (subst r s0; rewrite Ho; exact Hst).
  destruct (ensure_directories_exist E srt s) as [s1 o1] eqn:He.
  destruct (ensure_dirs_only E srt s s1 o1 He) as (Hf & Hh & Hd).
  split; [done|]. split; [done|]. split; [done|]. split; [done|].
  split; [|split; [exact Hst'|]].
  - intros Hc. subst s0. unfold ensure_directories_exist in He. rewrite Hc in He.
    injection He as <- _. done.
  - intros s' st ops fn. apply real_entry_vs_dry, Hr.
Qed.

Lemma dry_run_effect_witness :
  (sort_files (test_env ["a.mp4"; "b.mp4"; "c.txt"] (fun _ => false))
     (test_sorter "/h/file_sorter_history.json") true "skip" false sample_state).1 =
  (ensure_directories_exist (test_env ["a.mp4"; "b.mp4"; "c.txt"] (fun _ => false))
     (test_sorter "/h/file_sorter_history.json") sample_state).1.
Proof.
  apply (dry_run_effect (test_env ["a.mp4"; "b.mp4"; "c.txt"] (fun _ => false))
           (test_sorter "/h/file_sorter_history.json") "skip" false sample_state).
  discriminate.
Defined.

(** *** Path names *)

Lemma str_length_app a b :
  String.length (a +:+ b) = (String.length a + String.length b)%nat.
Proof. induction a as [|x a IH]; simpl; [reflexivity|congruence]. Qed.

Lemma str_app_assoc a b c : (a +:+ b) +:+ c = a +:+ (b +:+ c).
Proof.
  induction a as [|x a IH]; [reflexivity|].
  change (String x ((a +:+ b) +:+ c) = String x (a +:+ (b +:+ c))). by rewrite IH.
Qed.

Lemma rfind_go_app c s1 s2 i acc :
  rfind_go c (s1 +:+ s2) i acc =
  rfind_go c s2 (i + Z.of_nat (String.length s1)) (rfind_go c s1 i acc).
Proof.
  revert i acc. induction s1 as [|a s1 IH]; intros i acc; simpl.
  - by rewrite Z.add_0_r.
  - rewrite IH. f_equal. lia.
Qed.

Lemma rfind_go_notin c s i acc :
  ~ In c (String.list_ascii_of_string s) -> rfind_go c s i acc = acc.
Proof.
  revert i acc. induction s as [|a s IH]; intros i acc Hn; simpl in *; [done|].
  destruct (Ascii.eqb_spec a c); [subst; tauto|]. apply IH. tauto.
Qed.

Lemma substring_full b : String.substring 0 (String.length b) b = b.
Proof. induction b as [|y b IHb]; simpl; [done|]. by rewrite IHb. Qed.

Lemma substring_app_l a b :
  String.substring (String.length a) (String.length b) (a +:+ b) = b.
Proof. induction a as [|x a IH]; simpl; [apply substring_full|done]. Qed.

Lemma basename_app_slash a fn :
  ~ In "/"%char (String.list_ascii_of_string fn) ->
  basename ((a +:+ "/") +:+ fn) = fn.
Proof.
  intros Hn. unfold basename, rfind, slice_from.
  rewrite rfind_go_app, rfind_go_notin by done.
  rewrite rfind_go_app. simpl. rewrite ?Ascii.eqb_refl.
  replace (Z.to_nat (0 + Z.of_nat (String.length a) + 1))
    with (String.length (a +:+ "/")) by (rewrite str_length_app; simpl; lia).
  replace (String.length ((a +:+ "/") +:+ fn) - String.length (a +:+ "/"))%nat
    with (String.length fn) by (rewrite str_length_app; lia).
  apply substring_app_l.
Qed.

Lemma string_snoc p : p <> ""%string ->
  exists p' x, p = (p' +:+ String x "")%string /\
               String.get (String.length p - 1) p = Some x.
Proof.
  induction p as [|a p IH]; intros Hp; [done|].
  destruct p as [|b p].
  - exists ""%string, a. done.
  - destruct IH as (p' & x & Hpx & Hg); [done|].
    exists (String a p'), x. split; [by rewrite Hpx|].
    simpl in *. rewrite Nat.sub_0_r in Hg. done.
Qed.

Lemma basename_join p fn :
  no_slash fn -> basename (join p fn) = fn.
Proof.
  intros [Hne Hn]. unfold join.
  destruct fn as [|f fn']; [done|].
  replace (String.prefix "/" (String f fn')) with false.
  2:{ change (false = (if ascii_dec "/" f then String.prefix "" fn' else false)).
       destruct (ascii_dec "/" f) as [<-|]; [simpl in Hn; tauto|done]. }
  destruct (String.eqb p "") eqn:Hpe; simpl.
  - apply String.eqb_eq in Hpe. subst p.
    unfold basename, rfind, slice_from. rewrite rfind_go_notin by done.
    change (String.substring 0 (String.length (String f fn') - 0) (String f fn') = String f fn').
    rewrite Nat.sub_0_r. apply substring_full.
  - apply String.eqb_neq in Hpe.
    destruct (ends_with_slash p) eqn:He; simpl.
    + destruct (string_snoc p Hpe) as (p' & x & -> & Hg).
      unfold ends_with_slash in He. rewrite Hg in He.
      apply Ascii.eqb_eq in He. subst x.
      replace (p' +:+ "/" +:+ String f fn') with ((p' +:+ "/") +:+ String f fn') by apply str_app_assoc.
      apply basename_app_slash. done.
    + replace (p +:+ "/" +:+ String f fn') with ((p +:+ "/") +:+ String f fn') by apply str_app_assoc.
      apply basename_app_slash. done.
Qed.

Lemma join_inj p fn1 fn2 :
  no_slash fn1 -> no_slash fn2 -> join p fn1 = join p fn2 -> fn1 = fn2.
Proof.
  intros H1 H2 He. rewrite <- (basename_join p fn1 H1), <- (basename_join p fn2 H2).
  by f_equal.
Qed.

(** *** Round trip of a pass and its undo *)

(** What the resolver hands back: the rename policy returns a path that
    does not exist; the other policies return the candidate itself. *)
Lemma rename_result_free E src dest T T' r :
  handle_duplicate E src dest "rename" T = (T', Some r) ->
  T' = T /\ exists final, r = Some final /\ path_exists T final = false.
Proof.
  unfold handle_duplicate, bind, gets, ret. cbn -[rename_loop probe_fuel splitext].
  destruct (path_exists T dest) eqn:Hd; cbn -[rename_loop probe_fuel splitext].
  - destruct (splitext dest) as [base ext] eqn:Hs. intros [= <- <-]. split; [done|].
    exists (rename_loop (probe_fuel T) T base ext 1 dest). split; [reflexivity|].
    destruct (rename_loop_found T base ext (probe_fuel T) 1%nat dest) as (k & _ & -> & Hfree & _);
      [lia | lia | unfold probe_fuel; lia | done | done].
  - intros [= <- <-]. split; [done|]. eexists; split; [reflexivity|done].
Qed.

Lemma handle_duplicate_result E src dest strat T T' final :
  handle_duplicate E src dest strat T = (T', Some (Some final)) ->
  (strat <> "rename"%string -> final = dest) /\
  (strat = "rename"%string -> T' = T /\ path_exists T final = false) /\
  (T' = T \/ (strat = "replace"%string /\ final = dest /\ is_Some (st_files T !! dest) /\
              T' = set_files (delete dest (st_files T)) T)).
Proof.
  intros H. destruct (String.eqb_spec strat "rename") as [->|Hr].
  - destruct (rename_result_free E src dest T T' (Some final) H) as (-> & f & [= <-] & Hf).
    split; [done|]. split; [done|]. by left.
  - revert H. unfold handle_duplicate, os_remove, bind, gets, ret.
    apply String.eqb_neq in Hr as Hr'.
    destruct (path_exists T dest) eqn:Hd; simpl.
    + destruct (String.eqb_spec strat "skip"); [done|].
      destruct (String.eqb_spec strat "replace") as [->|Hp].
      * destruct (st_files T !! dest) eqn:Hf; [|done].
        destruct (env_remove_fails E dest); [done|]. intros [= <- <-].
        split; [done|]. split; [done|]. right. split_and!; eauto.
      * rewrite Hr'. intros [= <- <-]. split; [done|]. split; [done|]. by left.
    + intros [= <- <-]. split; [done|]. split; [done|]. by left.
Qed.

Lemma handle_duplicate_none E src dest strat T T' :
  handle_duplicate E src dest strat T = (T', Some None) -> T' = T.
Proof.
  unfold handle_duplicate, os_remove, bind, gets, ret.
  repeat case_match; congruence.
Qed.

(** A loop body of a real pass either leaves everything as it was or
    resolves, creates the folder and moves, appending one record. *)
Lemma real_entry_cases E srt strat bd st O fn T T1 st1 O1 :
  sort_entry E srt false strat bd (st, O) fn T = (T1, Some (st1, O1)) ->
  errors st1 = errors st ->
  (T1 = T /\ O1 = O /\ moved st1 = moved st) \/
  (exists category dest_dir final T' T2,
     is_dir T (join (source_dir srt) fn) = false /\ fn <> basename (history_file srt) /\
     handle_duplicate E (join (source_dir srt) fn) (join dest_dir fn) strat T = (T', Some (Some final)) /\
     os_makedirs E (dirname final) true T' = (T2, Some tt) /\
     shutil_move E (join (source_dir srt) fn) final T2 = (T1, Some tt) /\
     O1 = O ++ [mk_op (env_now E) (join (source_dir srt) fn) final fn category] /\
     moved st1 = S (moved st)).
Proof.
  unfold sort_entry, catch, bind, gets, ret, getmtime_month.
  repeat case_match; intros Hx He; simplify_eq/=;
    repeat match goal with
           | u : unit |- _ => destruct u
           | Hh : handle_duplicate _ _ _ _ _ = (_, Some None) |- _ =>
               apply handle_duplicate_none in Hh; subst
           end;
    try (left; split_and!; done);
    try (simpl in He; lia).
  all: right; eexists _, _, _, _, _; split_and!; eauto.
  all: match goal with
       | Hd : _ || _ = false |- _ => apply orb_false_iff in Hd as [? ?%String.eqb_neq]; done
       end.
Qed.

(** A directory name is never longer than the path, and the directory
    part of [join p fn] is strictly shorter. *)

Lemma substring_length_le n m s : (String.length (String.substring n m s) <= String.length s)%nat.
Proof.
  revert n m. induction s as [|a s IH]; intros [|n] [|m]; simpl; try lia.
  - specialize (IH 0%nat m). lia.
  - specialize (IH n 0%nat). lia.
  - specialize (IH n (S m)). lia.
Qed.

Lemma substring_length_le_m n m s : (String.length (String.substring n m s) <= m)%nat.
Proof.
  revert n m. induction s as [|a s IH]; intros [|n] [|m]; simpl; try lia.
  - specialize (IH 0%nat m). lia.
  - apply IH.
  - apply IH.
Qed.

Lemma length_string_of_list_ascii l : String.length (String.string_of_list_ascii l) = length l.
Proof. induction l; simpl; congruence. Qed.

Lemma length_list_ascii_of_string s : length (String.list_ascii_of_string s) = String.length s.
Proof. induction s; simpl; congruence. Qed.

Lemma drop_slashes_length l : (length (drop_slashes l) <= length l)%nat.
Proof. induction l as [|a l IH]; simpl; [lia|]. case_match; simpl; lia. Qed.

Lemma rstrip_slash_length s : (String.length (rstrip_slash s) <= String.length s)%nat.
Proof.
  unfold rstrip_slash. rewrite length_string_of_list_ascii, length_rev.
  etrans; [apply drop_slashes_length|]. rewrite length_rev, length_list_ascii_of_string. lia.
Qed.

Lemma dirname_length p :
  (String.length (dirname p) <= Z.to_nat (rfind "/"%char p + 1))%nat /\
  (String.length (dirname p) <= String.length p)%nat.
Proof.
  unfold dirname, slice_to.
  pose proof (substring_length_le 0 (Z.to_nat (rfind "/"%char p + 1)) p).
  pose proof (substring_length_le_m 0 (Z.to_nat (rfind "/"%char p + 1)) p).
  case_match; [|lia].
  pose proof (rstrip_slash_length (String.substring 0 (Z.to_nat (rfind "/"%char p + 1)) p)). lia.
Qed.

Lemma parents_go_length n p q : In q (parents_go n p) -> (String.length q <= String.length p)%nat.
Proof.
  revert p. induction n as [|n IH]; intros p; simpl; [done|].
  case_match; [done|]. intros [<-|Hq].
  - apply dirname_length.
  - etrans; [apply IH, Hq|]. apply dirname_length.
Qed.

Lemma rfind_go_le c s i acc :
  rfind_go c s i acc <= Z.max acc (i + Z.of_nat (String.length s) - 1).
Proof.
  revert i acc. induction s as [|a s IH]; intros i acc; simpl; [lia|].
  etrans; [apply IH|]. case_match; lia.
Qed.

Lemma dirname_join_shorter p fn :
  no_slash fn -> (String.length (dirname (join p fn)) < String.length (join p fn))%nat.
Proof.
  intros [Hne Hn].
  assert (Hx : forall X, (String.length (dirname (X +:+ fn)) < String.length (X +:+ fn))%nat).
  { intros X. destruct (dirname_length (X +:+ fn)) as [H1 _].
    unfold rfind in H1. rewrite rfind_go_app, rfind_go_notin in H1 by done.
    pose proof (rfind_go_le "/"%char X 0 (-1)).
    rewrite str_length_app.
    destruct fn as [|f fn]; [done|]. simpl. lia. }
  unfold join. destruct fn as [|f fn']; [done|].
  replace (String.prefix "/" (String f fn')) with false.
  2:{ change (false = (if ascii_dec "/" f then String.prefix "" fn' else false)).
       destruct (ascii_dec "/" f) as [<-|]; [simpl in Hn; tauto|done]. }
  destruct (String.eqb p "" || ends_with_slash p); [apply Hx|].
  rewrite <- str_app_assoc. apply Hx.
Qed.

Lemma makedirs_parents_shorter p fn q :
  no_slash fn ->
  In q (dirname (join p fn) :: parents (dirname (join p fn))) ->
  q <> join p fn.
Proof.
  intros Hn Hq ->. pose proof (dirname_join_shorter p fn Hn).
  destruct Hq as [Hq|Hq]; [rewrite Hq in *; lia|].
  apply parents_go_length in Hq. lia.
Qed.


Lemma os_makedirs_ok E name b T T2 :
  os_makedirs E name b T = (T2, Some tt) ->
  st_files T2 = st_files T /\ st_history T2 = st_history T /\ st_dirs T ⊆ st_dirs T2 /\
  (forall p, is_dir T2 p = true -> is_dir T p = true \/
     (is_file T p = false /\ In p (name :: parents name))).
Proof.
  unfold os_makedirs.
  destruct (is_dir T name) eqn:Hd.
  { destruct b; [|done]. intros [= <-]. split_and!; auto; set_solver. }
  destruct (is_file T name) eqn:Hf; [done|].
  destruct (existsb (is_file T) (parents name) || env_mkdir_fails E name) eqn:Hp; [done|].
  intros [= <-]. apply orb_false_iff in Hp as [Hp _].
  split_and!; [done|done|simpl; set_solver|].
  intros p Hp'. unfold is_dir in Hp' |- *. simpl in Hp'.
  apply bool_decide_eq_true in Hp'. apply elem_of_union in Hp' as [Hp'|Hp'].
  - right. assert (Hin : In p (name :: parents name)).
    { apply list_elem_of_In. set_solver. }
    split; [|done].
    destruct Hin as [<-|Hp'']; [done|].
    destruct (is_file T p) eqn:Hfp; [|done].
    assert (existsb (is_file T) (parents name) = true) by (apply existsb_exists; exists p; done).
    congruence.
  - left. by apply bool_decide_eq_true.
Qed.

Lemma os_rename_file_ok E src dst T c :
  env_rename_fails E src dst = false -> st_files T !! src = Some c -> is_dir T dst = false ->
  os_rename E src dst T = (set_files (<[dst := c]> (delete src (st_files T))) T, Some tt).
Proof. intros Hr Hc Hd. unfold os_rename. by rewrite Hr, Hc, Hd. Qed.

Lemma shutil_move_file_ok E src dst T c :
  env_rename_fails E src dst = false -> st_files T !! src = Some c -> is_dir T dst = false ->
  shutil_move E src dst T = (set_files (<[dst := c]> (delete src (st_files T))) T, Some tt).
Proof. intros Hr Hc Hd. unfold shutil_move. rewrite Hd. by apply os_rename_file_ok. Qed.

(** [shutil.move] of a regular file leaves the directories alone; when the
    destination is not a directory the file lands exactly there. *)

Lemma shutil_move_file E src dst T T' c :
  st_files T !! src = Some c ->
  shutil_move E src dst T = (T', Some tt) ->
  st_dirs T' = st_dirs T /\ st_history T' = st_history T /\
  (forall p, p <> src -> is_Some (st_files T !! p) -> is_Some (st_files T' !! p)) /\
  (is_dir T' dst = false -> st_files T' = <[dst := c]> (delete src (st_files T))).
Proof.
  intros Hc. unfold shutil_move, os_rename. rewrite Hc.
  assert (Hgen : forall real, (if env_rename_fails E src real then (T, None)
     else if is_dir T real then (T, None)
     else (set_files (<[real:=c]> (delete src (st_files T))) T, Some tt)) = (T', Some tt) ->
     st_dirs T' = st_dirs T /\ st_history T' = st_history T /\
     (forall p, p <> src -> is_Some (st_files T !! p) -> is_Some (st_files T' !! p)) /\
     st_files T' = <[real := c]> (delete src (st_files T))).
  { intros real. destruct (env_rename_fails E src real); [done|].
    destruct (is_dir T real); [done|]. intros [= <-]. simpl. split_and!; [done|done| |done].
    intros p Hp [x Hx]. unfold set_files; simpl. destruct (decide (p = real)) as [->|Hne];
      [rewrite lookup_insert_eq; eauto|].
    rewrite lookup_insert_ne, lookup_delete_ne by congruence. eauto. }
  destruct (is_dir T dst) eqn:Hd.
  - assert (Hw : forall real, (if env_rename_fails E src real then (T, None)
     else if is_dir T real then (T, None)
     else (set_files (<[real:=c]> (delete src (st_files T))) T, Some tt)) = (T', Some tt) ->
     st_dirs T' = st_dirs T /\ st_history T' = st_history T /\
     (forall p, p <> src -> is_Some (st_files T !! p) -> is_Some (st_files T' !! p)) /\
     (is_dir T' dst = false -> st_files T' = <[dst := c]> (delete src (st_files T)))).
    { intros real H. destruct (Hgen real H) as (H1 & H2 & H3 & _). split_and!; [done..|].
      unfold is_dir. rewrite H1. fold (is_dir T dst). by rewrite Hd. }
    destruct (String.eqb src dst); [repeat case_match; congruence|].
    destruct (path_exists T (join dst (basename (rstrip_slash src)))); [done|]. apply Hw.
  - intros H. destruct (Hgen dst) as (H1 & H2 & H3 & H4); [by rewrite Hd|]. split_and!; auto.
Qed.

Lemma shutil_move_nofile E src dst T T' :
  st_files T !! src = None -> is_dir T src = false ->
  shutil_move E src dst T = (T', Some tt) -> False.
Proof.
  intros Hc Hd. unfold shutil_move, os_rename. rewrite Hc, Hd.
  repeat case_match; congruence.
Qed.

Lemma makedirs_then_move E src final T' T2 T1 c :
  st_files T' !! src = Some c -> is_dir T' src = false ->
  os_makedirs E (dirname final) true T' = (T2, Some tt) ->
  shutil_move E src final T2 = (T1, Some tt) ->
  st_history T1 = st_history T' /\ st_dirs T' ⊆ st_dirs T1 /\
  (forall p, p <> src -> is_Some (st_files T' !! p) -> is_Some (st_files T1 !! p)) /\
  (is_dir T1 final = false -> st_files T1 = <[final := c]> (delete src (st_files T'))).
Proof.
  intros Hc Hd Hm Hs.
  destruct (os_makedirs_ok E _ _ _ _ Hm) as (Hf2 & Hh2 & Hd2 & Hnd2).
  assert (Hc2 : st_files T2 !! src = Some c) by by rewrite Hf2.
  destruct (shutil_move_file E src final T2 T1 c Hc2 Hs) as (D & H & S & F).
  split_and!.
  - congruence.
  - rewrite D. done.
  - intros p Hp Hs'. apply S; [done|]. by rewrite Hf2.
  - intros Hf. rewrite F, Hf2 by done. done.
Qed.

Lemma move_step E strat sd fn dest T c final T' T2 T1 :
  no_slash fn ->
  st_files T !! join sd fn = Some c ->
  is_dir T (join sd fn) = false ->
  handle_duplicate E (join sd fn) dest strat T = (T', Some (Some final)) ->
  os_makedirs E (dirname final) true T' = (T2, Some tt) ->
  shutil_move E (join sd fn) final T2 = (T1, Some tt) ->
  st_history T1 = st_history T /\ st_dirs T ⊆ st_dirs T1 /\
  (forall p, p <> join sd fn -> (strat = "replace"%string -> p <> final) ->
     is_Some (st_files T !! p) -> is_Some (st_files T1 !! p)) /\
  (is_dir T1 final = false ->
     st_files T1 !! final = Some c /\
     forall p, p <> join sd fn -> p <> final -> st_files T1 !! p = st_files T !! p).
Proof.
  intros Hn Hc Hd Hh Hm Hs.
  destruct (handle_duplicate_result _ _ _ _ _ _ _ Hh) as (_ & _ & [->|(Hrep & -> & Hex & ->)]).
  - destruct (makedirs_then_move E _ _ _ _ _ c Hc Hd Hm Hs) as (H1 & H2 & H3 & H4).
    split_and!; [done|done|intros p Hp _; by apply H3|].
    intros Hf. rewrite H4 by done. split; [by rewrite lookup_insert_eq|].
    intros p Hp1 Hp2. by rewrite lookup_insert_ne, lookup_delete_ne by congruence.
  - destruct (decide (dest = join sd fn)) as [Heq|Hne].
    + exfalso. subst dest.
      destruct (os_makedirs_ok E _ _ _ _ Hm) as (Hf2 & _ & _ & Hnd2).
      eapply (shutil_move_nofile E (join sd fn) (join sd fn) T2 T1); [| |exact Hs].
      * rewrite Hf2. simpl. apply lookup_delete_eq.
      * destruct (is_dir T2 (join sd fn)) eqn:Hd2; [|done].
        destruct (Hnd2 _ Hd2) as [Hd'|[_ Hin]]; [unfold is_dir in *; simpl in *; congruence|].
        by apply (makedirs_parents_shorter sd fn (join sd fn)) in Hin.
    + assert (Hc' : st_files (set_files (delete dest (st_files T)) T) !! join sd fn = Some c)
        by (simpl; rewrite lookup_delete_ne by congruence; done).
      destruct (makedirs_then_move E _ _ _ _ _ c Hc' Hd Hm Hs) as (H1 & H2 & H3 & H4).
      split_and!; [done|done| |].
      * intros p Hp Hpf Hsp. apply H3; [done|]. simpl.
        rewrite lookup_delete_ne by (specialize (Hpf Hrep); congruence). done.
      * intros Hf. rewrite H4 by done. split; [by rewrite lookup_insert_eq|].
        intros p Hp1 Hp2. simpl.
        by rewrite lookup_insert_ne, !lookup_delete_ne by congruence.
Qed.

Lemma entry_errors_mono E srt dry strat bd st O fn T T1 st1 O1 :
  sort_entry E srt dry strat bd (st, O) fn T = (T1, Some (st1, O1)) ->
  (errors st <= errors st1)%nat.
Proof.
  unfold sort_entry, catch, bind, gets, ret, getmtime_month.
  repeat case_match; intros Hx; simplify_eq/=; lia.
Qed.

Lemma loop_errors_mono E srt dry strat bd R st O T Tend stend Oend :
  sort_loop E srt dry strat bd R (st, O) T = (Tend, Some (stend, Oend)) ->
  (errors st <= errors stend)%nat.
Proof.
  revert st O T. induction R as [|fn R IH]; intros st O T; cbn [sort_loop].
  - intros [= _ <- _]. lia.
  - unfold bind at 1.
    destruct (sort_entry E srt dry strat bd (st, O) fn T) as [T1 [[st1 O1]|]] eqn:He; [|done].
    intros H. apply entry_errors_mono in He. apply IH in H. lia.
Qed.

Lemma path_exists_file T p :
  path_exists T p = true -> is_dir T p = false -> exists c, st_files T !! p = Some c.
Proof.
  unfold path_exists, is_file. intros H Hd. rewrite Hd, orb_false_r in H.
  apply bool_decide_eq_true in H as [c Hc]. eauto.
Qed.

Lemma no_slash_join_neq p fn fn' :
  no_slash fn -> no_slash fn' -> fn <> fn' -> join p fn <> join p fn'.
Proof. intros H1 H2 Hne Heq. apply Hne. eapply join_inj; eauto. Qed.

Lemma basename_neq_join d fn p fn' :
  no_slash fn -> no_slash fn' -> fn <> fn' -> join d fn <> join p fn'.
Proof.
  intros H1 H2 Hne Heq. apply Hne.
  rewrite <- (basename_join d fn H1), <- (basename_join p fn' H2). by f_equal.
Qed.

(** A step that moves [fn] keeps every other listed name in place. *)

Lemma step_keeps_exists E strat sd fn fn' dest_dir T c final T' T2 T1 :
  no_slash fn -> no_slash fn' -> fn' <> fn ->
  st_files T !! join sd fn = Some c ->
  is_dir T (join sd fn) = false ->
  handle_duplicate E (join sd fn) (join dest_dir fn) strat T = (T', Some (Some final)) ->
  os_makedirs E (dirname final) true T' = (T2, Some tt) ->
  shutil_move E (join sd fn) final T2 = (T1, Some tt) ->
  path_exists T (join sd fn') = true -> path_exists T1 (join sd fn') = true.
Proof.
  intros Hns Hns' Hne Hc Hd Hh Hm Hs Hex'.
  destruct (move_step _ _ _ _ _ _ _ _ _ _ _ Hns Hc Hd Hh Hm Hs) as (H1 & H2 & H3 & _).
  unfold path_exists in Hex' |- *. apply orb_true_iff in Hex' as [Hf|Hdd].
  - apply orb_true_iff. left. unfold is_file in Hf |- *.
    apply bool_decide_eq_true in Hf. apply bool_decide_eq_true.
    apply H3; [by apply no_slash_join_neq|..|done].
    intros ->. destruct (handle_duplicate_result _ _ _ _ _ _ _ Hh) as (Hf' & _).
    rewrite Hf' by done. by apply basename_neq_join.
  - apply orb_true_iff. right. unfold is_dir in Hdd |- *.
    apply bool_decide_eq_true in Hdd. apply bool_decide_eq_true. set_solver.
Qed.

(** A real pass without errors only adds directories and appends records. *)
Lemma loop_dirs_grow E srt strat bd R st O T Tend stend Oend :
  sort_loop E srt false strat bd R (st, O) T = (Tend, Some (stend, Oend)) ->
  errors stend = errors st ->
  List.NoDup R ->
  (forall fn, In fn R -> no_slash fn /\ path_exists T (join (source_dir srt) fn) = true) ->
  st_dirs T ⊆ st_dirs Tend /\ st_history Tend = st_history T /\ exists new, Oend = O ++ new.
Proof.
  revert st O T. induction R as [|fn R IH]; intros st O T; cbn [sort_loop].
  - intros [= <- _ <-] _ _ _. split_and!; [done|done|]. exists []. by rewrite app_nil_r.
  - unfold bind at 1.
    destruct (sort_entry E srt false strat bd (st, O) fn T) as [T1 [[st1 O1]|]] eqn:He; [|done].
    intros Hl Herr Hnd Hall.
    pose proof (entry_errors_mono _ _ _ _ _ _ _ _ _ _ _ _ He).
    pose proof (loop_errors_mono _ _ _ _ _ _ _ _ _ _ _ _ Hl).
    apply List.NoDup_cons_iff in Hnd as [Hnin Hnd].
    destruct (Hall fn (or_introl eq_refl)) as [Hns Hex].
    destruct (real_entry_cases _ _ _ _ _ _ _ _ _ _ _ He) as [(-> & -> & _)|
      (category & dest_dir & final & T' & T2 & Hd & _ & Hh & Hm & Hs & -> & _)]; [lia| |].
    + apply (IH _ _ _ Hl); [lia|done|]. intros fn' Hin. apply Hall. by right.
    + destruct (path_exists_file _ _ Hex Hd) as [c Hc].
      destruct (move_step _ _ _ _ _ _ _ _ _ _ _ Hns Hc Hd Hh Hm Hs) as (H1 & H2 & _ & _).
      destruct (IH _ _ _ Hl) as (D & Hh' & new & Hnew); [lia|done| |].
      * intros fn' Hin. destruct (Hall fn' (or_intror Hin)) as [Hns' Hex'].
        split; [done|]. apply (step_keeps_exists E strat (source_dir srt) fn fn' dest_dir T c final T' T2 T1); try done. intros ->. done.
      * split_and!; [set_solver|congruence|]. rewrite Hnew, <- app_assoc. eexists. reflexivity.
Qed.

Lemma pass_inv_exists srt strat items s T O R fn :
  (forall fn, In fn items -> no_slash fn /\ path_exists s (join (source_dir srt) fn) = true) ->
  pass_inv srt strat items s T O R -> In fn R ->
  path_exists T (join (source_dir srt) fn) = true.
Proof.
  intros Hit (_ & Hd & HR & _) Hin. destruct (HR fn Hin) as [Hi Hf].
  destruct (Hit fn Hi) as [_ Hex]. unfold path_exists, is_file, is_dir in *.
  rewrite Hf. apply orb_true_iff in Hex as [?|Hx]; [by rewrite H|].
  apply orb_true_iff. right. apply bool_decide_eq_true in Hx. apply bool_decide_eq_true. set_solver.
Qed.

Lemma pass_inv_tail srt strat items s T O fn R :
  pass_inv srt strat items s T O (fn :: R) -> pass_inv srt strat items s T O R.
Proof.
  intros (H1 & H2 & H3 & H4 & H5 & H6). split_and!; [done|done| | | done |].
  - intros fn' Hin. apply H3. by right.
  - eapply List.NoDup_remove_1. exact H4.
  - intros o Ho. destruct (H6 o Ho) as (A & B & C & D & F & G). split_and!; try done.
    intros fn' Hin. apply G. by right.
Qed.

(** The loop invariant of a real pass without errors. *)
Lemma loop_inv E srt strat bd items s R st O T Tend stend Oend :
  (forall fn, In fn items -> no_slash fn /\ path_exists s (join (source_dir srt) fn) = true) ->
  sort_loop E srt false strat bd R (st, O) T = (Tend, Some (stend, Oend)) ->
  errors stend = errors st ->
  pass_inv srt strat items s T O R ->
  (forall o, In o Oend -> is_dir Tend (op_destination o) = false) ->
  pass_inv srt strat items s Tend Oend [] /\ (moved stend + length O = moved st + length Oend)%nat.
Proof.
  intros Hit. revert st O T. induction R as [|fn R IH]; intros st O T; cbn [sort_loop].
  - intros [= <- <- <-] _ Hinv _. split; [done|lia].
  - unfold bind at 1.
    destruct (sort_entry E srt false strat bd (st, O) fn T) as [T1 [[st1 O1]|]] eqn:He; [|done].
    intros Hl Herr Hinv Hdst.
    pose proof (entry_errors_mono _ _ _ _ _ _ _ _ _ _ _ _ He).
    pose proof (loop_errors_mono _ _ _ _ _ _ _ _ _ _ _ _ Hl).
    destruct (real_entry_cases _ _ _ _ _ _ _ _ _ _ _ He) as [(-> & -> & Hmv)|
      (category & dest_dir & final & T' & T2 & Hd & Hhb & Hh & Hm & Hs & -> & Hmv)]; [lia| |].
    + destruct (IH _ _ _ Hl) as [Hi Hmv']; [lia|by eapply pass_inv_tail|done|].
      split; [done|lia].
    + pose proof Hinv as (Hhist & Hdirs & HR & Hnd & Hch & Hops).
      destruct (HR fn (or_introl eq_refl)) as [Hfi Hfs].
      destruct (Hit fn Hfi) as [Hns Hex].
      assert (Hds : is_dir s (join (source_dir srt) fn) = false).
      { unfold is_dir in *. apply bool_decide_eq_false in Hd. apply bool_decide_eq_false. set_solver. }
      destruct (path_exists_file s _ Hex Hds) as [c Hcs].
      assert (Hc : st_files T !! join (source_dir srt) fn = Some c) by congruence.
      destruct (move_step _ _ _ _ _ _ _ _ _ _ _ Hns Hc Hd Hh Hm Hs) as (H1 & H2 & H3 & H4).
      assert (Hfn_notin : ~ In fn (map op_filename O ++ R))
        by (eapply List.NoDup_remove_2; exact Hnd).
      assert (Hfn_O : forall o, In o O -> op_filename o <> fn).
      { intros o Ho Heq. apply Hfn_notin. apply in_or_app. left. apply in_map_iff. eauto. }
      assert (Hfn_R : forall fn', In fn' R -> fn' <> fn).
      { intros fn' Hin ->. apply Hfn_notin. apply in_or_app. by right. }
      destruct (loop_dirs_grow E srt strat bd R st1 _ T1 Tend stend Oend Hl)
        as (D & _ & new & Hnew); [lia| | |].
      { apply List.NoDup_app_remove_l in Hnd. by apply List.NoDup_cons_iff in Hnd as [_ ?]. }
      { intros fn' Hin. destruct (HR fn' (or_intror Hin)) as [Hi' _].
        destruct (Hit fn' Hi') as [Hns' _]. split; [done|].
        apply (step_keeps_exists E strat (source_dir srt) fn fn' dest_dir T c final T' T2 T1);
          try done; [by apply Hfn_R|].
        eapply pass_inv_exists; [done|exact Hinv|by right]. }
      assert (Hfd : is_dir T1 final = false).
      { specialize (Hdst (mk_op (env_now E) (join (source_dir srt) fn) final fn category)).
        simpl in Hdst. rewrite Hnew in Hdst.
        assert (Hd' : is_dir Tend final = false).
        { apply Hdst. apply in_or_app. left. apply in_or_app. right. by left. }
        unfold is_dir in *. apply bool_decide_eq_false in Hd'. apply bool_decide_eq_false. set_solver. }
      destruct (H4 Hfd) as [Hfin Hframe].
      destruct (handle_duplicate_result _ _ _ _ _ _ _ Hh) as (Hnr & Hr & _).
      assert (I7new : forall fn', In fn' R -> final <> join (source_dir srt) fn').
      { intros fn' Hin. destruct (String.eqb_spec strat "rename") as [Hre|Hre].
        - destruct (Hr Hre) as [_ Hfree]. intros Heq.
          pose proof (pass_inv_exists _ _ _ _ _ _ _ fn' Hit Hinv (or_intror Hin)). congruence.
        - rewrite (Hnr Hre). destruct (HR fn' (or_intror Hin)) as [Hi' _].
          apply basename_neq_join; [done|apply Hit, Hi'|].
          intros ->. by apply (Hfn_R fn'). }
      assert (Hdst_old : forall o, In o O -> op_destination o <> final).
      { intros o Ho Heq. destruct (Hops o Ho) as (Hoi & Hos & _ & Hob & (c' & _ & Hoc) & _).
        destruct (String.eqb_spec strat "rename") as [Hre|Hre].
        - destruct (Hr Hre) as [_ Hfree]. unfold path_exists, is_file in Hfree.
          rewrite <- Heq, Hoc in Hfree. apply orb_false_iff in Hfree as [Hf _].
          apply bool_decide_eq_false in Hf. apply Hf. eauto.
        - apply (Hfn_O o Ho). rewrite <- (Hob Hre), Heq, (Hnr Hre). by apply basename_join. }
      assert (Hinv1 : pass_inv srt strat items s T1
                (O ++ [mk_op (env_now E) (join (source_dir srt) fn) final fn category]) R).
      { split_and!.
        - congruence.
        - set_solver.
        - intros fn' Hin. destruct (HR fn' (or_intror Hin)) as [Hi' Hf']. split; [done|].
          rewrite Hframe; [done| |by apply not_eq_sym, I7new].
          apply no_slash_join_neq; [apply Hit, Hi'|done|by apply Hfn_R].
        - rewrite map_app, <- app_assoc. exact Hnd.
        - rewrite rev_unit. split; [|done]. intros u' Hu'. rewrite <- in_rev in Hu'.
          destruct (Hops u' Hu') as (Hui & Hus & _ & _ & _ & Hu7). simpl.
          split_and!.
          + by apply Hdst_old.
          + apply Hu7. by left.
          + rewrite Hus. apply no_slash_join_neq; [apply Hit, Hui|done|by apply Hfn_O].
        - intros o Ho. apply in_app_or in Ho as [Ho|[<-|[]]].
          + destruct (Hops o Ho) as (A & B & C & D' & (c' & Hc1 & Hc2) & G). split_and!; try done.
            * exists c'. split; [done|]. rewrite Hframe; [done| |by apply Hdst_old].
              apply G. by left.
            * intros fn' Hin. apply G. by right.
          + split_and!; simpl; try done.
            * intros Hre. rewrite (Hnr Hre). by apply basename_join.
            * exists c. split; done. }
      destruct (IH _ _ _ Hl) as [Hi Hmv']; [lia|exact Hinv1|done|].
      split; [done|]. rewrite length_app in Hmv'. simpl in Hmv'. lia.
Qed.

Lemma restore_one_ok E op r T c :
  st_files T !! op_destination op = Some c -> is_dir T (op_source op) = false ->
  env_rename_fails E (op_destination op) (op_source op) = false ->
  restore_one E op r T =
  (set_files (<[op_source op := c]> (delete (op_destination op) (st_files T))) T, Some (S r)).
Proof.
  intros Hc Hd Hr. unfold restore_one, catch, bind, gets, ret.
  replace (path_exists T (op_destination op)) with true
    by (unfold path_exists, is_file; rewrite Hc; done).
  by rewrite (shutil_move_file_ok E _ _ T c).
Qed.

(** Undoing a chain of moves, last first, puts every file back. *)

Lemma restore_chain E U r T :
  undo_chain U ->
  (forall o, In o U -> is_Some (st_files T !! op_destination o) /\
     is_dir T (op_source o) = false /\
     env_rename_fails E (op_destination o) (op_source o) = false) ->
  exists T', restore_all E U r T = (T', Some (r + length U)%nat) /\
    st_dirs T' = st_dirs T /\ st_history T' = st_history T /\
    (forall o, In o U -> st_files T' !! op_source o = st_files T !! op_destination o) /\
    (forall p, (forall o, In o U -> p <> op_source o /\ p <> op_destination o) ->
       st_files T' !! p = st_files T !! p).
Proof.
  revert r T. induction U as [|u U IH]; intros r T Hch Hok; simpl.
  - exists T. split_and!; try done. by rewrite Nat.add_0_r.
  - destruct Hch as [Hu Hch].
    destruct (Hok u (or_introl eq_refl)) as ([c Hc] & Hd & Hr).
    unfold bind at 1. rewrite (restore_one_ok E u r T c Hc Hd Hr).
    set (T1 := set_files (<[op_source u:=c]> (delete (op_destination u) (st_files T))) T).
    destruct (IH (S r) T1 Hch) as (T' & Hra & HD & HH & Hsrc & Hfr).
    { intros o Ho. destruct (Hok o (or_intror Ho)) as (Hs & Hd' & Hr').
      destruct (Hu o Ho) as (A & B & _). simpl.
      rewrite lookup_insert_ne, lookup_delete_ne by congruence. done. }
    exists T'. rewrite Hra. split_and!.
    + do 2 f_equal. lia.
    + done.
    + done.
    + intros o [<-|Ho].
      * rewrite Hfr; [simpl; by rewrite lookup_insert_eq, Hc|].
        intros o' Ho'. destruct (Hu o' Ho') as (_ & B & C). split; congruence.
      * rewrite Hsrc by done. destruct (Hu o Ho) as (A & B & _). simpl.
        by rewrite lookup_insert_ne, lookup_delete_ne by congruence.
    + intros p Hp. rewrite Hfr; [|intros o Ho; apply Hp; by right].
      destruct (Hp u (or_introl eq_refl)). simpl.
      by rewrite lookup_insert_ne, lookup_delete_ne by congruence.
Qed.

Lemma real_sort_files_decomp E srt strat bd s s1 st items :
  env_listdir E (source_dir srt) = Some items ->
  sort_files E srt false strat bd s = (s1, Some st) ->
  exists s0 Tend ops,
    ensure_directories_exist E srt s = (s0, Some tt) /\
    sort_loop E srt false strat bd items (zero_stats, []) s0 = (Tend, Some (st, ops)) /\
    st_dirs s1 = st_dirs Tend /\ st_history s1 = st_history Tend ++ ops /\
    (forall p, p <> history_file srt -> st_files s1 !! p = st_files Tend !! p).
Proof.
  intros Hl Hs. unfold sort_files, bind at 1 in Hs.
  destruct (ensure_directories_exist E srt s) as [s0 [[]|]] eqn:Hens; [|done].
  rewrite Hl in Hs. unfold bind at 1 in Hs.
  destruct (sort_loop E srt false strat bd items (zero_stats, []) s0) as [Tend [[st' ops]|]] eqn:Hlp;
    [|done].
  cbn [fst snd negb andb] in Hs.
  exists s0, Tend, ops.
  destruct (bool_decide (ops = [])) eqn:Hb; simpl in Hs.
  - apply bool_decide_eq_true in Hb as ->. unfold bind, ret in Hs. injection Hs as <- <-.
    split_and!; try done. by rewrite app_nil_r.
  - unfold bind, modify, save_history, ret in Hs. simpl in Hs.
    destruct (env_write_fails E (history_file srt) || _); injection Hs as <- <-;
      split_and!; try done.
    intros p Hp. simpl. by rewrite lookup_insert_ne by congruence.
Qed.

(** Claim C1, amended: take a real pass whose listing consists of distinct
    plain names of existing entries, in which no move fails ([errors] is
    0).  The listing is taken after [_ensure_directories_exist], so its
    entries are those of the state after the category folders are
    created, the new folders included.  Assume also that after the pass no record's destination is the
    history file, no record's source or destination is a directory, and
    no move back fails.  Then the pass appended exactly [moved] records
    to the log, and [undo_last_operation(moved)] restores all [moved] of
    them.  It shortens the log by [moved], back to what it was before the
    pass.  Every moved file is again at its original path
    [join(source_dir, filename)] with the content it had there before the
    pass.  The counterexample shows the assumptions on the history file
    and on directories are needed. *)
Theorem sort_undo_round_trip E srt strat bd s items s1 st :
  env_listdir E (source_dir srt) = Some items ->
  List.NoDup items ->
  (forall fn, In fn items -> no_slash fn /\
     path_exists (ensure_directories_exist E srt s).1 (join (source_dir srt) fn) = true) ->
  sort_files E srt false strat bd s = (s1, Some st) ->
  errors st = 0%nat ->
  (forall o, In o (pass_ops s s1) ->
     op_destination o <> history_file srt /\
     is_dir s1 (op_source o) = false /\ is_dir s1 (op_destination o) = false /\
     env_rename_fails E (op_destination o) (op_source o) = false) ->
  st_history s1 = st_history s ++ pass_ops s s1 /\
  length (pass_ops s s1) = moved st /\
  exists s2, undo_last_operation E srt (Z.of_nat (moved st)) s1 = (s2, Some (moved st)) /\
    st_history s2 = st_history s /\
    length (st_history s2) = (length (st_history s1) - moved st)%nat /\
    forall o, In o (pass_ops s s1) ->
      In (op_filename o) items /\ op_source o = join (source_dir srt) (op_filename o) /\
      is_Some (st_files s !! op_source o) /\
      st_files s2 !! op_source o = st_files s !! op_source o.
Proof.
  intros Hl Hnd Hit Hs Herr Hops.
  destruct (real_sort_files_decomp E srt strat bd s s1 st items Hl Hs)
    as (s0 & Tend & ops & Hens & Hloop & Hdirs1 & Hh1 & Hf1).
  destruct (ensure_dirs_only E srt s s0 _ Hens) as (Hf0 & Hh0 & Hd0).
  assert (Hit0 : forall fn, In fn items ->
            no_slash fn /\ path_exists s0 (join (source_dir srt) fn) = true).
  { intros fn Hin. destruct (Hit fn Hin) as [? Hx]. rewrite Hens in Hx. by split. }
  assert (Hinv0 : pass_inv srt strat items s0 s0 [] items).
  { split_and!; try done. }
  assert (Hhe : st_history Tend = st_history s).
  { destruct (loop_dirs_grow E srt strat bd items zero_stats [] s0 Tend st ops Hloop)
      as (_ & Hh & _); [simpl; lia|done|exact Hit0|congruence]. }
  assert (Hpo : pass_ops s s1 = ops).
  { unfold pass_ops. rewrite Hh1, Hhe. apply drop_app_length. }
  rewrite Hpo in Hops |- *.
  destruct (loop_inv E srt strat bd items s0 items zero_stats [] s0 Tend st ops Hit0 Hloop)
    as (Hinv & Hmv); [simpl; lia|done| |].
  { intros o Ho. destruct (Hops o Ho) as (_ & _ & Hd & _). unfold is_dir in *. by rewrite <- Hdirs1. }
  simpl in Hmv. rewrite Nat.add_0_r in Hmv.
  destruct Hinv as (_ & _ & _ & _ & Hch & Hok).
  assert (Hsrc_hist : forall o, In o ops -> op_source o <> history_file srt).
  { intros o Ho Heq. destruct (Hok o Ho) as (Hi & Hs' & Hb & _).
    apply Hb. rewrite <- Heq, Hs'. symmetry. apply basename_join, Hit, Hi. }
  split; [congruence|]. split; [lia|].
  set (T := set_history (st_history s) s1).
  destruct (restore_chain E (rev ops) 0 T) as (T' & Hra & HD & HH & Hsrc & _).
  { exact Hch. }
  { intros o Ho. rewrite <- in_rev in Ho. destruct (Hops o Ho) as (Hdh & Hds & _ & Hrf).
    destruct (Hok o Ho) as (_ & _ & _ & _ & (c & _ & Hc) & _).
    split_and!; [|done|done]. simpl. rewrite Hf1 by done. by rewrite Hc. }
  assert (Hund : undo_last_operation E srt (Z.of_nat (moved st)) s1 =
                 (r <-- restore_all E (rev ops) 0 ;; save_history E srt ;;; ret r) T).
  { unfold undo_last_operation. unfold bind at 1, gets. cbv beta iota.
    rewrite Hh1, Hhe, length_app.
    replace (Z.to_nat (Z.min (Z.of_nat (moved st)) (Z.of_nat (length (st_history s) + length ops))))
      with (moved st) by lia.
    unfold bind. rewrite undo_loop_spec by (rewrite Hh1, Hhe, length_app; lia).
    rewrite Hh1, Hhe, length_app.
    replace (length (st_history s) + length ops - moved st)%nat with (length (st_history s)) by lia.
    rewrite drop_app_length, take_app_length. reflexivity. }
  rewrite Hund. unfold bind at 1. rewrite Hra. simpl.
  unfold bind, save_history, ret.
  exists (if env_write_fails E (history_file srt) || is_dir T' (history_file srt) then T'
          else set_files (<[history_file srt := env_json E (st_history T')]> (st_files T')) T').
  destruct (env_write_fails E (history_file srt) || is_dir T' (history_file srt)); simpl;
    (split; [rewrite length_rev; do 2 f_equal; lia|]); rewrite HH; simpl;
    (split; [done|]); (split; [rewrite Hh1, Hhe, length_app; lia|]);
    intros o Ho; destruct (Hok o Ho) as (Hi & Hs' & _ & _ & (c & Hcs & Hc) & _);
    rewrite Hf0 in Hcs;
    (split; [done|]); (split; [done|]); (split; [by rewrite Hcs|]);
    [|rewrite lookup_insert_ne by (apply not_eq_sym, Hsrc_hist, Ho)];
    rewrite Hsrc by (by rewrite <- in_rev); simpl;
    rewrite Hf1 by (apply Hops, Ho); congruence.
Qed.

(** Claim C1, refuted as stated: in both runs every move succeeds.
    First run: the history file is [/d/Documents/r_1.txt].  The pass moves
    [r.txt] exactly there and then saves the log over it, so undoing
    brings the log's JSON back to [/d/r.txt] and the content [R] is lost.
    Second run: a category is named [x.pdf].  Once [x.pdf] has moved, the
    pass creates the folder [/d/x.pdf], so undoing moves [x.pdf] into
    that folder and not back to [/d/x.pdf]. *)
Lemma sort_undo_counterexample :
  (let p := sort_files clash_env clash_sorter false "rename" false clash_state in
   let u := undo_last_operation clash_env clash_sorter 1 p.1 in
   p.2 = Some (mk_stats 1 0 0) /\ u.2 = Some 1%nat /\
   st_files clash_state !! "/d/r.txt" = Some "R" /\
   st_files u.1 !! "/d/r.txt" = Some "[json]") /\
  (let p := sort_files folder_env folder_sorter false "rename" false folder_state in
   let u := undo_last_operation folder_env folder_sorter 2 p.1 in
   p.2 = Some (mk_stats 2 0 0) /\ u.2 = Some 2%nat /\
   st_files folder_state !! "/d/x.pdf" = Some "X" /\
   st_files u.1 !! "/d/x.pdf" = None /\
   st_files u.1 !! "/d/x.pdf/x.pdf" = Some "X").
Proof. vm_compute. repeat split. Qed.

Lemma sort_undo_round_trip_witness :
  let items := ["a.mp4"; "c.txt"; "b.mp4"; "Videos"; "Pictures"; "Music"; "Documents";
                "Archives"; "Code"; "Executables"; "Spreadsheets"] in
  let s1 := (sort_files fresh_env round_sorter false "rename" false sample_state).1 in
  st_history s1 = st_history sample_state ++ pass_ops sample_state s1 /\
  length (pass_ops sample_state s1) = 3%nat /\
  exists s2, undo_last_operation fresh_env round_sorter 3 s1 = (s2, Some 3%nat) /\
    st_history s2 = st_history sample_state /\
    length (st_history s2) = (length (st_history s1) - 3)%nat /\
    forall o, In o (pass_ops sample_state s1) ->
      In (op_filename o) items /\
      op_source o = join (source_dir round_sorter) (op_filename o) /\
      is_Some (st_files sample_state !! op_source o) /\
      st_files s2 !! op_source o = st_files sample_state !! op_source o.
Proof.
  intros items s1. subst items.
  apply (sort_undo_round_trip fresh_env round_sorter "rename" false sample_state
           ["a.mp4"; "c.txt"; "b.mp4"; "Videos"; "Pictures"; "Music"; "Documents";
            "Archives"; "Code"; "Executables"; "Spreadsheets"] s1 (mk_stats 3 0 0)).
  - reflexivity.
  - apply NoDup_ListNoDup, (bool_decide_unpack _). vm_compute. exact I.
  - intros fn Hin. repeat destruct Hin as [<-|Hin]; [..|destruct Hin];
      (split; [split; [discriminate|simpl; intuition discriminate]|vm_compute; reflexivity]).
  - vm_compute. reflexivity.
  - reflexivity.
  - intros o Hin. vm_compute in Hin. repeat destruct Hin as [<-|Hin]; [..|destruct Hin];
      vm_compute; split_and!; discriminate || reflexivity.
Defined.

(* ------------------------------------------------------------------ *)
(** ** Configuration, loading, statistics and the callers of the sorter *)

Section Dict.
Context {V : Type}.
Implicit Types (d o : list (string * V)).

Lemma dict_has_In d k : Config.dict_has d k = true <-> In k (map fst d).
Proof.
  unfold Config.dict_has. rewrite existsb_exists. split.
  - intros ([k' v] & Hin & Heq). apply String.eqb_eq in Heq. simpl in Heq. subst.
    apply in_map_iff. exists (k', v). done.
  - intros ([k' v] & <- & Hin)%in_map_iff. exists (k', v). split; [done|]. apply String.eqb_refl.
Qed.

Lemma dict_get_None d k : ~ In k (map fst d) -> Config.dict_get d k = None.
Proof.
  induction d as [|[k' v] d IH]; simpl; [done|]. intros Hn.
  destruct (String.eqb_spec k k'); [subst; tauto|]. apply IH. tauto.
Qed.

Lemma dict_get_set d k v k' :
  Config.dict_get (Config.dict_set d k v) k' =
  if String.eqb k' k then Some v else Config.dict_get d k'.
Proof.
  induction d as [|[k0 v0] d IH]; simpl.
  - by destruct (String.eqb k' k).
  - destruct (String.eqb_spec k k0) as [->|Hne]; simpl.
    + by destruct (String.eqb k' k0).
    + rewrite IH. destruct (String.eqb_spec k' k0) as [->|]; [|done].
      apply String.eqb_neq in Hne. rewrite String.eqb_sym, Hne. done.
Qed.

Lemma dict_set_keys d k v :
  map fst (Config.dict_set d k v) =
  if Config.dict_has d k then map fst d else map fst d ++ [k].
Proof.
  induction d as [|[k0 v0] d IH]; simpl; [done|].
  unfold Config.dict_has in *. simpl.
  destruct (String.eqb_spec k k0) as [->|]; simpl; [done|].
  rewrite IH. by destruct (existsb _ d).
Qed.

Lemma dict_set_nodup d k v :
  List.NoDup (map fst d) -> List.NoDup (map fst (Config.dict_set d k v)).
Proof.
  rewrite dict_set_keys. destruct (Config.dict_has d k) eqn:Hh; [done|].
  intros Hnd%NoDup_ListNoDup. apply NoDup_ListNoDup, NoDup_app.
  split_and!; [done| |by apply NoDup_singleton].
  intros x Hx ->%list_elem_of_singleton.
  apply list_elem_of_In, dict_has_In in Hx. congruence.
Qed.

Lemma dict_has_keys d k : Config.dict_has d k = existsb (String.eqb k) (map fst d).
Proof. unfold Config.dict_has. induction d as [|[k' v] d IH]; simpl; [done|]. by rewrite IH. Qed.

Lemma dict_set_new d k v : Config.dict_has d k = false -> Config.dict_set d k v = d ++ [(k, v)].
Proof.
  unfold Config.dict_has. induction d as [|[k0 v0] d IH]; simpl; [done|].
  intros [H1 H2]%orb_false_iff. rewrite H1. f_equal. by apply IH.
Qed.

Lemma dict_set_split d k v :
  Config.dict_has d k = true ->
  exists pre old post, d = pre ++ (k, old) :: post /\ ~ In k (map fst pre) /\
    Config.dict_set d k v = pre ++ (k, v) :: post.
Proof.
  unfold Config.dict_has. induction d as [|[k0 v0] d IH]; simpl; [done|].
  destruct (String.eqb_spec k k0) as [->|Hne]; simpl.
  - intros _. exists [], v0, d. split_and!; simpl; auto.
  - intros H. destruct (IH H) as (pre & old & post & -> & Hn & ->).
    exists ((k0, v0) :: pre), old, post. simpl. split_and!; [done| |done].
    intros [?|?]; [congruence|done].
Qed.

Lemma filter_all_true {A} (f : A -> bool) (l : list A) :
  (forall x, In x l -> f x = true) -> List.filter f l = l.
Proof.
  induction l as [|x l IH]; simpl; [done|]. intros H.
  rewrite (H x (or_introl eq_refl)). f_equal. apply IH. intros y Hy. apply H. by right.
Qed.

Lemma dict_del_keys d k :
  List.NoDup (map fst d) ->
  map fst (Config.dict_del d k) = List.filter (fun x => negb (String.eqb x k)) (map fst d).
Proof.
  induction d as [|[k0 v0] d IH]; simpl; [done|].
  intros [Hn Hnd]%List.NoDup_cons_iff.
  destruct (String.eqb_spec k k0) as [->|Hne]; simpl.
  - rewrite String.eqb_refl. simpl. symmetry. apply filter_all_true.
    intros x Hx. destruct (String.eqb_spec x k0); [subst; done|done].
  - rewrite (proj2 (String.eqb_neq k0 k)) by congruence. simpl. f_equal. by apply IH.
Qed.

Lemma dict_get_del d k k' :
  List.NoDup (map fst d) ->
  Config.dict_get (Config.dict_del d k) k' =
  if String.eqb k' k then None else Config.dict_get d k'.
Proof.
  induction d as [|[k0 v0] d IH]; simpl; [by destruct (String.eqb k' k)|].
  intros [Hn Hnd]%List.NoDup_cons_iff.
  destruct (String.eqb_spec k k0) as [->|Hne]; simpl.
  - destruct (String.eqb_spec k' k0) as [Heq|]; [subst k'; by apply dict_get_None|done].
  - rewrite IH by done. destruct (String.eqb_spec k' k0) as [Heq|]; [subst k'|done].
    by rewrite (proj2 (String.eqb_neq k0 k)) by congruence.
Qed.

Lemma dict_get_In d k v : List.NoDup (map fst d) -> In (k, v) d -> Config.dict_get d k = Some v.
Proof.
  induction d as [|[k0 v0] d IH]; simpl; [done|].
  intros [Hn Hnd]%List.NoDup_cons_iff [Heq|Hin].
  - injection Heq as -> ->. by rewrite String.eqb_refl.
  - destruct (String.eqb_spec k k0) as [->|]; [|by apply IH].
    exfalso. apply Hn. apply in_map_iff. exists (k0, v). done.
Qed.

Lemma dict_update_cons d k v o :
  Config.dict_update d ((k, v) :: o) = Config.dict_update (Config.dict_set d k v) o.
Proof. reflexivity. Qed.

Lemma dict_update_get d o k :
  List.NoDup (map fst o) ->
  Config.dict_get (Config.dict_update d o) k =
  match Config.dict_get o k with Some v => Some v | None => Config.dict_get d k end.
Proof.
  revert d. induction o as [|[k0 v0] o IH]; intros d; [done|].
  rewrite dict_update_cons. cbn [map Config.dict_get].
  intros [Hn Hnd]%List.NoDup_cons_iff. rewrite IH by done.
  rewrite dict_get_set. destruct (String.eqb_spec k k0) as [->|]; [|done].
  by rewrite dict_get_None.
Qed.

Lemma dict_update_keys d o :
  List.NoDup (map fst o) ->
  map fst (Config.dict_update d o) =
  map fst d ++ List.filter (fun k => negb (Config.dict_has d k)) (map fst o).
Proof.
  revert d. induction o as [|[k0 v0] o IH]; intros d; [simpl; by rewrite app_nil_r|].
  rewrite dict_update_cons. cbn [map List.filter].
  intros [Hn Hnd]%List.NoDup_cons_iff. rewrite IH by done. simpl in Hn.
  rewrite dict_set_keys.
  destruct (Config.dict_has d k0) eqn:Hk; simpl; rewrite Hk; simpl.
  - f_equal. apply List.filter_ext. intros x. by rewrite !dict_has_keys, dict_set_keys, Hk.
  - rewrite <- app_assoc. simpl. f_equal. f_equal.
    apply List.filter_ext_in. intros x Hx.
    rewrite !dict_has_keys, dict_set_keys, Hk, existsb_app. simpl.
    destruct (String.eqb_spec x k0) as [->|]; [done|]. by rewrite orb_false_r.
Qed.

Lemma dict_update_nodup d o :
  List.NoDup (map fst d) -> List.NoDup (map fst o) -> List.NoDup (map fst (Config.dict_update d o)).
Proof.
  revert d. induction o as [|[k0 v0] o IH]; intros d Hd; [done|].
  rewrite dict_update_cons. cbn [map].
  intros [Hn Hnd]%List.NoDup_cons_iff.
  apply IH; [by apply dict_set_nodup|done].
Qed.
End Dict.

Lemma find_category_app x l1 l2 :
  Config.find_category x (l1 ++ l2) =
  match Config.find_category x l1 with Some c => Some c | None => Config.find_category x l2 end.
Proof.
  induction l1 as [|[c exts] l1 IH]; simpl; [done|].
  by destruct (Config.str_in x exts).
Qed.

Lemma find_category_first x cats c :
  Config.find_category x cats = Some c <->
  exists pre exts post, cats = pre ++ (c, exts) :: post /\ In x exts /\
    forall c' exts', In (c', exts') pre -> ~ In x exts'.
Proof.
  split.
  - induction cats as [|[c0 e0] cats IH]; simpl; [done|].
    destruct (Config.str_in x e0) eqn:Hin.
    + intros [= <-]. exists [], e0, cats. split_and!; [done|by apply str_in_In|done].
    + intros H. destruct (IH H) as (pre & exts & post & -> & Hx & Hpre).
      exists ((c0, e0) :: pre), exts, post. split_and!; [done|done|].
      intros c' exts' [Heq|Hp]; [|by apply (Hpre c')].
      injection Heq as <- <-. intros Hx'%str_in_In. congruence.
  - intros (pre & exts & post & -> & Hx & Hpre).
    rewrite find_category_app.
    assert (Hn : Config.find_category x pre = None).
    { destruct (Config.find_category x pre) as [c'|] eqn:Hf; [|done].
      destruct (find_category_sound _ _ _ Hf) as (e' & Hi & Hxe).
      exfalso. exact (Hpre _ _ Hi Hxe). }
    rewrite Hn. simpl. apply str_in_In in Hx. by rewrite Hx.
Qed.

Lemma find_category_key x cats c :
  Config.find_category x cats = Some c -> In c (map fst cats).
Proof.
  intros (exts & Hin & _)%find_category_sound. apply in_map_iff. by exists (c, exts).
Qed.

(** [Config.add_category] assigns the key in place: the name now maps to
    the given extensions and every other lookup is unchanged; an existing
    name keeps its place in the insertion order (only its value changes)
    and a new name is appended last; distinct keys stay distinct. *)
Theorem add_category_dict (cats : Config.categories) name exts :
  let cats' := Config.add_category cats name exts in
  (forall k, Config.dict_get cats' k =
             if String.eqb k name then Some exts else Config.dict_get cats k) /\
  map fst cats' = (if Config.dict_has cats name then map fst cats else map fst cats ++ [name]) /\
  (Config.dict_has cats name = true ->
   exists pre old post, cats = pre ++ (name, old) :: post /\ cats' = pre ++ (name, exts) :: post) /\
  (List.NoDup (map fst cats) -> List.NoDup (map fst cats')).
Proof.
  intros cats'. unfold cats', Config.add_category. split_and!.
  - intros k. apply dict_get_set.
  - apply dict_set_keys.
  - intros H. destruct (dict_set_split cats name exts H) as (pre & old & post & ? & _ & ?).
    eauto.
  - apply dict_set_nodup.
Qed.

Lemma add_category_new_priority cats name exts e :
  Config.dict_has cats name = false ->
  Config.get_category_for_extension (Config.add_category cats name exts) e =
  match Config.get_category_for_extension cats e with
  | Some c => Some c
  | None => if Config.str_in (lower e) exts then Some name else None
  end.
Proof.
  unfold Config.get_category_for_extension, Config.add_category.
  intros H. rewrite dict_set_new by done. rewrite find_category_app. simpl.
  by destruct (Config.find_category (lower e) cats).
Qed.

(** Since [get_category_for_extension] returns the first category in
    insertion order listing the extension, [add_category] with a new name
    only gets the extensions no existing category lists, and re-assigning
    an existing name decides only the extensions that no category before
    it lists. *)
Theorem add_category_priority cats name exts e :
  (Config.dict_has cats name = false ->
   Config.get_category_for_extension (Config.add_category cats name exts) e =
   match Config.get_category_for_extension cats e with
   | Some c => Some c
   | None => if Config.str_in (lower e) exts then Some name else None
   end) /\
  (forall pre old post, cats = pre ++ (name, old) :: post -> ~ In name (map fst pre) ->
   Config.get_category_for_extension (Config.add_category cats name exts) e =
   match Config.find_category (lower e) pre with
   | Some c => Some c
   | None => if Config.str_in (lower e) exts then Some name
             else Config.find_category (lower e) post
   end).
Proof.
  split; [apply add_category_new_priority|].
  unfold Config.get_category_for_extension, Config.add_category.
  - intros pre old post -> Hn.
    assert (Hh : Config.dict_has (pre ++ (name, old) :: post) name = true).
    { apply dict_has_In. rewrite map_app. apply in_or_app. right. by left. }
    destruct (dict_set_split _ name exts Hh) as (pre' & old' & post' & Heq & Hn' & ->).
    assert (pre' = pre /\ old' = old /\ post' = post) as (-> & -> & ->).
    { clear Hh. revert pre' Heq Hn'. induction pre as [|[k v] pre IH]; intros [|[k' v'] pre'];
        simpl; intros Heq Hn'.
      - by injection Heq as -> ->.
      - injection Heq as -> -> Heq. naive_solver.
      - injection Heq as -> -> Heq. naive_solver.
      - injection Heq as -> -> Heq.
        destruct (IH ltac:(naive_solver) pre' Heq ltac:(naive_solver)) as (-> & -> & ->).
        done. }
    rewrite find_category_app. simpl. done.
Qed.

Lemma remove_category_nodup cats name :
  List.NoDup (map fst cats) ->
  let cats' := Config.remove_category cats name in
  (forall k, Config.dict_get cats' k =
             if String.eqb k name then None else Config.dict_get cats k) /\
  map fst cats' = List.filter (fun k => negb (String.eqb k name)) (map fst cats) /\
  List.NoDup (map fst cats') /\
  (forall e, Config.get_category_for_extension cats' e <> Some name).
Proof.
  intros Hnd cats'. unfold Config.remove_category in cats'.
  assert (Hk : map fst cats' = List.filter (fun k => negb (String.eqb k name)) (map fst cats)).
  { unfold cats'. destruct (Config.dict_has cats name) eqn:Hh; [by apply dict_del_keys|].
    symmetry. apply filter_all_true. intros x Hx.
    destruct (String.eqb_spec x name) as [->|]; [|done].
    apply dict_has_In in Hx. congruence. }
  split_and!.
  - intros k. unfold cats'. destruct (Config.dict_has cats name) eqn:Hh; [by apply dict_get_del|].
    destruct (String.eqb_spec k name) as [->|]; [|done].
    apply dict_get_None. intros Hx%dict_has_In. congruence.
  - exact Hk.
  - rewrite Hk. by apply List.NoDup_filter.
  - intros e He. apply find_category_key in He. rewrite Hk in He.
    apply filter_In in He as [_ He]. by rewrite String.eqb_refl in He.
Qed.

(** [Config.remove_category] of a missing name changes nothing.  On
    distinct keys it deletes exactly that key, keeps the others in order,
    and the removed name is then never returned by
    [get_category_for_extension]. *)
Theorem remove_category_dict cats name :
  (Config.dict_has cats name = false -> Config.remove_category cats name = cats) /\
  (List.NoDup (map fst cats) ->
   let cats' := Config.remove_category cats name in
   (forall k, Config.dict_get cats' k =
              if String.eqb k name then None else Config.dict_get cats k) /\
   map fst cats' = List.filter (fun k => negb (String.eqb k name)) (map fst cats) /\
   List.NoDup (map fst cats') /\
   (forall e, Config.get_category_for_extension cats' e <> Some name)).
Proof.
  split; [unfold Config.remove_category; by intros ->|].
  apply remove_category_nodup.
Qed.

(** On distinct keys, removing a category and adding it again moves it to
    the end of the insertion order, where it only gets the extensions no
    other category lists; adding a new name and removing it again gives
    back the original categories. *)
Theorem remove_then_add_category cats name exts :
  List.NoDup (map fst cats) ->
  let cats' := Config.add_category (Config.remove_category cats name) name exts in
  map fst cats' = List.filter (fun k => negb (String.eqb k name)) (map fst cats) ++ [name] /\
  (forall e, Config.get_category_for_extension cats' e =
     match Config.get_category_for_extension (Config.remove_category cats name) e with
     | Some c => Some c
     | None => if Config.str_in (lower e) exts then Some name else None
     end) /\
  (Config.dict_has cats name = false ->
   Config.remove_category (Config.add_category cats name exts) name = cats).
Proof.
  intros Hnd cats'.
  destruct (remove_category_nodup cats name Hnd) as (_ & Hk & _ & Hne).
  assert (Hh : Config.dict_has (Config.remove_category cats name) name = false).
  { apply not_true_iff_false. intros Hx%dict_has_In. rewrite Hk in Hx.
    apply filter_In in Hx as [_ Hx]. by rewrite String.eqb_refl in Hx. }
  split_and!.
  - unfold cats', Config.add_category. by rewrite dict_set_keys, Hh, Hk.
  - intros e. by apply add_category_new_priority.
  - intros Hn. unfold Config.remove_category, Config.add_category.
    rewrite dict_set_new by done.
    assert (Hin : Config.dict_has (cats ++ [(name, exts)]) name = true).
    { apply dict_has_In. rewrite map_app. apply in_or_app. right. by left. }
    rewrite Hin. clear -Hn. induction cats as [|[k v] cats IH]; simpl.
    + by rewrite String.eqb_refl.
    + unfold Config.dict_has in Hn. simpl in Hn. apply orb_false_iff in Hn as [H1 H2].
      rewrite H1. f_equal. by apply IH.
Qed.

(** [get_category_for_extension cats e] is [c] exactly when [c] is the
    first category, in insertion order, whose list contains the lowercased
    extension. *)
Theorem get_category_first_match cats e c :
  Config.get_category_for_extension cats e = Some c <->
  exists pre exts post, cats = pre ++ (c, exts) :: post /\ In (lower e) exts /\
    forall c' exts', In (c', exts') pre -> ~ In (lower e) exts'.
Proof. apply find_category_first. Qed.

(** With the default categories, ["Spreadsheets"] is returned only for
    [.csv] and [.ods]: [.xlsx] and [.xls] are also listed by
    ["Documents"], which comes first, so they are classified as
    documents. *)
Theorem default_spreadsheets e :
  (Config.get_category_for_extension Config.DEFAULT_CATEGORIES e = Some "Spreadsheets"%string <->
   lower e = ".csv"%string \/ lower e = ".ods"%string) /\
  (lower e = ".xlsx"%string \/ lower e = ".xls"%string ->
   Config.get_category_for_extension Config.DEFAULT_CATEGORIES e = Some "Documents"%string).
Proof.
  unfold Config.get_category_for_extension. generalize (lower e) as x. intros x.
  split; [split|].
  - unfold Config.DEFAULT_CATEGORIES. cbn [Config.find_category]. unfold Config.str_in.
    cbn [existsb]. intros H.
    repeat match type of H with
    | context [String.eqb x ?l] =>
        destruct (String.eqb_spec x l) as [Hx|?];
        [subst x; vm_compute in H; first [discriminate | by left | by right] | cbn [orb] in H]
    end.
    discriminate.
  - intros [Hx | Hx]; subst x; vm_compute; reflexivity.
  - intros [Hx | Hx]; subst x; vm_compute; reflexivity.
Qed.


Lemma shrinks_refl T : shrinks T T.
Proof. split_and!; auto. Qed.

Lemma shrinks_trans T1 T2 T3 : shrinks T1 T2 -> shrinks T2 T3 -> shrinks T1 T3.
Proof. intros (A & B & C) (D & F & G). split_and!; [congruence|congruence|naive_solver]. Qed.

Lemma os_remove_shrinks E p T T' r : os_remove E p T = (T', r) -> shrinks T T'.
Proof.
  unfold os_remove. repeat case_match; intros [= <- _]; try apply shrinks_refl.
  split_and!; [done|done|]. intros q c. simpl. rewrite lookup_delete_Some. naive_solver.
Qed.

Lemma handle_duplicate_shrinks E src dst strat T T' r :
  handle_duplicate E src dst strat T = (T', r) -> shrinks T T'.
Proof.
  unfold handle_duplicate, bind, gets, ret.
  repeat case_match; intros Hh; simplify_eq; try apply shrinks_refl.
  all: match goal with Hr : os_remove _ _ _ = _ |- _ => apply os_remove_shrinks in Hr end.
  all: done.
Qed.

Lemma entry_account E srt dry strat bd st O fn T T1 st1 O1 :
  sort_entry E srt dry strat bd (st, O) fn T = (T1, Some (st1, O1)) ->
  st_history T1 = st_history T /\
  (dry = true -> shrinks T T1) /\
  ((st1 = st /\ O1 = O /\
    (is_dir T (join (source_dir srt) fn) = true \/ fn = basename (history_file srt))) \/
   (is_dir T (join (source_dir srt) fn) = false /\ fn <> basename (history_file srt) /\
    (st1 = incr_skipped st /\ O1 = O \/
     dry = false /\ st1 = incr_errors st /\ O1 = O \/
     st1 = incr_moved st /\
       (dry = true /\ O1 = O \/
        dry = false /\ exists final category,
          Config.get_category_for_extension (config srt) (lower (splitext fn).2) = Some category /\
          category <> ""%string /\
          O1 = O ++ [mk_op (env_now E) (join (source_dir srt) fn) final fn category])))).
Proof.
  unfold sort_entry, catch, bind, gets, ret, getmtime_month.
  repeat case_match; intros He; simplify_eq/=;
    repeat match goal with
           | u : unit |- _ => destruct u
           | Hh : handle_duplicate _ _ _ _ _ = _ |- _ =>
               apply handle_duplicate_shrinks in Hh; pose proof Hh as (? & ? & ?)
           | Hm : os_makedirs _ _ _ _ = _ |- _ =>
               apply os_makedirs_dirs_only in Hm; destruct Hm as (? & ? & ?)
           | Hv : shutil_move ?e ?a ?b ?t = _ |- _ =>
               let Hx := fresh in
               pose proof (shutil_move_keeps_history e a b t) as Hx;
               rewrite Hv in Hx; simpl in Hx; clear Hv
           | Hd : _ || _ = false |- _ => apply orb_false_iff in Hd as [? ?%String.eqb_neq]
           | Hd : _ || _ = true |- _ => apply orb_true_iff in Hd as [?|?%String.eqb_eq]
           end.
  all: split; [first [reflexivity | simpl in *; congruence] |].
  all: split; [intros ?; first [apply shrinks_refl | assumption | discriminate] |].
  all: first
    [ left; split_and!; [done|done|auto]
    | right; split_and!; [done|done|];
      first
        [ left; split; done
        | right; left; split_and!; done
        | right; right; split; [done|];
          first
            [ left; split; done
            | right; split; [done|]; eexists _, _; split_and!;
              [first [eassumption|reflexivity]|by apply String.eqb_neq|reflexivity] ] ] ].
Qed.

Lemma is_dir_same_dirs T T' : st_dirs T' = st_dirs T -> is_dir T' = is_dir T.
Proof. intros H. unfold is_dir. by rewrite H. Qed.

Lemma loop_account E srt dry strat bd items st O T Tend stend Oend :
  sort_loop E srt dry strat bd items (st, O) T = (Tend, Some (stend, Oend)) ->
  st_history Tend = st_history T /\
  (dry = true -> shrinks T Tend /\ Oend = O /\ errors stend = errors st /\
     (moved stend + skipped stend = moved st + skipped st +
        length (List.filter (fun fn => negb (is_dir T (join (source_dir srt) fn)) &&
                                       negb (String.eqb fn (basename (history_file srt)))) items))%nat) /\
  (exists new, Oend = O ++ new /\
     (dry = false -> moved stend = (moved st + length new)%nat) /\
     sublist (map op_filename new) items /\
     (forall o, In o new -> op_source o = join (source_dir srt) (op_filename o) /\
        op_timestamp o = env_now E /\ op_filename o <> basename (history_file srt) /\
        Config.get_category_for_extension (config srt) (lower (splitext (op_filename o)).2) =
          Some (op_category o) /\
        op_category o <> ""%string)) /\
  (moved stend + skipped stend + errors stend <= moved st + skipped st + errors st +
     length (List.filter (fun fn => negb (String.eqb fn (basename (history_file srt)))) items))%nat.
Proof.
  revert st O T. induction items as [|fn items IH]; intros st O T; cbn [sort_loop].
  - intros [= <- <- <-]. split_and!; [done| |exists []; rewrite app_nil_r; split_and!| ].
    + intros _. split_and!; [apply shrinks_refl|done|done|simpl; lia].
    + done.
    + intros _. simpl. lia.
    + constructor.
    + done.
    + simpl. lia.
  - unfold bind at 1.
    destruct (sort_entry E srt dry strat bd (st, O) fn T) as [T1 [[st1 O1]|]] eqn:He; [|done].
    intros Hl.
    destruct (entry_account _ _ _ _ _ _ _ _ _ _ _ _ He) as (Hh1 & Hdry1 & Hcase).
    destruct (IH _ _ _ Hl) as (Hh & Hdry & (new & Hnew & Hmv & Hsub & Hops) & Hb).
    split_and!.
    + congruence.
    + intros Hd. pose proof (Hdry1 Hd) as Hs1. destruct (Hdry Hd) as (Hs & HO & Herr & Hcnt).
      rewrite (is_dir_same_dirs T T1) in Hcnt by (destruct Hs1 as (_ & ? & _); done).
      split_and!; [by eapply shrinks_trans| | |].
      * destruct Hcase as [(-> & -> & _)|(_ & _ & [(-> & ->)|[(? & _)|(-> & [(_ & ->)|(? & _)])]])];
          congruence.
      * destruct Hcase as [(-> & -> & _)|(_ & _ & [(-> & ->)|[(? & _)|(-> & [(_ & ->)|(? & _)])]])];
          simpl in *; congruence.
      * cbn [List.filter]. rewrite Hcnt.
        destruct Hcase as [(-> & -> & [Hd'|Hn])|(Hd' & Hn & [(-> & ->)|[(? & _)|(-> & [(_ & ->)|(? & _)])]])];
          try congruence.
        -- rewrite Hd'. simpl. lia.
        -- subst fn. rewrite String.eqb_refl, andb_false_r. simpl. lia.
        -- rewrite Hd'. apply String.eqb_neq in Hn. rewrite Hn. simpl. lia.
        -- rewrite Hd'. apply String.eqb_neq in Hn. rewrite Hn. simpl. lia.
    + destruct Hcase as [(-> & -> & _)|(Hd' & Hn & [(-> & ->)|[(Hdf & -> & ->)|(-> & [(Hdt & ->)|(Hdf & final & category & Hc & Hne & ->)])]])].
      * exists new. split_and!; [done| |by apply sublist_cons|done].
        intros Hd. rewrite (Hmv Hd). destruct st; simpl; try lia; congruence.
      * exists new. split_and!; [done| |by apply sublist_cons|done].
        intros Hd. rewrite (Hmv Hd). destruct st; simpl; try lia; congruence.
      * exists new. split_and!; [done| |by apply sublist_cons|done].
        intros Hd. rewrite (Hmv Hd). destruct st; simpl; try lia; congruence.
      * exists new. split_and!; [done| |by apply sublist_cons|done].
        intros Hd. rewrite (Hmv Hd). destruct st; simpl; try lia; congruence.
      * exists (mk_op (env_now E) (join (source_dir srt) fn) final fn category :: new).
        split_and!.
        -- rewrite Hnew, <- app_assoc. reflexivity.
        -- intros Hd. rewrite (Hmv Hd). simpl. lia.
        -- simpl. by apply sublist_skip.
        -- intros o [<-|Ho]; [|by apply Hops]. simpl. split_and!; done.
    + destruct Hcase as [(-> & -> & [Hd'|Hn])|(Hd' & Hn & [(-> & ->)|[(? & -> & ->)|(-> & _)]])];
        cbn [List.filter].
      * destruct (String.eqb fn (basename (history_file srt))); simpl; lia.
      * subst fn. rewrite String.eqb_refl. simpl. lia.
      * apply String.eqb_neq in Hn. rewrite Hn. simpl in *. lia.
      * apply String.eqb_neq in Hn. rewrite Hn. simpl in *. lia.
      * apply String.eqb_neq in Hn. rewrite Hn. simpl in *. lia.
Qed.

Lemma sort_files_log_aux E srt strat bd s s1 st :
  sort_files E srt false strat bd s = (s1, Some st) ->
  exists ops,
    st_history s1 = st_history s ++ ops /\ length ops = moved st /\
    (forall o, In o ops ->
       op_source o = join (source_dir srt) (op_filename o) /\
       op_timestamp o = env_now E /\ op_filename o <> basename (history_file srt) /\
       Config.get_category_for_extension (config srt) (lower (splitext (op_filename o)).2) =
         Some (op_category o) /\
       op_category o <> ""%string) /\
    match env_listdir E (source_dir srt) with
    | None => st = zero_stats
    | Some items =>
        sublist (map op_filename ops) items /\
        (moved st + skipped st + errors st <=
         length (List.filter (fun fn => negb (String.eqb fn (basename (history_file srt)))) items))%nat
    end /\
    (ops <> [] -> env_write_fails E (history_file srt) = false ->
     is_dir s1 (history_file srt) = false ->
     st_files s1 !! history_file srt = Some (env_json E (st_history s1))).
Proof.
  intros Hs. unfold sort_files, bind at 1 in Hs.
  destruct (ensure_directories_exist E srt s) as [s0 [[]|]] eqn:Hens; [|done].
  destruct (ensure_dirs_only _ _ _ _ _ Hens) as (Hf & Hh & _).
  destruct (env_listdir E (source_dir srt)) as [items|].
  - unfold bind at 1 in Hs.
    destruct (sort_loop E srt false strat bd items (zero_stats, []) s0)
      as [Tend [[st' ops]|]] eqn:Hlp; [|done].
    destruct (loop_account _ _ _ _ _ _ _ _ _ _ _ _ Hlp)
      as (Hh' & _ & (new & Hnew & Hmv & Hsub & Hops) & Hb).
    simpl in Hnew. subst ops. specialize (Hmv eq_refl). simpl in Hmv, Hb.
    cbn [fst snd negb andb] in Hs.
    exists new.
    destruct (bool_decide (new = [])) eqn:Hbd; simpl in Hs.
    + apply bool_decide_eq_true in Hbd as ->. unfold bind, ret in Hs. injection Hs as <- <-.
      split_and!; try done; simpl in *; rewrite ?app_nil_r; try congruence; try lia.
    + apply bool_decide_eq_false in Hbd.
      unfold bind, modify, save_history, ret in Hs. simpl in Hs.
      destruct (env_write_fails E (history_file srt) || _) eqn:Hw;
        injection Hs as <- <-; split_and!; try done; simpl; try congruence; try lia.
      * intros _ Hw1 Hd1. rewrite Hw1 in Hw. simpl in Hw. unfold is_dir in *.
        simpl in *. congruence.
      * intros _ _ _. simpl. by simplify_map_eq.
  - simpl in Hs. injection Hs as <- <-. exists [].
    split_and!; try done. by rewrite app_nil_r.
Qed.

(** A real [sort_files] pass that returns appends to the log one record
    per moved file and nothing else.  Each record's source is
    [join(source_dir, filename)], its filename is a listed name other than
    the history file's basename (the filenames follow the listing order),
    and its category is the non-empty category of its extension.  The three counts add up to at
    most the number of listed names other than the history file's
    basename; a failed listing gives zero counts.  When a file was moved
    and the history file is writable and not a directory, the file then
    holds the JSON of the whole log. *)
Theorem sort_files_log E srt strat bd s s1 st :
  sort_files E srt false strat bd s = (s1, Some st) ->
  exists ops,
    st_history s1 = st_history s ++ ops /\ length ops = moved st /\
    (forall o, In o ops ->
       op_source o = join (source_dir srt) (op_filename o) /\
       op_filename o <> basename (history_file srt) /\
       Config.get_category_for_extension (config srt) (lower (splitext (op_filename o)).2) =
         Some (op_category o) /\
       op_category o <> ""%string) /\
    match env_listdir E (source_dir srt) with
    | None => st = zero_stats
    | Some items =>
        sublist (map op_filename ops) items /\
        (moved st + skipped st + errors st <=
         length (List.filter (fun fn => negb (String.eqb fn (basename (history_file srt)))) items))%nat
    end /\
    (ops <> [] -> env_write_fails E (history_file srt) = false ->
     is_dir s1 (history_file srt) = false ->
     st_files s1 !! history_file srt = Some (env_json E (st_history s1))).
Proof.
  intros Hs. destruct (sort_files_log_aux E srt strat bd s s1 st Hs)
    as (ops & Hh & Hl & Ho & Hc & Hw).
  exists ops. split_and!; [done|done| |done|done].
  intros o Hin. destruct (Ho o Hin) as (? & _ & ? & ? & ?). done.
Qed.


(** For every strategy, [replace] included, a dry run that returns keeps
    the log, keeps the directories as [_ensure_directories_exist] left
    them, never creates or changes a regular file (it can delete one, under
    [replace]), and reports no error.  Its moved and skipped counts add up
    to the number of listed entries that are not directories and not named
    like the history file. *)
Theorem dry_run_accounting E srt strat bd s s1 st :
  sort_files E srt true strat bd s = (s1, Some st) ->
  let s0 := (ensure_directories_exist E srt s).1 in
  st_history s1 = st_history s /\ st_dirs s1 = st_dirs s0 /\ errors st = 0%nat /\
  (forall q c, st_files s1 !! q = Some c -> st_files s !! q = Some c) /\
  match env_listdir E (source_dir srt) with
  | None => st = zero_stats
  | Some items =>
      (moved st + skipped st =
       length (List.filter (fun fn => negb (is_dir s0 (join (source_dir srt) fn)) &&
                                      negb (String.eqb fn (basename (history_file srt)))) items))%nat
  end.
Proof.
  intros Hs s0. unfold sort_files, bind at 1 in Hs. subst s0.
  destruct (ensure_directories_exist E srt s) as [s0 [[]|]] eqn:Hens; [|done]. simpl.
  destruct (ensure_dirs_only _ _ _ _ _ Hens) as (Hf & Hh & _).
  destruct (env_listdir E (source_dir srt)) as [items|].
  - unfold bind at 1 in Hs.
    destruct (sort_loop E srt true strat bd items (zero_stats, []) s0)
      as [Tend [[st' ops]|]] eqn:Hlp; [|done].
    destruct (loop_account _ _ _ _ _ _ _ _ _ _ _ _ Hlp)
      as (Hh' & Hdry & _).
    destruct (Hdry eq_refl) as ((Hh2 & Hd2 & Hf2) & -> & He & Hc).
    rewrite andb_false_r in Hs. unfold bind, ret in Hs. simpl in Hs. injection Hs as <- <-.
    split_and!; [congruence|congruence|simpl in He; done| |simpl in Hc; lia].
    intros q c Hq. rewrite <- Hf. by apply Hf2.
  - simpl in Hs. injection Hs as <- <-. split_and!; try done. intros q c. by rewrite Hf.
Qed.

Lemma os_makedirs_creates E p s s' : os_makedirs E p false s = (s', Some tt) -> is_dir s' p = true.
Proof.
  unfold os_makedirs. repeat case_match; intros Hm; simplify_eq/=; try done.
  unfold is_dir. simpl. apply bool_decide_eq_true. set_solver.
Qed.

Lemma path_exists_dirs_only s s' p :
  dirs_only s s' -> path_exists s p = true -> path_exists s' p = true.
Proof.
  intros (Hf & _ & Hd). unfold path_exists, is_file, is_dir. rewrite Hf.
  rewrite !orb_true_iff, !bool_decide_eq_true. set_solver.
Qed.

Lemma ensure_go_exists E srt cats s s' :
  ensure_go E srt cats s = (s', Some tt) ->
  forall c, In c cats -> path_exists s' (join (source_dir srt) c) = true.
Proof.
  revert s. induction cats as [|c0 cats IH]; intros s; simpl; [done|].
  unfold bind, gets, ret.
  destruct (path_exists s (join (source_dir srt) c0)) eqn:He.
  - intros Hg c [<-|Hc]; [|by eapply IH].
    eapply path_exists_dirs_only; [eapply ensure_go_dirs_only, Hg|done].
  - destruct (os_makedirs E (join (source_dir srt) c0) false s) as [s1 [[]|]] eqn:Hm; [|done].
    intros Hg c [<-|Hc]; [|by eapply IH].
    eapply path_exists_dirs_only; [eapply ensure_go_dirs_only, Hg|].
    unfold path_exists. rewrite (os_makedirs_creates _ _ _ _ Hm). apply orb_true_r.
Qed.

(** [_ensure_directories_exist] only creates directories.  When it
    succeeds with [create_subdirs] set, every category folder exists; with
    [create_subdirs] unset it does nothing.  When a folder creation fails,
    the [OSError] aborts [sort_files] before the listing. *)
Theorem ensure_directories_spec E srt dry strat bd s :
  let s' := (ensure_directories_exist E srt s).1 in
  let r := (ensure_directories_exist E srt s).2 in
  st_files s' = st_files s /\ st_history s' = st_history s /\ st_dirs s ⊆ st_dirs s' /\
  (create_subdirs srt = false -> s' = s /\ r = Some tt) /\
  (r = Some tt -> create_subdirs srt = true ->
   forall c, In c (Config.category_names (config srt)) ->
     path_exists s' (join (source_dir srt) c) = true) /\
  (r = None -> sort_files E srt dry strat bd s = (s', None)).
Proof.
  intros s' r. subst s' r.
  destruct (ensure_directories_exist E srt s) as [s' r] eqn:He. simpl.
  destruct (ensure_dirs_only _ _ _ _ _ He) as (Hf & Hh & Hd).
  split_and!; try done.
  - intros Hc. unfold ensure_directories_exist in He. rewrite Hc in He. by injection He as <- <-.
  - intros -> Hc. unfold ensure_directories_exist in He. rewrite Hc in He.
    by apply (ensure_go_exists E srt _ s s').
  - intros ->. unfold sort_files, bind at 1. by rewrite He.
Qed.

Lemma path_exists_of_file s p c : st_files s !! p = Some c -> path_exists s p = true.
Proof. intros H. unfold path_exists, is_file. rewrite H. reflexivity. Qed.

(** [Config(p)] on a readable file whose JSON has a ["categories"] object
    (with distinct names): a name of the file maps to the file's
    extensions and any other name to its default; the eight default
    categories come first in their order, then the file's new names in
    file order.  The state is unchanged. *)
Theorem config_init_custom E C p s text custom :
  p <> ""%string -> st_files s !! p = Some text -> env_read_fails E p = false ->
  json_load_config C text = DocObject (Some custom) -> List.NoDup (map fst custom) ->
  exists cats, config_init E C (Some p) s = (s, Some cats) /\
    (forall k, Config.dict_get cats k =
       match Config.dict_get custom k with
       | Some v => Some v
       | None => Config.dict_get Config.DEFAULT_CATEGORIES k
       end) /\
    map fst cats = map fst Config.DEFAULT_CATEGORIES ++
      List.filter (fun k => negb (Config.dict_has Config.DEFAULT_CATEGORIES k)) (map fst custom).
Proof.
  intros Hp Hf Hr Hj Hnd. exists (Config.dict_update Config.DEFAULT_CATEGORIES custom).
  split_and!.
  - unfold config_init, bind, gets. apply String.eqb_neq in Hp. rewrite Hp. simpl.
    rewrite (path_exists_of_file _ _ _ Hf). unfold load_config. by rewrite Hf, Hr, Hj.
  - intros k. by apply dict_update_get.
  - by apply dict_update_keys.
Qed.

(** [Config(p)] gives the default categories and changes nothing when
    [p] is absent or empty, is not a regular file (missing or a
    directory), cannot be read, is invalid JSON, or decodes to a value
    without ["categories"] that [load_config] accepts.  When the readable
    file at a non-empty [p] makes [load_config] raise an exception it does
    not catch (bytes that are not UTF-8, [null], a number, ...), [Config(p)]
    raises it, changing nothing. *)
Theorem config_init_default E C p s :
  (match p with
   | None => True
   | Some q => q = ""%string \/ st_files s !! q = None \/ env_read_fails E q = true \/
       (exists text, st_files s !! q = Some text /\
          (json_load_config C text = DocInvalid \/ json_load_config C text = DocObject None))
   end ->
   config_init E C p s = (s, Some Config.DEFAULT_CATEGORIES)) /\
  (forall q text, p = Some q -> q <> ""%string -> st_files s !! q = Some text ->
     env_read_fails E q = false -> json_load_config C text = DocRaises ->
     config_init E C p s = (s, None)).
Proof.
  unfold config_init, bind, gets, ret. split.
  - destruct p as [q|]; [|done].
    intros Hq. destruct (String.eqb_spec q "") as [Hq0|Hq0]; [done|]. simpl.
    destruct (path_exists s q); [|done]. unfold load_config.
    destruct (st_files s !! q) as [text|] eqn:Hf; [|done].
    destruct (env_read_fails E q) eqn:Hr; [done|].
    destruct Hq as [?|[?|[?|(text' & Ht & Hj)]]]; try congruence.
    assert (text' = text) as -> by congruence.
    by destruct Hj as [-> | ->].
  - intros q text -> Hq Hf Hr Hj. apply String.eqb_neq in Hq. rewrite Hq. simpl.
    rewrite (path_exists_of_file _ _ _ Hf). unfold load_config. by rewrite Hf, Hr, Hj.
Qed.

(** [save_config] writes the categories to a writable path and reports
    success; loading them back with [Config(p)] (with a codec that reads
    back what it wrote) gives the defaults updated by the saved categories,
    not the saved categories: a default category they lack comes back. *)
Theorem save_config_reload E C cats p s :
  p <> ""%string -> env_write_fails E p = false -> is_dir s p = false ->
  env_read_fails E p = false ->
  json_load_config C (json_dump_config C cats) = DocObject (Some cats) ->
  List.NoDup (map fst cats) ->
  let s' := (save_config E C cats p s).1 in
  (save_config E C cats p s).2 = Some tt /\
  st_files s' !! p = Some (json_dump_config C cats) /\
  config_init E C (Some p) s' = (s', Some (Config.dict_update Config.DEFAULT_CATEGORIES cats)) /\
  (forall k, Config.dict_get (Config.dict_update Config.DEFAULT_CATEGORIES cats) k =
     match Config.dict_get cats k with
     | Some v => Some v
     | None => Config.dict_get Config.DEFAULT_CATEGORIES k
     end).
Proof.
  intros Hp Hw Hd Hr Hj Hnd s'.
  assert (Hf : st_files s' !! p = Some (json_dump_config C cats)).
  { subst s'. unfold save_config. rewrite Hw, Hd. simpl. by simplify_map_eq. }
  split_and!.
  - unfold save_config. by rewrite Hw, Hd.
  - exact Hf.
  - unfold config_init, bind, gets. apply String.eqb_neq in Hp. rewrite Hp. simpl.
    rewrite (path_exists_of_file _ _ _ Hf). unfold load_config. by rewrite Hf, Hr, Hj.
  - intros k. by apply dict_update_get.
Qed.


Lemma file_sorter_init_aux E C src cfg subdirs hist s :
  let r := file_sorter_init E C src cfg subdirs hist s in
  let sd := abspath_expanduser C src in
  st_files r.1 = st_files s /\ st_dirs r.1 = st_dirs s /\
  st_history r.1 = history_of_file E C s hist /\
  r.2 = Some (if history_raises E C s hist then None
              else if path_exists s sd
              then Some (mk_sorter sd (match cfg with Some c => c | None => Config.DEFAULT_CATEGORIES end)
                           subdirs hist)
              else None).
Proof.
  unfold file_sorter_init, history_of_file, history_raises, bind, modify, gets, ret,
    load_history. cbn.
  repeat case_match; simplify_eq/=; split_and!; try done;
    unfold path_exists, is_file, is_dir in *; simpl in *; try congruence.
  all: match goal with
       | H : st_files ?s0 !! ?h = Some _, H' : context [st_files ?s0 !! ?h] |- _ =>
           rewrite H, bool_decide_eq_true_2 in H' by eauto; discriminate
       end.
Qed.

(** [FileSorter(...)] does not touch files or directories.  Its log is the
    decoded history file, or empty when that file is missing, a directory,
    unreadable, invalid JSON or not valid UTF-8 (whatever log the state had
    is dropped).  It raises a [ValueError] (the inner [None]) exactly when
    the history file is a readable file that is not valid UTF-8 (the
    [UnicodeDecodeError] of [load_history]) or the source path does not
    exist; otherwise it returns the sorter, with the default categories
    when no configuration is given. *)
Theorem file_sorter_init_spec E C src cfg subdirs hist s :
  let r := file_sorter_init E C src cfg subdirs hist s in
  let sd := abspath_expanduser C src in
  st_files r.1 = st_files s /\ st_dirs r.1 = st_dirs s /\
  st_history r.1 = history_of_file E C s hist /\
  r.2 = Some (if history_raises E C s hist then None
              else if path_exists s sd
              then Some (mk_sorter sd (match cfg with Some c => c | None => Config.DEFAULT_CATEGORIES end)
                           subdirs hist)
              else None).
Proof. apply file_sorter_init_aux. Qed.

(** After a real pass that moved a file and could save the history file, a
    new [FileSorter] on the same history file (with a codec that reads back
    what was written) starts with the log before the pass plus exactly
    [moved] records. *)
Theorem history_persists E C srt strat bd s s1 st src cfg subdirs :
  sort_files E srt false strat bd s = (s1, Some st) -> moved st <> 0%nat ->
  env_write_fails E (history_file srt) = false -> is_dir s1 (history_file srt) = false ->
  env_read_fails E (history_file srt) = false ->
  json_load_history C (env_json E (st_history s1)) = HistList (st_history s1) ->
  exists ops, length ops = moved st /\
    st_history (file_sorter_init E C src cfg subdirs (history_file srt) s1).1 =
      st_history s ++ ops.
Proof.
  intros Hs Hm Hw Hd Hr Hj.
  destruct (sort_files_log_aux _ _ _ _ _ _ _ Hs) as (ops & Hh & Hl & _ & _ & Hsave).
  exists ops. split; [done|].
  destruct (file_sorter_init_aux E C src cfg subdirs (history_file srt) s1) as (_ & _ & -> & _).
  unfold history_of_file. rewrite Hsave, Hr, Hj; try done.
  intros ->. simpl in Hl. lia.
Qed.




Lemma dict_has_get {V} (d : list (string * V)) k :
  Config.dict_has d k = true -> exists v, Config.dict_get d k = Some v.
Proof.
  unfold Config.dict_has. induction d as [|[k0 v0] d IH]; simpl; [done|].
  destruct (String.eqb k k0); [eauto|]. apply IH.
Qed.

Lemma dict_set_keys_in {V} (d : list (string * V)) k v k' :
  In k' (map fst (Config.dict_set d k v)) <-> In k' (map fst d) \/ k' = k.
Proof.
  rewrite dict_set_keys. destruct (Config.dict_has d k) eqn:Hh.
  - apply dict_has_In in Hh. split; [auto|]. intros [?| ->]; auto.
  - rewrite in_app_iff. simpl. naive_solver.
Qed.

Lemma dict_has_set {V} (d : list (string * V)) k v k' :
  Config.dict_has d k' = true -> Config.dict_has (Config.dict_set d k v) k' = true.
Proof. rewrite !dict_has_In, dict_set_keys_in. auto. Qed.

Lemma get_or0_set d k v k' :
  get_or0 (Config.dict_set d k v) k' = if String.eqb k' k then v else get_or0 d k'.
Proof. unfold get_or0. rewrite dict_get_set. by destruct (String.eqb k' k). Qed.

Lemma sum_set d k v :
  (list_sum (map snd (Config.dict_set d k v)) + get_or0 d k = list_sum (map snd d) + v)%nat.
Proof.
  unfold get_or0. induction d as [|[k0 v0] d IH]; simpl; [lia|].
  destruct (String.eqb k k0); simpl; lia.
Qed.

Lemma dict_set_head {V} (k0 : string) (v0 : V) d k v :
  exists v' rest, Config.dict_set ((k0, v0) :: d) k v = (k0, v') :: rest.
Proof. simpl. destruct (String.eqb k k0); eauto. Qed.

Lemma stats_loop_cons srt fn items d s :
  Config.dict_has d "Uncategorized" = true ->
  stats_loop srt (fn :: items) d s =
  if is_dir s (join (source_dir srt) fn) then stats_loop srt items d s
  else stats_loop srt items
         (Config.dict_set d (stat_key (config srt) fn)
            (S (get_or0 d (stat_key (config srt) fn)))) s.
Proof.
  intros Hu. cbn [stats_loop]. unfold bind at 1, gets.
  destruct (is_dir s (join (source_dir srt) fn)); [done|].
  unfold stat_key, get_or0.
  destruct (dict_has_get _ _ Hu) as [n Hn].
  destruct (Config.get_category_for_extension (config srt) (lower (splitext fn).2)) as [c|].
  - destruct (String.eqb c ""); [|done]. by rewrite Hn.
  - by rewrite Hn.
Qed.

Lemma stats_loop_spec srt items d s :
  Config.dict_has d "Uncategorized" = true ->
  let files := listed_files s (source_dir srt) items in
  exists res, stats_loop srt items d s = (s, Some res) /\
    (List.NoDup (map fst d) -> List.NoDup (map fst res)) /\
    (forall n rest, d = ("Uncategorized"%string, n) :: rest ->
       exists n' rest', res = ("Uncategorized"%string, n') :: rest') /\
    (forall k, In k (map fst res) <->
       In k (map fst d) \/ exists fn, In fn files /\ stat_key (config srt) fn = k) /\
    (forall k, get_or0 res k =
       get_or0 d k + length (List.filter (fun fn => String.eqb (stat_key (config srt) fn) k) files))%nat /\
    (list_sum (map snd res) = list_sum (map snd d) + length files)%nat.
Proof.
  intros Hu files. subst files. revert d Hu.
  induction items as [|fn items IH]; intros d Hu.
  - exists d. simpl. split_and!; eauto; try naive_solver; intros; simpl; lia.
  - rewrite stats_loop_cons by done. unfold listed_files. cbn [List.filter].
    destruct (is_dir s (join (source_dir srt) fn)); simpl; [apply IH, Hu|].
    set (k0 := stat_key (config srt) fn).
    destruct (IH (Config.dict_set d k0 (S (get_or0 d k0)))) as
      (res & Hr & Hnd & Hhd & Hin & Hcnt & Hsum); [by apply dict_has_set|].
    exists res. split_and!; [done| | | | |].
    + intros Hd. apply Hnd. by apply dict_set_nodup.
    + intros n rest ->. destruct (dict_set_head "Uncategorized" n rest k0 (S (get_or0 (("Uncategorized"%string, n) :: rest) k0))) as (v' & rest' & Hs).
      eapply Hhd, Hs.
    + intros k. rewrite Hin, dict_set_keys_in. fold (listed_files s (source_dir srt) items).
      split.
      * intros [[?| ->]|(fn' & ? & ?)]; [auto|right; exists fn; auto|right; exists fn'; auto].
      * intros [?|(fn' & [<-|?] & ?)]; [auto|left; right; done|right; exists fn'; auto].
    + intros k. rewrite Hcnt, get_or0_set. cbn [List.filter].
      fold (listed_files s (source_dir srt) items).
      destruct (String.eqb_spec k k0) as [Hk|Hk].
      * subst k. rewrite String.eqb_refl. simpl. lia.
      * replace (String.eqb k0 k) with false by (symmetry; apply String.eqb_neq; congruence).
        done.
    + rewrite Hsum. pose proof (sum_set d k0 (S (get_or0 d k0))) as Hs. cbn [length].
      fold (listed_files s (source_dir srt) items). lia.
Qed.

(** [get_statistics] never raises and changes nothing.  Its keys are
    distinct and ["Uncategorized"] comes first; the other keys are the
    categories of the counted files.  Each key's count is the number of
    listed non-directory entries counted under it, the history file
    included, and the counts add up to the number of those entries (none
    when the listing fails). *)
Theorem get_statistics_counts E srt s :
  let files := match env_listdir E (source_dir srt) with
               | None => []
               | Some items => listed_files s (source_dir srt) items
               end in
  exists res, get_statistics E srt s = (s, Some res) /\
    List.NoDup (map fst res) /\
    (exists n rest, res = ("Uncategorized"%string, n) :: rest) /\
    (forall k, In k (map fst res) <->
       k = "Uncategorized"%string \/ exists fn, In fn files /\ stat_key (config srt) fn = k) /\
    (forall k, get_or0 res k =
       length (List.filter (fun fn => String.eqb (stat_key (config srt) fn) k) files)) /\
    list_sum (map snd res) = length files.
Proof.
  intros files. subst files. unfold get_statistics.
  destruct (env_listdir E (source_dir srt)) as [items|].
  - destruct (stats_loop_spec srt items [("Uncategorized"%string, 0%nat)] s eq_refl)
      as (res & Hr & Hnd & Hhd & Hin & Hcnt & Hsum).
    exists res. split_and!; [done| | | | |].
    + apply Hnd. repeat constructor. simpl. tauto.
    + by eapply Hhd.
    + intros k. rewrite Hin. simpl. naive_solver.
    + intros k. rewrite Hcnt. unfold get_or0. simpl.
      destruct (String.eqb k "Uncategorized"); simpl; lia.
    + rewrite Hsum. simpl. lia.
  - eexists. split_and!; [reflexivity| | | | |].
    + repeat constructor. simpl. tauto.
    + eauto.
    + simpl. naive_solver.
    + intros k. unfold get_or0. simpl. by destruct (String.eqb k "Uncategorized").
    + done.
Qed.



Lemma config_init_pure E C p s :
  exists o, config_init E C p s = (s, o).
Proof.
  unfold config_init, bind, gets, ret, load_config.
  repeat case_match; simplify_eq; eauto.
Qed.

Lemma undo_loop_some E n r s : exists s' r', undo_loop E n r s = (s', Some r').
Proof.
  revert r s. induction n as [|n IH]; intros r s; simpl; unfold bind, gets, ret, modify; [eauto|].
  destruct (last (st_history s)) as [op|]; [|eauto].
  destruct (restore_one_some E op r (set_history (removelast (st_history s)) s))
    as (s' & r' & -> & _).
  apply IH.
Qed.

Lemma undo_some E srt count s : exists s' r, undo_last_operation E srt count s = (s', Some r).
Proof.
  unfold undo_last_operation, bind, gets, ret.
  destruct (undo_loop_some E (Z.to_nat (Z.min count (Z.of_nat (length (st_history s))))) 0 s)
    as (s' & r' & ->).
  unfold save_history. simpl. repeat case_match; simplify_eq/=; eauto.
Qed.

Lemma cli_config_pure E C args s :
  exists o, cli_load_config E C args s = (s, o).
Proof.
  unfold cli_load_config.
  destruct (arg_config args) as [p|]; [destruct (negb _)|]; apply config_init_pure.
Qed.

(** When the source path does not exist, [CLI.run] leaves files and
    directories as they were and returns 1: [FileSorter] raises its
    [ValueError], which [run] catches.  The exception is building the
    [Config] from [--config]: when that raises, the error is not caught
    and propagates out of [run]. *)
Theorem cli_missing_source E C wa ws args s :
  path_exists s (abspath_expanduser C (arg_source args)) = false ->
  let r := cli_run E C wa ws args s in
  st_files r.1 = st_files s /\ st_dirs r.1 = st_dirs s /\
  r.2 = match (cli_load_config E C args s).2 with Some _ => Some 1%Z | None => None end.
Proof.
  intros Hp.
  destruct (cli_config_pure E C args s) as [oc Hc].
  enough (exists s1, cli_run E C wa ws args s =
            (s1, match oc with Some _ => Some 1%Z | None => None end) /\
            st_files s1 = st_files s /\ st_dirs s1 = st_dirs s) as (s1 & -> & ? & ?)
    by (rewrite Hc; simpl; auto).
  unfold cli_run, bind at 1. rewrite Hc. destruct oc as [cats|]; [|by exists s].
  unfold bind at 1.
  destruct (file_sorter_init_aux E C (arg_source args) (Some cats) true "file_sorter_history.json" s)
    as (Hf & Hd & _ & Hr).
  rewrite Hp in Hr.
  destruct (file_sorter_init E C (arg_source args) (Some cats) true "file_sorter_history.json" s)
    as [s1 o]. simpl in *.
  assert (o = Some None) as -> by (rewrite Hr; by destruct (history_raises _ _ _ _)).
  by exists s1.
Qed.

Lemma get_statistics_pure E srt s : exists res, get_statistics E srt s = (s, Some res).
Proof.
  unfold get_statistics. destruct (env_listdir E (source_dir srt)) as [items|]; [|eauto].
  destruct (stats_loop_spec srt items [("Uncategorized"%string, 0%nat)] s eq_refl)
    as (res & -> & _). eauto.
Qed.

Lemma find_duplicates_pure E srt s : exists res, find_duplicates E srt s = (s, Some res).
Proof.
  unfold find_duplicates. destruct (env_listdir E (source_dir srt)) as [items|]; [|eauto].
  destruct (hash_loop_spec E srt s items [] (List.NoDup_nil _)) as (R & HR & _).
  unfold bind. rewrite HR. eauto.
Qed.


(** A non-zero [--undo] is handled before every other option: two command
    lines with the same source, configuration and undo count behave alike
    whatever their [--dry-run], [--stats], [--find-duplicates], [--watch]
    or strategy.  Once [Config] and [FileSorter] are built, the rest of
    the run is the [undo_last_operation] of that count on the new sorter,
    and [run] returns 0. *)
Theorem cli_undo_first E C wa ws args args' s n :
  arg_undo args = Some n -> n <> 0%Z ->
  arg_source args' = arg_source args -> arg_config args' = arg_config args ->
  arg_undo args' = Some n ->
  cli_run E C wa ws args s = cli_run E C wa ws args' s /\
  (forall cats s1 srt s2,
     cli_load_config E C args s = (s1, Some cats) ->
     file_sorter_init E C (arg_source args) (Some cats) true "file_sorter_history.json" s1 =
       (s2, Some (Some srt)) ->
     cli_run E C wa ws args s = ((undo_last_operation E srt n s2).1, Some 0%Z)).
Proof.
  intros Hu Hn Hs Hc Hu'. split.
  - unfold cli_run, cli_load_config. rewrite Hs, Hc, Hu', Hu.
    replace (negb (n =? 0)%Z) with true by (symmetry; apply negb_true_iff, Z.eqb_neq, Hn).
    reflexivity.
  - intros cats s1 srt s2 H1 H2. unfold cli_run, bind at 1. rewrite H1.
    unfold bind at 1. rewrite H2. rewrite Hu.
    replace (negb (n =? 0)%Z) with true by (symmetry; apply negb_true_iff, Z.eqb_neq, Hn).
    unfold bind. destruct (undo_some E srt n s2) as (s3 & r & Hr). by rewrite Hr.
Qed.

(** Without a non-zero [--undo], [--stats] and [--find-duplicates] leave
    files and directories as they were.  Unless building the [Config] from
    [--config] raises (the error then propagates out of [run]), [run]
    returns 0 when the source path exists and the history file is not a
    readable file whose bytes are not valid UTF-8, and 1 otherwise. *)
Theorem cli_report_read_only E C wa ws args s :
  match arg_undo args with Some n => n = 0%Z | None => True end ->
  arg_stats args = true \/ arg_find_duplicates args = true ->
  let r := cli_run E C wa ws args s in
  st_files r.1 = st_files s /\ st_dirs r.1 = st_dirs s /\
  r.2 = match (cli_load_config E C args s).2 with
        | None => None
        | Some _ => Some (if negb (history_raises E C s "file_sorter_history.json") &&
                             path_exists s (abspath_expanduser C (arg_source args))
                          then 0%Z else 1%Z)
        end.
Proof.
  intros Hu Hsf.
  destruct (cli_config_pure E C args s) as [oc Hc].
  set (b := negb (history_raises E C s "file_sorter_history.json") &&
            path_exists s (abspath_expanduser C (arg_source args))).
  enough (exists s1, cli_run E C wa ws args s =
            (s1, match oc with None => None | Some _ => Some (if b then 0%Z else 1%Z) end) /\
            st_files s1 = st_files s /\ st_dirs s1 = st_dirs s) as (s1 & -> & ? & ?)
    by (rewrite Hc; simpl; auto).
  unfold cli_run, bind at 1. rewrite Hc. destruct oc as [cats|]; [|by exists s].
  unfold bind at 1.
  destruct (file_sorter_init_aux E C (arg_source args) (Some cats) true "file_sorter_history.json" s)
    as (Hf & Hd & _ & Hr).
  destruct (file_sorter_init E C (arg_source args) (Some cats) true "file_sorter_history.json" s)
    as [s1 o]. simpl in Hr, Hf, Hd. subst o b.
  destruct (history_raises E C s "file_sorter_history.json"); simpl; [by exists s1|].
  destruct (path_exists s (abspath_expanduser C (arg_source args))); [|by exists s1].
  replace (match arg_undo args with Some n => negb (n =? 0)%Z | None => false end) with false
    by (destruct (arg_undo args); [subst; done|done]).
  unfold bind.
  destruct (arg_stats args).
  - match goal with |- context [get_statistics E ?srt s1] =>
      destruct (get_statistics_pure E srt s1) as (res & ->) end. by exists s1.
  - destruct Hsf as [? | ->]; [done|].
    match goal with |- context [find_duplicates E ?srt s1] =>
      destruct (find_duplicates_pure E srt s1) as (res & ->) end. by exists s1.
Qed.

Lemma remove_then_add_category_witness :
  map fst (Config.add_category (Config.remove_category Config.DEFAULT_CATEGORIES "Videos")
             "Videos" [".mkv"]) =
  List.filter (fun k => negb (String.eqb k "Videos")) (map fst Config.DEFAULT_CATEGORIES) ++ ["Videos"].
Proof.
  apply (remove_then_add_category Config.DEFAULT_CATEGORIES "Videos" [".mkv"]).
  apply NoDup_ListNoDup, (bool_decide_unpack _). vm_compute. exact I.
Defined.

Lemma config_init_custom_witness :
  exists cats, config_init quiet_env (test_codec []) (Some "/c/cfg.json") config_state =
                 (config_state, Some cats) /\
               Config.dict_get cats "Notes" = Some [".md"].
Proof.
  destruct (config_init_custom quiet_env (test_codec []) "/c/cfg.json" config_state "{notes}"
              notes_categories) as (cats & Hc & Hg & _).
  - discriminate.
  - vm_compute. reflexivity.
  - reflexivity.
  - reflexivity.
  - apply NoDup_ListNoDup, (bool_decide_unpack _). vm_compute. exact I.
  - exists cats. split; [exact Hc|]. rewrite Hg. reflexivity.
Defined.

Lemma config_init_default_witness :
  config_init quiet_env (test_codec []) (Some "/c/bad.json") config_state =
    (config_state, Some Config.DEFAULT_CATEGORIES) /\
  config_init quiet_env (test_codec []) (Some "/c/null.json") config_state =
    (config_state, None).
Proof.
  split.
  - apply (proj1 (config_init_default quiet_env (test_codec []) (Some "/c/bad.json") config_state)).
    right. right. right. exists "oops"%string. split.
    + vm_compute. reflexivity.
    + left. reflexivity.
  - apply (proj2 (config_init_default quiet_env (test_codec []) (Some "/c/null.json") config_state)
             "/c/null.json" "null").
    + reflexivity.
    + discriminate.
    + vm_compute. reflexivity.
    + reflexivity.
    + reflexivity.
Defined.

Lemma save_config_reload_witness :
  let s' := (save_config quiet_env (test_codec []) notes_categories "/c/new.json" config_state).1 in
  config_init quiet_env (test_codec []) (Some "/c/new.json") s' =
  (s', Some (Config.dict_update Config.DEFAULT_CATEGORIES notes_categories)).
Proof.
  destruct (save_config_reload quiet_env (test_codec []) notes_categories "/c/new.json"
              config_state) as (_ & _ & H & _).
  - discriminate.
  - reflexivity.
  - vm_compute. reflexivity.
  - reflexivity.
  - reflexivity.
  - apply NoDup_ListNoDup, (bool_decide_unpack _). vm_compute. exact I.
  - exact H.
Defined.

Lemma sort_files_log_witness :
  exists ops,
    st_history (sort_files round_env round_sorter false "rename" false sample_state).1 =
      st_history sample_state ++ ops /\ length ops = 3%nat.
Proof.
  destruct (sort_files_log round_env round_sorter "rename" false sample_state
              (sort_files round_env round_sorter false "rename" false sample_state).1
              (mk_stats 3 0 0)) as (ops & Hh & Hl & _).
  - vm_compute. reflexivity.
  - exists ops. split; [exact Hh|exact Hl].
Defined.

Lemma dry_run_accounting_witness :
  st_history (sort_files round_env round_sorter true "replace" false sample_state).1 =
    st_history sample_state /\
  errors (mk_stats 3 0 0) = 0%nat.
Proof.
  destruct (dry_run_accounting round_env round_sorter "replace" false sample_state
              (sort_files round_env round_sorter true "replace" false sample_state).1
              (mk_stats 3 0 0)) as (Hh & _ & He & _).
  - vm_compute. reflexivity.
  - split; [exact Hh|exact He].
Defined.

Lemma history_persists_witness :
  let s1 := (sort_files round_env round_sorter false "rename" false sample_state).1 in
  exists ops, length ops = 3%nat /\
    st_history (file_sorter_init round_env (test_codec (st_history s1)) "/d" None true
                  (history_file round_sorter) s1).1 = st_history sample_state ++ ops.
Proof.
  intros s1.
  apply (history_persists round_env (test_codec (st_history s1)) round_sorter "rename" false
           sample_state s1 (mk_stats 3 0 0) "/d" None true).
  - vm_compute. reflexivity.
  - discriminate.
  - reflexivity.
  - vm_compute. reflexivity.
  - reflexivity.
  - reflexivity.
Defined.

Lemma cli_missing_source_witness :
  (cli_run quiet_env (test_codec []) false (fun _ => ret tt) (base_args "/nowhere")
     sample_state).2 = Some 1%Z.
Proof.
  destruct (cli_missing_source quiet_env (test_codec []) false (fun _ => ret tt)
              (base_args "/nowhere") sample_state) as (_ & _ & H).
  - vm_compute. reflexivity.
  - rewrite H. reflexivity.
Defined.

Lemma cli_undo_first_witness :
  cli_run round_env (test_codec []) false (fun _ => ret tt)
    (mk_args "/d" None true false "rename" false (Some 2%Z) true false false) sample_state =
  cli_run round_env (test_codec []) false (fun _ => ret tt)
    (mk_args "/d" None false false "rename" false (Some 2%Z) false false false) sample_state /\
  cli_run round_env (test_codec []) false (fun _ => ret tt)
    (mk_args "/d" None true false "rename" false (Some 2%Z) true false false) sample_state =
  ((undo_last_operation round_env (test_sorter "file_sorter_history.json") 2 sample_state).1,
   Some 0%Z).
Proof.
  destruct (cli_undo_first round_env (test_codec []) false (fun _ => ret tt)
              (mk_args "/d" None true false "rename" false (Some 2%Z) true false false)
              (mk_args "/d" None false false "rename" false (Some 2%Z) false false false)
              sample_state 2%Z) as (H & H').
  - reflexivity.
  - discriminate.
  - reflexivity.
  - reflexivity.
  - reflexivity.
  - split; [exact H|].
    apply (H' Config.DEFAULT_CATEGORIES sample_state (test_sorter "file_sorter_history.json")
             sample_state); vm_compute; reflexivity.
Defined.

Lemma cli_report_read_only_witness :
  (cli_run round_env (test_codec []) false (fun _ => ret tt)
     (mk_args "/d" None false false "rename" false None true false false) sample_state).2 =
  Some 0%Z.
Proof.
  destruct (cli_report_read_only round_env (test_codec []) false (fun _ => ret tt)
              (mk_args "/d" None false false "rename" false None true false false)
              sample_state) as (_ & _ & H).
  - exact I.
  - left. reflexivity.
  - rewrite H. vm_compute. reflexivity.
Defined.
